(** * EchoGraph: the session, gate and graph-update engine

    A shallow embedding of [api_server.py], [src/core/game_engine.py] and
    [src/core/llm_client.py], and the properties of the specification that
    are checked against it.

    Conventions of the embedding:
    - a Python [dict] used as a table is a [gmap]; a [dict] used as a
      record of keyword arguments is a record with [option] fields
      ([None] is "key absent");
    - a Python object that is compared with [is] (a WebSocket, an engine)
      is a natural number standing for its identity;
    - code that can raise runs in the monad [Py.M], a state monad whose
      results are [Py.Ok v] or [Py.Raise e]; [try ... except] is
      [Py.try_except];
    - strings are byte strings and the string helpers are exact on ASCII
      text (the case mapping and the white space of the other planes of
      Unicode are not modelled);
    - collaborators whose code is outside the embedded files (the LLM
      provider, the update agent, the validation layer, the rule
      extractor, the disk) are the fields of a class: every theorem holds
      for every behaviour they may have. *)

From Stdlib Require Import ZArith QArith List String Ascii Lia Bool DecimalString.
From stdpp Require Import base option list strings gmap.

Local Open Scope Z_scope.
Local Open Scope string_scope.

(* ===================================================================== *)
(** ** Python primitives *)
(* ===================================================================== *)

Module Py.

(** The exceptions (subclasses of [Exception]) the embedded code raises,
    catches by class, or receives from a collaborator. *)
Inductive exn : Type :=
| KeyError (key : string)
| ValueError (msg : string)
| AttributeError (msg : string)
| TypeError (msg : string)
| JSONDecodeError (msg : string)
| HTTPException (status_code : Z) (detail : string)
| WebSocketDisconnect
| APITimeoutError
| APIConnectionError
| MissingEndpoint (node_id : string)
| IndexError
| OtherError (msg : string).

Inductive outcome (A : Type) : Type :=
| Ok (a : A)
| Raise (e : exn).
Arguments Ok {A} a.
Arguments Raise {A} e.

(** A computation over a mutable store [S] that returns or raises.  The
    store is kept when an exception is raised: what was mutated before
    the [raise] stays mutated. *)
Definition M (S A : Type) : Type := S -> outcome A * S.

Definition ret {S A} (a : A) : M S A := fun s => (Ok a, s).

Definition raise {S A} (e : exn) : M S A := fun s => (Raise e, s).

Definition bind {S A B} (m : M S A) (k : A -> M S B) : M S B :=
  fun s =>
    match m s with
    | (Ok a, s') => k a s'
    | (Raise e, s') => (Raise e, s')
    end.

(** [try: m  except Exception as e: h e] *)
Definition try_except {S A} (m : M S A) (h : exn -> M S A) : M S A :=
  fun s =>
    match m s with
    | (Ok a, s') => (Ok a, s')
    | (Raise e, s') => h e s'
    end.

Definition get {S} : M S S := fun s => (Ok s, s).
Definition put {S} (s : S) : M S unit := fun _ => (Ok tt, s).
Definition modify {S} (f : S -> S) : M S unit := fun s => (Ok tt, f s).

(** Lifting of a pure result that may be an exception. *)
Definition lift {S A} (o : outcome A) : M S A := fun s => (o, s).

(** [d[key]] on a keyword record: [KeyError] when the key is absent. *)
Definition subscript {S A} (key : string) (o : option A) : M S A :=
  match o with
  | Some a => ret a
  | None => raise (KeyError key)
  end.

(** [for x in l: body x], stopping at the first exception. *)
Fixpoint for_each {S A} (l : list A) (body : A -> M S unit) : M S unit :=
  match l with
  | [] => ret tt
  | x :: l' => bind (body x) (fun _ => for_each l' body)
  end.

(** [for x in l: acc = body acc x], stopping at the first exception. *)
Fixpoint for_fold {S A B} (l : list A) (body : B -> A -> M S B) (acc : B)
  : M S B :=
  match l with
  | [] => ret acc
  | x :: l' => bind (body acc x) (fun acc' => for_fold l' body acc')
  end.

(** The result of a computation run on a store of its own. *)
Definition eval_in {S A} (m : M S A) (s : S) : outcome A := fst (m s).

Definition is_ok {A} (o : outcome A) : bool :=
  match o with Ok _ => true | Raise _ => false end.

(** *** [str] helpers, exact on ASCII text *)

(** [str.isspace] on one ASCII character: TAB, LF, VT, FF, CR, the four
    separators FS, GS, RS, US and the space. *)
Definition isspace (c : ascii) : bool :=
  let n := nat_of_ascii c in
  ((9 <=? n)%nat && (n <=? 13)%nat) || ((28 <=? n)%nat && (n <=? 32)%nat).

Fixpoint lstrip (s : string) : string :=
  match s with
  | EmptyString => EmptyString
  | String c s' => if isspace c then lstrip s' else s
  end.

Fixpoint rstrip (s : string) : string :=
  match s with
  | EmptyString => EmptyString
  | String c s' =>
      match rstrip s' with
      | EmptyString => if isspace c then EmptyString else String c EmptyString
      | r => String c r
      end
  end.

(** [s.strip()] *)
Definition strip (s : string) : string := rstrip (lstrip s).

Definition lower_char (c : ascii) : ascii :=
  let n := nat_of_ascii c in
  if ((65 <=? n)%nat && (n <=? 90)%nat)%bool then ascii_of_nat (n + 32) else c.

(** [s.lower()] *)
Fixpoint lower (s : string) : string :=
  match s with
  | EmptyString => EmptyString
  | String c s' => String (lower_char c) (lower s')
  end.

(** [s.replace(a, b)] for one-character [a] and [b]. *)
Fixpoint replace_char (a b : ascii) (s : string) : string :=
  match s with
  | EmptyString => EmptyString
  | String c s' =>
      String (if Ascii.eqb c a then b else c) (replace_char a b s')
  end.

(** [s.startswith(p)] *)
Fixpoint startswith (p s : string) : bool :=
  match p, s with
  | EmptyString, _ => true
  | String a p', String b s' => Ascii.eqb a b && startswith p' s'
  | String _ _, EmptyString => false
  end.

(** [str(n)] for a natural number. *)
Definition str_of_nat (n : nat) : string :=
  NilEmpty.string_of_uint (Nat.to_uint n).

End Py.

Notation "x <- m ;; k" := (Py.bind m (fun x => k))
  (at level 100, m at next level, right associativity).
Notation "m ;;; k" := (Py.bind m (fun _ => k))
  (at level 100, right associativity).

(* ===================================================================== *)
(** ** api_server.py: the WebSocket connection manager *)
(* ===================================================================== *)

Module Channel.

(** A WebSocket object, known by its identity. *)
Abbreviation socket := nat.

(** What the server does to sockets and to the binding table, in the
    order in which it does it. *)
Inductive effect : Type :=
| WsAccept (ws : socket)
| WsClose (ws : socket) (code : Z) (reason : string)
| WsSendJson (ws : socket) (msg_type : string)
| Bind (session_id : string) (ws : socket)
| Unbind (session_id : string).

(** How the peer's sockets behave: each call on a socket may raise. *)
Class SocketBehaviour : Type := {
  accept_result : socket -> Py.outcome unit;
  close_result : socket -> Z -> Py.outcome unit;
  send_result : socket -> string -> Py.outcome unit;
}.

(** [class ConnectionManager]: [active_connections] maps a session id to
    its current socket; [trace] is the history of effects, newest
    last. *)
Record ConnectionManager : Type := {
  active_connections : gmap string socket;
  trace : list effect;
}.

Definition emit (e : effect) : Py.M ConnectionManager unit :=
  Py.modify (fun m => {| active_connections := active_connections m;
                         trace := trace m ++ [e] |}).

Definition set_connections (f : gmap string socket -> gmap string socket)
  : Py.M ConnectionManager unit :=
  Py.modify (fun m => {| active_connections := f (active_connections m);
                         trace := trace m |}).

Section WithSockets.
Context `{SocketBehaviour}.

(** [await websocket.accept()] *)
Definition ws_accept (ws : socket) : Py.M ConnectionManager unit :=
  emit (WsAccept ws) ;;; Py.lift (accept_result ws).

(** [await websocket.close(code=..., reason=...)] *)
Definition ws_close (ws : socket) (code : Z) (reason : string)
  : Py.M ConnectionManager unit :=
  emit (WsClose ws code reason) ;;; Py.lift (close_result ws code).

(** [await websocket.send_json(message)] *)
Definition ws_send_json (ws : socket) (msg_type : string)
  : Py.M ConnectionManager unit :=
  emit (WsSendJson ws msg_type) ;;; Py.lift (send_result ws msg_type).

(** [ConnectionManager.connect] *)
Definition connect (session_id : string) (websocket : socket)
  : Py.M ConnectionManager unit :=
  ws_accept websocket ;;;
  m <- Py.get ;;
  let old_ws := active_connections m !! session_id in
  (match old_ws with
   | Some old =>
       if negb (Nat.eqb old websocket) then
         Py.try_except
           (ws_close old 1012 "Replaced by new connection")
           (fun _ => Py.ret tt)
       else Py.ret tt
   | None => Py.ret tt
   end) ;;;
  set_connections (insert session_id websocket) ;;;
  emit (Bind session_id websocket).

(** [ConnectionManager.disconnect]; [websocket] is [None] when the
    caller does not name a socket. *)
Definition disconnect (session_id : string) (websocket : option socket)
  : Py.M ConnectionManager unit :=
  m <- Py.get ;;
  match active_connections m !! session_id with
  | Some current =>
      if match websocket with
         | None => true
         | Some ws => Nat.eqb current ws
         end
      then set_connections (delete session_id) ;;;
           emit (Unbind session_id)
      else Py.ret tt
  | None => Py.ret tt
  end.

(** [ConnectionManager.send_message] *)
Definition send_message (session_id : string) (msg_type : string)
  : Py.M ConnectionManager unit :=
  m <- Py.get ;;
  match active_connections m !! session_id with
  | Some websocket =>
      Py.try_except
        (ws_send_json websocket msg_type)
        (fun _ => disconnect session_id (Some websocket))
  | None => Py.ret tt
  end.

End WithSockets.

End Channel.

(* ===================================================================== *)
(** ** The knowledge graph and the session memory *)
(* ===================================================================== *)

Module KnowledgeGraph.

(** The value of a node attribute. *)
Inductive attr_val : Type :=
| AStr (s : string)
| ANum (z : Z)
| ABool (b : bool)
| AList (l : list string).

Definition edge : Type := string * string * string.

Definition edge_eqb (e1 e2 : edge) : bool :=
  let '(s1, t1, r1) := e1 in
  let '(s2, t2, r2) := e2 in
  String.eqb s1 s2 && String.eqb t1 t2 && String.eqb r1 r2.

(** Modelled from the spec: the class [KnowledgeGraph] of
    [src/core/knowledge_graph.py] is not among the embedded files.  A
    graph is the attribute dictionary of each node (the keys ["type"],
    ["name"], ["description"], ["is_deleted"], ["deletion_reason"]
    among them) and the list of its edges (source, target,
    relationship), in insertion order and without repetition; time
    stamps are left out. *)
Record t : Type := {
  nodes : gmap string (gmap string attr_val);
  edges : list edge;
}.

Definition empty : t := {| nodes := ∅; edges := [] |}.

(** [graph.has_node(node_id)] *)
Definition has_node (g : t) (node_id : string) : bool :=
  bool_decide (is_Some (nodes g !! node_id)).

(** [get_node(node_id)]: the attribute dictionary, or [None]. *)
Definition get_node (g : t) (node_id : string) : option (gmap string attr_val) :=
  nodes g !! node_id.

(** [len(graph.nodes())] and [len(graph.edges())] *)
Definition number_of_nodes (g : t) : nat := size (nodes g).
Definition number_of_edges (g : t) : nat := length (edges g).

(** Modelled from the spec: [add_or_update_node(id, type, **attrs)]
    "upserts; preserves unspecified attributes".  The keyword arguments
    are written over the stored dictionary, after its ["type"]. *)
Definition add_or_update_node (node_id : string) (node_type : attr_val)
    (attrs : gmap string attr_val) (g : t) : t :=
  let old := default ∅ (nodes g !! node_id) in
  {| nodes := <[node_id := attrs ∪ <["type" := node_type]> old]> (nodes g);
     edges := edges g |}.

(** Modelled from the spec: [add_edge(source, target, relationship)]
    "fails with MissingEndpoint if either node absent"; an edge that is
    already there is not added twice. *)
Definition add_edge (source target relationship : string) (g : t)
  : Py.outcome t :=
  if negb (has_node g source) then Py.Raise (Py.MissingEndpoint source)
  else if negb (has_node g target) then Py.Raise (Py.MissingEndpoint target)
  else if existsb (edge_eqb (source, target, relationship)) (edges g)
  then Py.Ok g
  else Py.Ok {| nodes := nodes g;
                edges := edges g ++ [(source, target, relationship)] |}.

Definition incident (node_id : string) (e : edge) : bool :=
  let '(s, t, _) := e in String.eqb s node_id || String.eqb t node_id.

(** Modelled from the spec: [delete_node(id)] "removes node and all
    incident edges; returns whether it existed". *)
Definition delete_node (node_id : string) (g : t) : bool * t :=
  if has_node g node_id
  then (true, {| nodes := delete node_id (nodes g);
                 edges := List.filter (fun e => negb (incident node_id e))
                                      (edges g) |})
  else (false, g).

(** Modelled from the spec: [mark_node_deleted(id, reason)] "soft-delete;
    node stays queryable".  The spec does not say what happens for an
    absent node: the graph is left as it is. *)
Definition mark_node_deleted (node_id reason : string) (g : t) : t :=
  {| nodes := alter (fun a => <["deletion_reason" := AStr reason]>
                                (<["is_deleted" := ABool true]> a))
                    node_id (nodes g);
     edges := edges g |}.

(** An edge agrees with the three arguments of [delete_edge]: with
    every one that is not ["*"]. *)
Definition edge_matches (source target relationship : string) (e : edge) : bool :=
  let '(s, t, r) := e in
  (String.eqb source "*" || String.eqb s source)
  && (String.eqb target "*" || String.eqb t target)
  && (String.eqb relationship "*" || String.eqb r relationship).

(** Modelled from the spec: [delete_edge(source, target, relationship)]
    "precise delete.  Wildcard form accepts "*" for any of the three;
    matches all": the edges that agree with every argument that is not
    ["*"] are removed.  The spec does not say what is returned; the
    callers only test the result for truth, and it says whether an edge
    was removed. *)
Definition delete_edge (source target relationship : string) (g : t)
  : bool * t :=
  if existsb (edge_matches source target relationship) (edges g)
  then (true, {| nodes := nodes g;
                 edges := List.filter
                            (fun e => negb (edge_matches source target relationship e))
                            (edges g) |})
  else (false, g).

(** Modelled from the spec: [clear()] "empties nodes and edges". *)
Definition clear (g : t) : t := empty.

End KnowledgeGraph.

Abbreviation attr_dict := (gmap string KnowledgeGraph.attr_val).

Module Memory.

(** One entry of the conversation log: [{user, assistant}]. *)
Record turn : Type := { user : string; assistant : string }.

(** Modelled from the spec: the class [GRAGMemory] of [src/memory] is
    not among the embedded files.  It "holds a KnowledgeGraph, a
    conversation log (ordered sequence of {user, assistant,
    timestamp}), and a state key-value map"; [graph_save_path] is the
    path its graph is saved to.  Its methods on nodes and edges, below,
    are the operations of its graph. *)
Record GRAGMemory : Type := {
  knowledge_graph : KnowledgeGraph.t;
  conversation_history : list turn;
  state : gmap string string;
  graph_save_path : option string;
}.

Definition with_graph (f : KnowledgeGraph.t -> KnowledgeGraph.t)
    (m : GRAGMemory) : GRAGMemory :=
  {| knowledge_graph := f (knowledge_graph m);
     conversation_history := conversation_history m;
     state := state m;
     graph_save_path := graph_save_path m |}.

(** [memory.add_or_update_node(node_id, node_type, **attrs)] *)
Definition add_or_update_node (node_id : string)
    (node_type : KnowledgeGraph.attr_val) (attrs : attr_dict)
  : Py.M GRAGMemory unit :=
  Py.modify (with_graph (KnowledgeGraph.add_or_update_node node_id node_type attrs)).

(** [memory.add_edge(source, target, relationship)] *)
Definition add_edge (source target relationship : string)
  : Py.M GRAGMemory unit :=
  fun m =>
    match KnowledgeGraph.add_edge source target relationship (knowledge_graph m) with
    | Py.Ok g => (Py.Ok tt, with_graph (fun _ => g) m)
    | Py.Raise e => (Py.Raise e, m)
    end.

(** [memory.delete_node(node_id)] *)
Definition delete_node (node_id : string) : Py.M GRAGMemory bool :=
  fun m =>
    let '(existed, g) := KnowledgeGraph.delete_node node_id (knowledge_graph m) in
    (Py.Ok existed, with_graph (fun _ => g) m).

(** [memory.mark_node_as_deleted(node_id, reason)] *)
Definition mark_node_as_deleted (node_id reason : string)
  : Py.M GRAGMemory unit :=
  Py.modify (with_graph (KnowledgeGraph.mark_node_deleted node_id reason)).

(** [memory.delete_edge(source, target, relationship)] *)
Definition delete_edge (source target relationship : string)
  : Py.M GRAGMemory bool :=
  fun m =>
    let '(existed, g) :=
      KnowledgeGraph.delete_edge source target relationship (knowledge_graph m) in
    (Py.Ok existed, with_graph (fun _ => g) m).

(** [memory.clear_all()] *)
Definition clear_all : Py.M GRAGMemory unit :=
  Py.modify (with_graph KnowledgeGraph.clear).

(** [memory.add_conversation(user, assistant)]: "appends". *)
Definition add_conversation (user_input llm_response : string)
  : Py.M GRAGMemory unit :=
  Py.modify (fun m =>
    {| knowledge_graph := knowledge_graph m;
       conversation_history :=
         conversation_history m ++ [{| user := user_input; assistant := llm_response |}];
       state := state m;
       graph_save_path := graph_save_path m |}).

(** [memory.get_state(key)] and [memory.update_state(key, value)] *)
Definition get_state (key : string) (m : GRAGMemory) : option string :=
  state m !! key.

Definition update_state (key value : string) : Py.M GRAGMemory unit :=
  Py.modify (fun m =>
    {| knowledge_graph := knowledge_graph m;
       conversation_history := conversation_history m;
       state := <[key := value]> (state m);
       graph_save_path := graph_save_path m |}).

End Memory.

(* ===================================================================== *)
(** ** src/core/game_engine.py *)
(* ===================================================================== *)

Module Delta.

(** The entries of an execution-format delta.  Each is a Python [dict]:
    a field is [None] when the key is absent. *)
Record node_update : Type := {
  nu_node_id : option string;
  nu_type : option string;
  nu_attributes : option attr_dict;
}.

Record edge_add : Type := {
  ea_source : option string;
  ea_target : option string;
  ea_relationship : option string;
}.

Record node_deletion : Type := {
  nd_node_id : option string;
  nd_deletion_type : option string;
  nd_reason : option string;
}.

Record edge_deletion : Type := {
  ed_source : option string;
  ed_target : option string;
  ed_relationship : option string;
  ed_reason : option string;
}.

(** The delta itself; every list is read with [.get(key, [])], so an
    absent key is the empty list. *)
Record t : Type := {
  nodes_to_update : list node_update;
  edges_to_add : list edge_add;
  nodes_to_delete : list node_deletion;
  edges_to_delete : list edge_deletion;
}.

(** The result of applying a delta. *)
Record counters : Type := {
  nodes_updated : Z;
  edges_added : Z;
  nodes_deleted : Z;
  edges_deleted : Z;
}.

Definition zero_counters : counters :=
  {| nodes_updated := 0; edges_added := 0; nodes_deleted := 0; edges_deleted := 0 |}.

End Delta.

Module GameEngine.
Import Delta Memory.

(** What [GRAGUpdateAgent.analyze_conversation_for_updates] returns: a
    dictionary that has the key ["error"] or not. *)
Record analysis_result : Type := {
  error : option string;
  operations : Delta.t;
}.

(** The collaborators of the engine whose code is not embedded.  Each
    call returns or raises. *)
Class Collaborators : Type := {
  (** [grag_agent.analyze_conversation_for_updates(user_input,
      llm_response, current_graph, recent_context)] *)
  analyze_conversation_for_updates :
    string -> string -> KnowledgeGraph.t -> string -> Py.outcome analysis_result;
  (** [grag_agent.convert_to_execution_format(analysis_result)] *)
  convert_to_execution_format : analysis_result -> Py.outcome Delta.t;
  (** [validation_layer.validate(updates, graph)]; [None] is a result
      that is false in a condition (an empty dictionary). *)
  validate : Delta.t -> KnowledgeGraph.t -> Py.outcome (option Delta.t);
  (** [rpg_processor.extract_rpg_entities_and_relations(llm_response)] *)
  extract_rpg_entities_and_relations : string -> Py.outcome Delta.t;
  (** [knowledge_graph.save_graph(path)] *)
  save_graph : KnowledgeGraph.t -> string -> Py.outcome unit;
  (** [memory.sync_entities_to_json()] *)
  sync_entities_to_json : GRAGMemory -> Py.outcome unit;
}.

(** [GameEngine._generate_entity_id] *)
Definition _generate_entity_id (name entity_type : string) : string :=
  let clean_name := Py.replace_char " " "_" (Py.lower (Py.strip name)) in
  entity_type +:+ "_" +:+ clean_name.

(** The body of the first loop of [_process_deletion_events]: one entry
    of [nodes_to_delete]. *)
Definition process_node_deletion (nodes_deleted : Z) (node_deletion : node_deletion)
  : Py.M GRAGMemory Z :=
  Py.try_except
    (node_id <- Py.subscript "node_id" (nd_node_id node_deletion) ;;
     let deletion_type := default "default" (nd_deletion_type node_deletion) in
     let reason := default "No reason provided" (nd_reason node_deletion) in
     if String.eqb deletion_type "death" then
       mark_node_as_deleted node_id reason ;;;
       Py.ret (nodes_deleted + 1)
     else if String.eqb deletion_type "lost" then
       existed <- delete_node node_id ;;
       if existed then Py.ret (nodes_deleted + 1)
       else Py.ret nodes_deleted
     else
       mark_node_as_deleted node_id reason ;;;
       Py.ret (nodes_deleted + 1))
    (fun _ => Py.ret nodes_deleted).

(** [field == "*"] *)
Definition is_wildcard (field : option string) : bool :=
  match field with
  | Some f => String.eqb f "*"
  | None => false
  end.

(** [not (field != "*" and actual != field)] *)
Definition field_matches (field : option string) (actual : string) : bool :=
  match field with
  | Some f => String.eqb f "*" || String.eqb actual f
  | None => false
  end.

(** [memory.delete_edge] called with the values of [.get]: a missing
    component is Python's [None], which no edge has. *)
Definition delete_edge_get (source target relationship : option string)
  : Py.M GRAGMemory bool :=
  match source, target, relationship with
  | Some s, Some t, Some r => delete_edge s t r
  | _, _, _ => Py.ret false
  end.

(** The body of the second loop of [_process_deletion_events]: one
    entry of [edges_to_delete]. *)
Definition process_edge_deletion (edges_deleted : Z) (edge_deletion : edge_deletion)
  : Py.M GRAGMemory Z :=
  Py.try_except
    (let source := ed_source edge_deletion in
     let target := ed_target edge_deletion in
     let relationship := ed_relationship edge_deletion in
     if is_wildcard source || is_wildcard relationship then
       m <- Py.get ;;
       let edges_to_remove :=
         List.filter
           (fun e : KnowledgeGraph.edge =>
              let '(src, tgt, rel) := e in
              field_matches source src && field_matches target tgt
              && field_matches relationship rel)
           (KnowledgeGraph.edges (knowledge_graph m)) in
       Py.for_fold edges_to_remove
         (fun deleted (e : KnowledgeGraph.edge) =>
            let '(src, tgt, rel) := e in
            ok <- delete_edge src tgt rel ;;
            Py.ret (if ok then deleted + 1 else deleted))
         edges_deleted
     else
       ok <- delete_edge_get source target relationship ;;
       Py.ret (if ok then edges_deleted + 1 else edges_deleted))
    (fun _ => Py.ret edges_deleted).

(** [GameEngine._process_deletion_events]: the pair of
    [nodes_deleted] and [edges_deleted]. *)
Definition _process_deletion_events (validated_updates : Delta.t)
  : Py.M GRAGMemory (Z * Z) :=
  nodes_deleted <-
    Py.for_fold (nodes_to_delete validated_updates) process_node_deletion 0 ;;
  edges_deleted <-
    Py.for_fold (edges_to_delete validated_updates) process_edge_deletion 0 ;;
  Py.ret (nodes_deleted, edges_deleted).

(** The body of the node loop of [_apply_validated_updates]. *)
Definition apply_node_update (nodes_updated_count : Z) (node_update : node_update)
  : Py.M GRAGMemory Z :=
  Py.try_except
    (node_id <- Py.subscript "node_id" (nu_node_id node_update) ;;
     m <- Py.get ;;
     if negb (KnowledgeGraph.has_node (knowledge_graph m) node_id) then
       let node_type := default "unknown" (nu_type node_update) in
       let node_type :=
         if String.eqb node_type "unknown"
            && bool_decide (is_Some (default ∅ (nu_attributes node_update) !! "location"))
         then "character" else node_type in
       attributes <- Py.subscript "attributes" (nu_attributes node_update) ;;
       add_or_update_node node_id (KnowledgeGraph.AStr node_type) attributes ;;;
       Py.ret nodes_updated_count
     else
       let existing_node :=
         default ∅ (KnowledgeGraph.get_node (knowledge_graph m) node_id) in
       let node_type :=
         default (KnowledgeGraph.AStr "unknown") (existing_node !! "type") in
       attributes <- Py.subscript "attributes" (nu_attributes node_update) ;;
       add_or_update_node node_id node_type attributes ;;;
       Py.ret nodes_updated_count)
    (fun _ =>
       (* the warning formats node_update['node_id'] *)
       _ <- Py.subscript "node_id" (nu_node_id node_update) ;;
       Py.ret (nodes_updated_count - 1)).

(** The body of the edge loop of [_apply_validated_updates]. *)
Definition apply_edge_add (edges_added_count : Z) (edge_add : edge_add)
  : Py.M GRAGMemory Z :=
  Py.try_except
    (source <- Py.subscript "source" (ea_source edge_add) ;;
     target <- Py.subscript "target" (ea_target edge_add) ;;
     relationship <- Py.subscript "relationship" (ea_relationship edge_add) ;;
     add_edge source target relationship ;;;
     Py.ret edges_added_count)
    (fun _ =>
       (* the warning formats edge_add['source'] and edge_add['target'] *)
       _ <- Py.subscript "source" (ea_source edge_add) ;;
       _ <- Py.subscript "target" (ea_target edge_add) ;;
       Py.ret (edges_added_count - 1)).

Section WithCollaborators.
Context `{Collaborators}.

(** The two statements that persist the graph, at the end of
    [_apply_validated_updates] and of the bootstrap. *)
Definition persist : Py.M GRAGMemory unit :=
  m <- Py.get ;;
  (match graph_save_path m with
   | Some path =>
       if String.eqb path "" then Py.ret tt
       else Py.lift (save_graph (knowledge_graph m) path)
   | None => Py.ret tt
   end) ;;;
  Py.lift (sync_entities_to_json m).

(** [GameEngine._apply_validated_updates] *)
Definition _apply_validated_updates (validated_updates : option Delta.t)
    (source : string) : Py.M GRAGMemory counters :=
  match validated_updates with
  | None => Py.ret zero_counters
  | Some validated_updates =>
      let nodes_updated_count :=
        Z.of_nat (length (nodes_to_update validated_updates)) in
      let edges_added_count :=
        Z.of_nat (length (edges_to_add validated_updates)) in
      deletion_stats <- _process_deletion_events validated_updates ;;
      let '(nodes_deleted_count, edges_deleted_count) := deletion_stats in
      nodes_updated_count <-
        Py.for_fold (nodes_to_update validated_updates)
                    apply_node_update nodes_updated_count ;;
      edges_added_count <-
        Py.for_fold (edges_to_add validated_updates)
                    apply_edge_add edges_added_count ;;
      persist ;;;
      Py.ret {| nodes_updated := nodes_updated_count;
                edges_added := edges_added_count;
                nodes_deleted := nodes_deleted_count;
                edges_deleted := edges_deleted_count |}
  end.

(** [GameEngine._get_recent_conversation_context]: the last three
    turns, one line per non-empty message. *)
Definition _get_recent_conversation_context (m : GRAGMemory) : string :=
  let history := conversation_history m in
  let recent_history := drop (length history - 3)%nat history in
  let context_parts :=
    flat_map (fun turn : turn =>
                ((if String.eqb (user turn) "" then []
                  else ["用户: " +:+ user turn])
                 ++ (if String.eqb (assistant turn) "" then []
                     else ["助手: " +:+ assistant turn]))%list)
             recent_history in
  String.concat (String (ascii_of_nat 10) EmptyString) context_parts.

(** [GameEngine._extract_with_local_processor] *)
Definition _extract_with_local_processor (llm_response : string)
  : Py.M GRAGMemory counters :=
  Py.try_except
    (updates <- Py.lift (extract_rpg_entities_and_relations llm_response) ;;
     m <- Py.get ;;
     validated_updates <- Py.lift (validate updates (knowledge_graph m)) ;;
     _apply_validated_updates validated_updates "local_processor")
    (fun _ => Py.ret zero_counters).

(** The body of the [try] of [_extract_with_agent]. *)
Definition agent_attempt (user_input llm_response : string)
  : Py.M GRAGMemory counters :=
m <- Py.get ;;
let recent_context := _get_recent_conversation_context m in
analysis <-
  Py.lift (analyze_conversation_for_updates
             user_input llm_response (knowledge_graph m) recent_context) ;;
match error analysis with
| Some _ => _extract_with_local_processor llm_response
| None =>
    execution_format <- Py.lift (convert_to_execution_format analysis) ;;
    m <- Py.get ;;
    validated_updates <-
      Py.lift (validate execution_format (knowledge_graph m)) ;;
    _apply_validated_updates validated_updates "grag_agent"
end.

(** [GameEngine._extract_with_agent] *)
Definition _extract_with_agent (user_input llm_response : string)
  : Py.M GRAGMemory counters :=
Py.try_except
  (agent_attempt user_input llm_response)
  (fun _ => _extract_with_local_processor llm_response).

(** [GameEngine.extract_updates_from_response]; [grag_agent] says
    whether the engine has an agent ([self.grag_agent] is not
    [None]). *)
Definition extract_updates_from_response (grag_agent : bool)
    (llm_response user_input : string) : Py.M GRAGMemory counters :=
  if grag_agent then _extract_with_agent user_input llm_response
  else _extract_with_local_processor llm_response.

(** [GameEngine._fallback_simple_initialization]; the result is the
    pair [nodes_added], [edges_added] and the [method]. *)
Definition _fallback_simple_initialization (char_name char_description : string)
  : Py.M GRAGMemory (Z * Z * string) :=
  Py.try_except
    (let character_id := _generate_entity_id char_name "character" in
     let attributes : attr_dict :=
       <["name" := KnowledgeGraph.AStr char_name]>
       (<["description" :=
            KnowledgeGraph.AStr
              (if String.eqb char_description "" then "主要角色"
               else String.substring 0 200 char_description)]>
       (<["is_main_character" := KnowledgeGraph.ABool true]>
       (<["source" := KnowledgeGraph.AStr "simple_fallback"]> ∅))) in
     add_or_update_node character_id (KnowledgeGraph.AStr "character") attributes ;;;
     persist ;;;
     Py.ret (1, 0, "simple_fallback"))
    (fun _ => Py.ret (0, 0, "failed")).

End WithCollaborators.

End GameEngine.

(* ===================================================================== *)
(** ** src/core/llm_client.py *)
(* ===================================================================== *)

Module LLMClient.

Record message : Type := { role : string; content : string }.

(** The arguments of one [client.chat.completions.create(...)] call. *)
Record request : Type := {
  req_model : string;
  req_messages : list message;
  req_max_tokens : Z;
  req_temperature : Q;
  req_timeout : Q;
  req_response_format : string;
}.

(** [config.llm]: the settings the client reads. *)
Record LLMConfig : Type := {
  api_key : string;
  base_url : string;
  cfg_model : string;
  cfg_max_tokens : Z;
  cfg_temperature : Q;
  request_timeout : Q;
}.

(** The provider behind [openai.OpenAI]: a call returns the
    [message.content] of each choice of the response, or raises
    ([APITimeoutError] when the time-out expires, [APIConnectionError]
    on a transport error, and so on). *)
Class Provider : Type := {
  config : LLMConfig;
  create : request -> Py.outcome (list (option string));
}.

(** [class LLMClient]: the fields set by [__init__]. *)
Record t : Type := {
  model : string;
  max_tokens : Z;
  temperature : Q;
}.

(** The keyword arguments of [chat]. *)
Record kwargs : Type := {
  kw_model : option string;
  kw_max_tokens : option Z;
  kw_temperature : option Q;
}.

Section WithProvider.
Context `{Provider}.

(** [LLMClient.__init__] *)
Definition __init__ : t :=
  {| model := cfg_model config;
     max_tokens := cfg_max_tokens config;
     temperature := cfg_temperature config |}.

(** [LLMClient.chat]; the state is the list of the calls made to the
    provider, oldest first. *)
Definition chat (self : t) (messages : list message) (kw : kwargs)
  : Py.M (list request) string :=
  Py.try_except
    (let request :=
       {| req_model := default (model self) (kw_model kw);
          req_messages := messages;
          req_max_tokens := default (max_tokens self) (kw_max_tokens kw);
          req_temperature := default (temperature self) (kw_temperature kw);
          req_timeout := request_timeout config;
          req_response_format := "json_object" |} in
     Py.modify (fun calls => calls ++ [request])%list ;;;
     choices <- Py.lift (create request) ;;
     first_choice <- (match choices with
                      | c :: _ => Py.ret c
                      | [] => Py.raise Py.IndexError
                      end) ;;
     let content :=
       match first_choice with
       | Some c => c
       | None => ""
       end in
     Py.ret content)
    (fun _ => Py.ret "抱歉，系统暂时无法响应。").

(** [LLMClient.generate_response]; an argument that is [None] or zero
    is replaced by the client's own setting. *)
Definition generate_response (self : t) (prompt : string)
    (max_tokens_arg : option Z) (temperature_arg : option Q)
    (system_message : option string) : Py.M (list request) string :=
  let messages :=
    ((match system_message with
      | Some sm =>
          if String.eqb sm "" then []
          else [{| role := "system"; content := sm |}]
      | None => []
      end) ++ [{| role := "user"; content := prompt |}])%list in
  chat self messages
    {| kw_model := None;
       kw_max_tokens :=
         Some (match max_tokens_arg with
               | Some n => if Z.eqb n 0 then max_tokens self else n
               | None => max_tokens self
               end);
       kw_temperature :=
         Some (match temperature_arg with
               | Some q => if Qeq_bool q 0 then temperature self else q
               | None => temperature self
               end) |}.

End WithProvider.

End LLMClient.

(* ===================================================================== *)
(** ** src/core/game_engine.py: the character-card bootstrap *)
(* ===================================================================== *)

Module Bootstrap.
Import Memory GameEngine.

(** The JSON document the LLM is asked for, once parsed.  Each object
    is a [dict] whose values have the types of the schema of the
    prompt: a field is [None] when its key is absent. *)
Record main_character : Type := {
  mc_name : option string;
  mc_attributes : option attr_dict;
}.

Record entity : Type := {
  e_name : option string;
  e_type : option string;
  e_description : option string;
  e_attributes : option attr_dict;
}.

Record relationship : Type := {
  r_source : option string;
  r_target : option string;
  r_relationship : option string;
}.

(** [main_character] is [None] when the key is absent or its value is
    empty. *)
Record parsed_data : Type := {
  pd_main_character : option main_character;
  pd_entities : list entity;
  pd_relationships : list relationship;
}.

(** The result dictionary of the bootstrap. *)
Record init_result : Type := {
  nodes_added : Z;
  edges_added : Z;
  method : string;
  character_name : option string;
}.

(** A character card: [Dict[str, Any]] with text fields. *)
Abbreviation character_card := (gmap string string).

(** What the bootstrap needs besides the engine's collaborators. *)
Class Analysis : Type := {
  (** [json.loads]; raises [JSONDecodeError]. *)
  json_loads : string -> Py.outcome parsed_data;
  (** [_build_character_analysis_prompt]: the text of the prompt for
      the name, description, personality, scenario, first message,
      examples and world book. *)
  _build_character_analysis_prompt :
    string -> string -> string -> string -> string -> string -> string -> string;
  (** The system message of the analysis call. *)
  analysis_system_message : string;
}.

(** A value of [entity.get("name")] that is false in a condition. *)
Definition truthy_str (o : option string) : option string :=
  match o with
  | Some s => if String.eqb s "" then None else Some s
  | None => None
  end.

(** Step 1 of [_apply_llm_analysis_results]: the main character. *)
Definition add_main_character (main_char_data : option main_character)
    (char_name : string) (nodes_added : Z) : Py.M GRAGMemory Z :=
  match main_char_data with
  | Some mc =>
      let name := default char_name (mc_name mc) in
      let char_id := _generate_entity_id name "character" in
      let attributes : attr_dict :=
        <["is_main_character" := KnowledgeGraph.ABool true]>
        (<["source" := KnowledgeGraph.AStr "llm_character_card"]>
        (<["name" := KnowledgeGraph.AStr name]>
           (default ∅ (mc_attributes mc)))) in
      add_or_update_node char_id (KnowledgeGraph.AStr "character") attributes ;;;
      Py.ret (nodes_added + 1)
  | None => Py.ret nodes_added
  end.

(** Step 2: one entity of the loop over [entities]. *)
Definition add_entity (nodes_added : Z) (entity : entity) : Py.M GRAGMemory Z :=
  match truthy_str (e_name entity) with
  | None => Py.ret nodes_added
  | Some name =>
      let entity_type := default "unknown" (e_type entity) in
      let entity_id := _generate_entity_id name entity_type in
      let attributes : attr_dict :=
        <["source" := KnowledgeGraph.AStr "llm_analysis"]>
        (<["description" := KnowledgeGraph.AStr (default "" (e_description entity))]>
        (<["name" := KnowledgeGraph.AStr name]>
           (default ∅ (e_attributes entity)))) in
      add_or_update_node entity_id (KnowledgeGraph.AStr entity_type) attributes ;;;
      Py.ret (nodes_added + 1)
  end.

(** Step 3: the dictionary [entity_name_to_id]. *)
Definition entity_name_to_id (parsed : parsed_data) (char_name : string)
  : gmap string string :=
  let with_main : gmap string string :=
    match pd_main_character parsed with
    | Some mc =>
        let char_name_final := default char_name (mc_name mc) in
        {[ char_name_final := _generate_entity_id char_name_final "character" ]}
    | None => ∅
    end in
  fold_left
    (fun (acc : gmap string string) (entity : entity) =>
       match truthy_str (e_name entity) with
       | Some name =>
           <[name := _generate_entity_id name (default "unknown" (e_type entity))]> acc
       | None => acc
       end)
    (pd_entities parsed) with_main.

(** [bool(knowledge_graph.get_node(node_id))] *)
Definition node_truthy (g : KnowledgeGraph.t) (node_id : string) : bool :=
  match KnowledgeGraph.get_node g node_id with
  | Some a => negb (bool_decide (a = ∅))
  | None => false
  end.

(** Step 3: one relationship of the loop over [relationships]. *)
Definition add_relationship (name_to_id : gmap string string)
    (edges_added : Z) (rel : relationship) : Py.M GRAGMemory Z :=
  match truthy_str (r_source rel), truthy_str (r_target rel) with
  | Some source_name, Some target_name =>
      match name_to_id !! source_name, name_to_id !! target_name with
      | Some source_id, Some target_id =>
          if String.eqb source_id "" || String.eqb target_id "" then
            Py.ret edges_added
          else
            let relationship := default "related" (r_relationship rel) in
            m <- Py.get ;;
            if node_truthy (knowledge_graph m) source_id
               && node_truthy (knowledge_graph m) target_id
            then add_edge source_id target_id relationship ;;;
                 Py.ret (edges_added + 1)
            else Py.ret edges_added
      | _, _ => Py.ret edges_added
      end
  | _, _ => Py.ret edges_added
  end.

(** [GameEngine._apply_llm_analysis_results]: the pair [nodes_added],
    [edges_added].  On the typed payload no statement of the body
    raises, so the handler of its [try], which logs, is left out. *)
Definition _apply_llm_analysis_results (parsed : parsed_data) (char_name : string)
  : Py.M GRAGMemory (Z * Z) :=
  nodes_added <- add_main_character (pd_main_character parsed) char_name 0 ;;
  nodes_added <- Py.for_fold (pd_entities parsed) add_entity nodes_added ;;
  edges_added <-
    Py.for_fold (pd_relationships parsed)
                (add_relationship (entity_name_to_id parsed char_name)) 0 ;;
  Py.ret (nodes_added, edges_added).

Section WithCollaborators.
Context `{Collaborators} `{LLMClient.Provider} `{Analysis}.

(** [GameEngine._is_llm_available]; an agent always has its
    [llm_client]. *)
Definition _is_llm_available (grag_agent : bool) : bool :=
  grag_agent
  && negb (String.eqb (LLMClient.api_key LLMClient.config) "").

(** [GameEngine._perform_llm_analysis]: the result, or [None]. *)
Definition _perform_llm_analysis
    (name description personality scenario first_mes example world_info : string)
  : Py.M GRAGMemory (option init_result) :=
  Py.try_except
    (let analysis_prompt :=
       _build_character_analysis_prompt
         name description personality scenario first_mes example world_info in
     analysis_result <-
       Py.lift (Py.eval_in
                  (LLMClient.generate_response LLMClient.__init__
                     analysis_prompt (Some 16000) (Some (1 # 10))
                     (Some analysis_system_message))
                  []) ;;
     parsed <- Py.lift (json_loads analysis_result) ;;
     counts <- _apply_llm_analysis_results parsed name ;;
     let '(nodes_added, edges_added) := counts in
     persist ;;;
     Py.ret (Some {| nodes_added := nodes_added;
                     edges_added := edges_added;
                     method := "llm_analysis";
                     character_name := Some name |}))
    (fun _ => Py.ret None).

(** The dictionary returned by [_fallback_simple_initialization]. *)
Definition fallback_result (char_name char_description : string)
  : Py.M GRAGMemory init_result :=
  r <- _fallback_simple_initialization char_name char_description ;;
  let '(n, e, how) := r in
  Py.ret {| nodes_added := n; edges_added := e; method := how;
            character_name :=
              if String.eqb how "failed" then None else Some char_name |}.

(** [GameEngine.initialize_from_tavern_data] *)
Definition initialize_from_tavern_data (grag_agent : bool)
    (character_card : character_card) (world_info : string)
  : Py.M GRAGMemory init_result :=
  let char_name := default "Unknown Character" (character_card !! "name") in
  let char_description := default "" (character_card !! "description") in
  let char_personality := default "" (character_card !! "personality") in
  let char_scenario := default "" (character_card !! "scenario") in
  let char_first_mes := default "" (character_card !! "first_mes") in
  let char_example := default "" (character_card !! "mes_example") in
  Py.try_except
    (if negb (_is_llm_available grag_agent) then
       fallback_result char_name char_description
     else
       Py.try_except
         (analysis_result <-
            _perform_llm_analysis char_name char_description char_personality
              char_scenario char_first_mes char_example world_info ;;
          match analysis_result with
          | Some r => Py.ret r
          | None => fallback_result char_name char_description
          end)
         (fun _ => fallback_result char_name char_description))
    (fun _ =>
       fallback_result
         (if String.eqb char_name "" then "Unknown" else char_name) "").

End WithCollaborators.

End Bootstrap.

(* ===================================================================== *)
(** ** api_server.py: the process-wide state *)
(* ===================================================================== *)

Module ApiServer.
Import Memory.

(** A [GameEngine] object: the identity of its [GRAGMemory] and whether
    it has an update agent ([grag_agent] is not [None]). *)
Record Engine : Type := {
  memory : nat;
  grag_agent : bool;
}.

(** One turn of a sliding window. *)
Record window_turn : Type := {
  sequence : Z;
  user_text : string;
  assistant_text : string;
  processed : bool;
}.

(** Modelled from the spec: the classes [SlidingWindowManager] and
    [DelayedUpdateManager] of [src/core] are not among the embedded
    files.  A manager has the capacity and the delay of its window, the
    turns of the window (newest last), the next sequence number, the
    identity of the memory it shares with its engine and whether it
    uses the update agent. *)
Record DelayedUpdateManager : Type := {
  window_size : Z;
  processing_delay : Z;
  conversations : list window_turn;
  next_sequence : Z;
  dum_memory : nat;
  dum_grag_agent : bool;
}.

(** A [ConflictResolver] object; it wraps the manager of its session. *)
Inductive ConflictResolver : Type := MkConflictResolver.

(** Modelled from the spec: the class [TavernStorageManager] of
    [src/storage] is not among the embedded files.  It keeps "the
    mapping character_mapping_key -> dir" and the session registry
    (session id to character mapping key). *)
Record storage : Type := {
  character_mapping : gmap string string;
  active_sessions : gmap string string;
}.

(** A record of [initialization_tasks]. *)
Record init_task : Type := {
  status : string;
  progress : Q;
  task_message : string;
}.

(** A record of [plugin_character_data]. *)
Record plugin_character : Type := {
  pc_character_name : string;
  pc_character_data : Bootstrap.character_card;
}.

(** The module-level variables of [api_server.py].  [memories] holds
    the [GRAGMemory] objects by identity, so that an engine and the
    window manager made for it share one memory; [uuid_counter] counts
    the calls of [uuid.uuid4()]. *)
Record state : Type := {
  TAVERN_MODE_ACTIVE : bool;
  manager : Channel.ConnectionManager;
  sessions : gmap string Engine;
  session_creation_locks : gset string;
  sliding_window_managers : gmap string DelayedUpdateManager;
  conflict_resolvers : gmap string ConflictResolver;
  initialization_tasks : gmap string init_task;
  plugin_character_data : gmap string plugin_character;
  pending_coordinated_reinits : gset string;
  storage_manager : storage;
  memories : gmap nat GRAGMemory;
  uuid_counter : nat;
}.

Definition set_TAVERN_MODE_ACTIVE (f : bool -> bool)
  (st : state) : state :=
  {| TAVERN_MODE_ACTIVE := f (TAVERN_MODE_ACTIVE st);
     manager := manager st;
     sessions := sessions st;
     session_creation_locks := session_creation_locks st;
     sliding_window_managers := sliding_window_managers st;
     conflict_resolvers := conflict_resolvers st;
     initialization_tasks := initialization_tasks st;
     plugin_character_data := plugin_character_data st;
     pending_coordinated_reinits := pending_coordinated_reinits st;
     storage_manager := storage_manager st;
     memories := memories st;
     uuid_counter := uuid_counter st |}.

Definition set_manager (f : Channel.ConnectionManager -> Channel.ConnectionManager)
  (st : state) : state :=
  {| TAVERN_MODE_ACTIVE := TAVERN_MODE_ACTIVE st;
     manager := f (manager st);
     sessions := sessions st;
     session_creation_locks := session_creation_locks st;
     sliding_window_managers := sliding_window_managers st;
     conflict_resolvers := conflict_resolvers st;
     initialization_tasks := initialization_tasks st;
     plugin_character_data := plugin_character_data st;
     pending_coordinated_reinits := pending_coordinated_reinits st;
     storage_manager := storage_manager st;
     memories := memories st;
     uuid_counter := uuid_counter st |}.

Definition set_sessions (f : gmap string Engine -> gmap string Engine)
  (st : state) : state :=
  {| TAVERN_MODE_ACTIVE := TAVERN_MODE_ACTIVE st;
     manager := manager st;
     sessions := f (sessions st);
     session_creation_locks := session_creation_locks st;
     sliding_window_managers := sliding_window_managers st;
     conflict_resolvers := conflict_resolvers st;
     initialization_tasks := initialization_tasks st;
     plugin_character_data := plugin_character_data st;
     pending_coordinated_reinits := pending_coordinated_reinits st;
     storage_manager := storage_manager st;
     memories := memories st;
     uuid_counter := uuid_counter st |}.

Definition set_session_creation_locks (f : gset string -> gset string)
  (st : state) : state :=
  {| TAVERN_MODE_ACTIVE := TAVERN_MODE_ACTIVE st;
     manager := manager st;
     sessions := sessions st;
     session_creation_locks := f (session_creation_locks st);
     sliding_window_managers := sliding_window_managers st;
     conflict_resolvers := conflict_resolvers st;
     initialization_tasks := initialization_tasks st;
     plugin_character_data := plugin_character_data st;
     pending_coordinated_reinits := pending_coordinated_reinits st;
     storage_manager := storage_manager st;
     memories := memories st;
     uuid_counter := uuid_counter st |}.

Definition set_sliding_window_managers (f : gmap string DelayedUpdateManager -> gmap string DelayedUpdateManager)
  (st : state) : state :=
  {| TAVERN_MODE_ACTIVE := TAVERN_MODE_ACTIVE st;
     manager := manager st;
     sessions := sessions st;
     session_creation_locks := session_creation_locks st;
     sliding_window_managers := f (sliding_window_managers st);
     conflict_resolvers := conflict_resolvers st;
     initialization_tasks := initialization_tasks st;
     plugin_character_data := plugin_character_data st;
     pending_coordinated_reinits := pending_coordinated_reinits st;
     storage_manager := storage_manager st;
     memories := memories st;
     uuid_counter := uuid_counter st |}.

Definition set_conflict_resolvers (f : gmap string ConflictResolver -> gmap string ConflictResolver)
  (st : state) : state :=
  {| TAVERN_MODE_ACTIVE := TAVERN_MODE_ACTIVE st;
     manager := manager st;
     sessions := sessions st;
     session_creation_locks := session_creation_locks st;
     sliding_window_managers := sliding_window_managers st;
     conflict_resolvers := f (conflict_resolvers st);
     initialization_tasks := initialization_tasks st;
     plugin_character_data := plugin_character_data st;
     pending_coordinated_reinits := pending_coordinated_reinits st;
     storage_manager := storage_manager st;
     memories := memories st;
     uuid_counter := uuid_counter st |}.

Definition set_initialization_tasks (f : gmap string init_task -> gmap string init_task)
  (st : state) : state :=
  {| TAVERN_MODE_ACTIVE := TAVERN_MODE_ACTIVE st;
     manager := manager st;
     sessions := sessions st;
     session_creation_locks := session_creation_locks st;
     sliding_window_managers := sliding_window_managers st;
     conflict_resolvers := conflict_resolvers st;
     initialization_tasks := f (initialization_tasks st);
     plugin_character_data := plugin_character_data st;
     pending_coordinated_reinits := pending_coordinated_reinits st;
     storage_manager := storage_manager st;
     memories := memories st;
     uuid_counter := uuid_counter st |}.

Definition set_plugin_character_data (f : gmap string plugin_character -> gmap string plugin_character)
  (st : state) : state :=
  {| TAVERN_MODE_ACTIVE := TAVERN_MODE_ACTIVE st;
     manager := manager st;
     sessions := sessions st;
     session_creation_locks := session_creation_locks st;
     sliding_window_managers := sliding_window_managers st;
     conflict_resolvers := conflict_resolvers st;
     initialization_tasks := initialization_tasks st;
     plugin_character_data := f (plugin_character_data st);
     pending_coordinated_reinits := pending_coordinated_reinits st;
     storage_manager := storage_manager st;
     memories := memories st;
     uuid_counter := uuid_counter st |}.

Definition set_pending_coordinated_reinits (f : gset string -> gset string)
  (st : state) : state :=
  {| TAVERN_MODE_ACTIVE := TAVERN_MODE_ACTIVE st;
     manager := manager st;
     sessions := sessions st;
     session_creation_locks := session_creation_locks st;
     sliding_window_managers := sliding_window_managers st;
     conflict_resolvers := conflict_resolvers st;
     initialization_tasks := initialization_tasks st;
     plugin_character_data := plugin_character_data st;
     pending_coordinated_reinits := f (pending_coordinated_reinits st);
     storage_manager := storage_manager st;
     memories := memories st;
     uuid_counter := uuid_counter st |}.

Definition set_storage_manager (f : storage -> storage)
  (st : state) : state :=
  {| TAVERN_MODE_ACTIVE := TAVERN_MODE_ACTIVE st;
     manager := manager st;
     sessions := sessions st;
     session_creation_locks := session_creation_locks st;
     sliding_window_managers := sliding_window_managers st;
     conflict_resolvers := conflict_resolvers st;
     initialization_tasks := initialization_tasks st;
     plugin_character_data := plugin_character_data st;
     pending_coordinated_reinits := pending_coordinated_reinits st;
     storage_manager := f (storage_manager st);
     memories := memories st;
     uuid_counter := uuid_counter st |}.

Definition set_memories (f : gmap nat GRAGMemory -> gmap nat GRAGMemory)
  (st : state) : state :=
  {| TAVERN_MODE_ACTIVE := TAVERN_MODE_ACTIVE st;
     manager := manager st;
     sessions := sessions st;
     session_creation_locks := session_creation_locks st;
     sliding_window_managers := sliding_window_managers st;
     conflict_resolvers := conflict_resolvers st;
     initialization_tasks := initialization_tasks st;
     plugin_character_data := plugin_character_data st;
     pending_coordinated_reinits := pending_coordinated_reinits st;
     storage_manager := storage_manager st;
     memories := f (memories st);
     uuid_counter := uuid_counter st |}.

Definition set_uuid_counter (f : nat -> nat)
  (st : state) : state :=
  {| TAVERN_MODE_ACTIVE := TAVERN_MODE_ACTIVE st;
     manager := manager st;
     sessions := sessions st;
     session_creation_locks := session_creation_locks st;
     sliding_window_managers := sliding_window_managers st;
     conflict_resolvers := conflict_resolvers st;
     initialization_tasks := initialization_tasks st;
     plugin_character_data := plugin_character_data st;
     pending_coordinated_reinits := pending_coordinated_reinits st;
     storage_manager := storage_manager st;
     memories := memories st;
     uuid_counter := f (uuid_counter st) |}.


(** The state of a freshly started server. *)
Definition initial_state (st0 : storage) : state :=
  {| TAVERN_MODE_ACTIVE := false;
     manager := {| Channel.active_connections := ∅; Channel.trace := [] |};
     sessions := ∅;
     session_creation_locks := ∅;
     sliding_window_managers := ∅;
     conflict_resolvers := ∅;
     initialization_tasks := ∅;
     plugin_character_data := ∅;
     pending_coordinated_reinits := ∅;
     storage_manager := st0;
     memories := ∅;
     uuid_counter := 0%nat |}.

(** Running a computation of a component on its part of the state. *)
Definition zoom {S A} (proj : state -> S) (upd : (S -> S) -> state -> state)
    (m : Py.M S A) : Py.M state A :=
  fun st =>
    let '(r, s') := m (proj st) in
    (r, upd (fun _ => s') st).

Definition on_manager {A} (m : Py.M Channel.ConnectionManager A)
  : Py.M state A :=
  zoom manager set_manager m.

Definition on_storage {A} (m : Py.M storage A) : Py.M state A :=
  zoom storage_manager set_storage_manager m.

(** A method of the memory object [ref]. *)
Definition on_memory {A} (ref : nat) (m : Py.M GRAGMemory A) : Py.M state A :=
  fun st =>
    match memories st !! ref with
    | Some mem =>
        let '(r, mem') := m mem in
        (r, set_memories (insert ref mem') st)
    | None => (Py.Raise (Py.AttributeError "memory"), st)
    end.

(** The collaborators of the server whose code is not embedded. *)
Class Environment : Type := {
  (** [storage_manager.register_tavern_character(card, session_id)]:
      the name of the local directory. *)
  register_tavern_character :
    Bootstrap.character_card -> string -> Py.M storage string;
  (** [storage_manager.get_graph_file_path(session_id, is_test)] *)
  get_graph_file_path : storage -> string -> bool -> Py.outcome string;
  (** [storage_manager.list_characters()] *)
  storage_list_characters : storage -> Py.outcome (list string);
  (** [storage_manager.__init__()] *)
  storage_init : Py.M storage unit;
  (** [GRAGMemory(graph_save_path=..., entities_json_path=...,
      auto_load_entities=True)]: the memory loaded from the disk. *)
  load_memory : string -> Py.outcome GRAGMemory;
  (** [memory.save_all_memory()] *)
  save_all_memory : GRAGMemory -> Py.outcome unit;
  (** [LLMClient()] followed by [GRAGUpdateAgent(llm_client)] *)
  make_agent : Py.outcome unit;
  (** [os.getenv(name)] *)
  getenv : string -> option string;
  (** [str(uuid.uuid4())], by the number of the call. *)
  uuid4 : nat -> string;
}.


(** [str(e)] for an exception. *)
Definition exn_str (e : Py.exn) : string :=
  match e with
  | Py.KeyError k => "'" +:+ k +:+ "'"
  | Py.ValueError msg | Py.AttributeError msg | Py.TypeError msg
  | Py.JSONDecodeError msg | Py.OtherError msg => msg
  | Py.HTTPException status_code detail =>
      Py.str_of_nat (Z.to_nat status_code) +:+ ": " +:+ detail
  | Py.WebSocketDisconnect => ""
  | Py.APITimeoutError => "Request timed out."
  | Py.APIConnectionError => "Connection error."
  | Py.MissingEndpoint n => n
  | Py.IndexError => "list index out of range"
  end.

(** The value of a string of decimal digits. *)
Fixpoint digits_value (s : string) (acc : Z) : option Z :=
  match s with
  | EmptyString => Some acc
  | String c s' =>
      let n := nat_of_ascii c in
      if ((48 <=? n)%nat && (n <=? 57)%nat)%bool
      then digits_value s' (10 * acc + Z.of_nat (n - 48))
      else None
  end.

(** [int(s)] for a string: white space around an optional sign and
    decimal digits, [ValueError] otherwise (digit separators are not
    modelled). *)
Definition py_int (s : string) : Py.outcome Z :=
  let t := Py.strip s in
  let '(negative, body) :=
    match t with
    | String "-" r => (true, r)
    | String "+" r => (false, r)
    | _ => (false, t)
    end in
  match body with
  | EmptyString => Py.Raise (Py.ValueError "invalid literal for int()")
  | _ =>
      match digits_value body 0 with
      | Some v => Py.Ok (if negative then - v else v)
      | None => Py.Raise (Py.ValueError "invalid literal for int()")
      end
  end.

(** The ['sliding_window'] entry of a session configuration. *)
Record sliding_config : Type := {
  sc_window_size : option Z;
  sc_processing_delay : option Z;
  sc_enable_enhanced_agent : option bool;
}.

Definition empty_sliding_config : sliding_config :=
  {| sc_window_size := None; sc_processing_delay := None;
     sc_enable_enhanced_agent := None |}.

(** A session configuration: its ['sliding_window'] entry, [None] when
    the configuration is absent or has no such key. *)
Definition session_config : Type := option sliding_config.

(** [bool(session_config and session_config.get('sliding_window'))] *)
Definition sliding_window_requested (c : session_config) : bool :=
  match c with
  | Some sc =>
      bool_decide (is_Some (sc_window_size sc))
      || bool_decide (is_Some (sc_processing_delay sc))
      || bool_decide (is_Some (sc_enable_enhanced_agent sc))
  | None => false
  end.

Record InitializeRequest : Type := {
  ir_session_id : option string;
  ir_character_card : Bootstrap.character_card;
  ir_world_info : string;
  ir_session_config : session_config;
  ir_is_test : bool;
  ir_enable_agent : bool;
}.

(** [class InitializeResponse]: the model has the three fields
    [session_id], [message] and [graph_stats] (default [{}], here
    [None]); any other keyword given to its constructor is ignored. *)
Record InitializeResponse : Type := {
  resp_session_id : string;
  resp_message : string;
  graph_stats : option Bootstrap.init_result;
}.

Record ProcessConversationRequest : Type := {
  pr_session_id : string;
  pr_user_input : string;
  pr_llm_response : string;
}.

Record ProcessConversationResponse : Type := {
  pc_message : string;
  turn_sequence : Z;
  turn_processed : bool;
  target_processed : bool;
  pc_window_size : Z;
  pc_nodes_updated : Z;
  pc_edges_added : Z;
  conflicts_resolved : Z;
}.

(** The result of [DelayedUpdateManager.process_new_conversation]. *)
Record process_result : Type := {
  new_turn_sequence : Z;
  res_target_processed : bool;
  current_turns : Z;
  grag_nodes_updated : Z;
  grag_edges_added : Z;
}.

(** The dictionary returned by the two reset endpoints. *)
Record reset_response : Type := {
  success : bool;
  reset_message : string;
  cleared_counts : list (string * nat);
}.

(** The engine's memory read without touching it. *)
Definition read_memory (ref : nat) : Py.M state GRAGMemory :=
  st <- Py.get ;;
  match memories st !! ref with
  | Some mem => Py.ret mem
  | None => Py.raise (Py.AttributeError "memory")
  end.

(** [len(engine.memory.knowledge_graph.graph.nodes())] and
    [len(... .edges())] *)
Definition graph_stats_of (ref : nat) : Py.M state (nat * nat) :=
  mem <- read_memory ref ;;
  Py.ret (KnowledgeGraph.number_of_nodes (knowledge_graph mem),
          KnowledgeGraph.number_of_edges (knowledge_graph mem)).

(** [raise HTTPException(403)] unless the tavern mode is on: the first
    statement of the gated handlers. *)
Definition require_tavern_mode : Py.M state unit :=
  st <- Py.get ;;
  if TAVERN_MODE_ACTIVE st then Py.ret tt
  else Py.raise (Py.HTTPException 403 "Tavern mode disabled").

(** [except HTTPException: raise] followed by [except Exception as e:
    raise HTTPException(500, prefix + str(e))]. *)
Definition internal_error {A} (prefix : string) (e : Py.exn) : Py.M state A :=
  match e with
  | Py.HTTPException _ _ => Py.raise e
  | _ => Py.raise (Py.HTTPException 500 (prefix +:+ exn_str e))
  end.

Section WithEnvironment.
Context `{Environment} `{GameEngine.Collaborators} `{LLMClient.Provider}
        `{Bootstrap.Analysis} `{Channel.SocketBehaviour}.

(** [int(os.getenv(name, default))] *)
Definition getenv_int (name default_value : string) : Py.M state Z :=
  Py.lift (py_int (default default_value (getenv name))).

(** [get_or_create_sliding_window_manager] *)
Definition get_or_create_sliding_window_manager (session_id : string)
    (session_config : session_config) : Py.M state DelayedUpdateManager :=
  st <- Py.get ;;
  match sliding_window_managers st !! session_id with
  | Some mgr => Py.ret mgr
  | None =>
      let sliding_config := default empty_sliding_config session_config in
      env_size <- getenv_int "SLIDING_WINDOW_SIZE" "4" ;;
      let window_size := default env_size (sc_window_size sliding_config) in
      env_delay <- getenv_int "PROCESSING_DELAY" "1" ;;
      let processing_delay :=
        default env_delay (sc_processing_delay sliding_config) in
      let env_agent :=
        let v := Py.lower (default "true" (getenv "ENABLE_ENHANCED_AGENT")) in
        String.eqb v "true" || String.eqb v "1" || String.eqb v "t" in
      let enable_enhanced_agent :=
        default env_agent (sc_enable_enhanced_agent sliding_config) in
      match sessions st !! session_id with
      | None =>
          Py.raise (Py.ValueError ("No game engine found for session " +:+ session_id))
      | Some engine =>
          let sliding_window_manager :=
            {| window_size := window_size;
               processing_delay := processing_delay;
               conversations := [];
               next_sequence := 1;
               dum_memory := memory engine;
               dum_grag_agent := enable_enhanced_agent && grag_agent engine |} in
          Py.modify (set_sliding_window_managers
                       (insert session_id sliding_window_manager)) ;;;
          Py.ret sliding_window_manager
      end
  end.

(** [get_or_create_conflict_resolver] *)
Definition get_or_create_conflict_resolver (session_id : string)
  : Py.M state ConflictResolver :=
  st <- Py.get ;;
  match conflict_resolvers st !! session_id with
  | Some cr => Py.ret cr
  | None =>
      match sliding_window_managers st !! session_id with
      | None =>
          Py.raise (Py.ValueError
                      ("No sliding window manager found for session " +:+ session_id))
      | Some _ =>
          Py.modify (set_conflict_resolvers (insert session_id MkConflictResolver)) ;;;
          Py.ret MkConflictResolver
      end
  end.

(** [get_or_create_session_engine] *)
Definition get_or_create_session_engine (session_id : string)
    (is_test enable_agent : bool) : Py.M state Engine :=
  st <- Py.get ;;
  match sessions st !! session_id with
  | Some engine => Py.ret engine
  | None =>
      Py.modify (set_session_creation_locks (union {[session_id]})) ;;;
      graph_path <-
        Py.lift (get_graph_file_path (storage_manager st) session_id is_test) ;;
      mem <- Py.lift (load_memory graph_path) ;;
      let agent :=
        if enable_agent then
          if String.eqb (LLMClient.api_key LLMClient.config) "" then false
          else if String.eqb (LLMClient.base_url LLMClient.config) "" then false
          else Py.is_ok make_agent
        else false in
      st <- Py.get ;;
      let ref := fresh (dom (memories st)) in
      let engine := {| memory := ref; grag_agent := agent |} in
      Py.modify (set_memories (insert ref mem)) ;;;
      Py.modify (set_sessions (insert session_id engine)) ;;;
      Py.ret engine
  end.

(** [req.session_id or str(uuid.uuid4())] *)
Definition session_id_or_uuid (session_id : option string) : Py.M state string :=
  match Bootstrap.truthy_str session_id with
  | Some sid => Py.ret sid
  | None =>
      st <- Py.get ;;
      Py.modify (set_uuid_counter S) ;;;
      Py.ret (uuid4 (uuid_counter st))
  end.

Definition existing_session_message (nodes_count edges_count : nat) : string :=
  "使用现有会话，当前包含 " +:+ Py.str_of_nat nodes_count
  +:+ " 个节点和 " +:+ Py.str_of_nat edges_count +:+ " 条边".

Definition existing_graph_message (existing_nodes existing_edges : nat) : string :=
  "使用现有知识图谱，包含 " +:+ Py.str_of_nat existing_nodes
  +:+ " 个节点和 " +:+ Py.str_of_nat existing_edges +:+ " 条边".

(** [POST /initialize]: [initialize_session] *)
Definition initialize_session (req : InitializeRequest)
  : Py.M state InitializeResponse :=
  Py.try_except
    (session_id <- session_id_or_uuid (ir_session_id req) ;;
     st <- Py.get ;;
     match sessions st !! session_id with
     | Some engine =>
         counts <- graph_stats_of (memory engine) ;;
         let '(nodes_count, edges_count) := counts in
         Py.ret {| resp_session_id := session_id;
                   resp_message := existing_session_message nodes_count edges_count;
                   graph_stats := None |}
     | None =>
         (if negb (ir_is_test req) then
            _ <- on_storage (register_tavern_character
                               (ir_character_card req) session_id) ;;
            Py.ret tt
          else Py.ret tt) ;;;
         engine <- get_or_create_session_engine
                     session_id (ir_is_test req) (ir_enable_agent req) ;;
         counts <- graph_stats_of (memory engine) ;;
         let '(existing_nodes, existing_edges) := counts in
         if (0 <? existing_nodes)%nat then
           Py.ret {| resp_session_id := session_id;
                     resp_message :=
                       existing_graph_message existing_nodes existing_edges;
                     graph_stats := None |}
         else
           init_result <-
             Py.try_except
               (on_memory (memory engine)
                  (Bootstrap.initialize_from_tavern_data
                     (grag_agent engine) (ir_character_card req) (ir_world_info req)))
               (fun _ =>
                  Py.ret {| Bootstrap.nodes_added := 0;
                            Bootstrap.edges_added := 0;
                            Bootstrap.method := "failed";
                            Bootstrap.character_name := None |}) ;;
           (if sliding_window_requested (ir_session_config req) then
              Py.try_except
                (_ <- get_or_create_sliding_window_manager
                        session_id (ir_session_config req) ;;
                 _ <- get_or_create_conflict_resolver session_id ;;
                 Py.ret tt)
                (fun _ => Py.ret tt)
            else Py.ret tt) ;;;
           Py.ret {| resp_session_id := session_id;
                     resp_message :=
                       "Session initialized successfully and knowledge graph created.";
                     graph_stats := Some init_result |}
     end)
    (fun e =>
       Py.raise (Py.HTTPException 500
                   ("Failed to initialize session: " +:+ exn_str e))).


(** Modelled from the spec: [DelayedUpdateManager.process_new_conversation]
    is not among the embedded files.  "Push onto the window" (a full
    window "drops from the head"); the target turn is "the one at
    position len(window) - 1 - delay"; when there is one that is not
    yet processed, the agent or the rule extractor runs on it, the
    validated delta is applied and the turn is marked processed. *)
Definition process_new_conversation (session_id : string)
    (mgr : DelayedUpdateManager) (user_input llm_response : string)
  : Py.M state process_result :=
  let new_turn :=
    {| sequence := next_sequence mgr; user_text := user_input;
       assistant_text := llm_response; processed := false |} in
  let pushed := (conversations mgr ++ [new_turn])%list in
  let window :=
    drop (length pushed - Z.to_nat (window_size mgr))%nat pushed in
  let target_index :=
    Z.of_nat (length window) - 1 - processing_delay mgr in
  let target :=
    if (0 <=? target_index)%Z
    then window !! Z.to_nat target_index else None in
  match target with
  | Some t =>
      if processed t then
        Py.modify (set_sliding_window_managers
          (insert session_id
             {| window_size := window_size mgr;
                processing_delay := processing_delay mgr;
                conversations := window;
                next_sequence := next_sequence mgr + 1;
                dum_memory := dum_memory mgr;
                dum_grag_agent := dum_grag_agent mgr |})) ;;;
        Py.ret {| new_turn_sequence := next_sequence mgr;
                  res_target_processed := false;
                  current_turns := Z.of_nat (length window);
                  grag_nodes_updated := 0; grag_edges_added := 0 |}
      else
        updates <-
          on_memory (dum_memory mgr)
            (GameEngine.extract_updates_from_response
               (dum_grag_agent mgr) (assistant_text t) (user_text t)) ;;
        Py.modify (set_sliding_window_managers
          (insert session_id
             {| window_size := window_size mgr;
                processing_delay := processing_delay mgr;
                conversations :=
                  <[Z.to_nat target_index :=
                      {| sequence := sequence t; user_text := user_text t;
                         assistant_text := assistant_text t;
                         processed := true |}]> window;
                next_sequence := next_sequence mgr + 1;
                dum_memory := dum_memory mgr;
                dum_grag_agent := dum_grag_agent mgr |})) ;;;
        Py.ret {| new_turn_sequence := next_sequence mgr;
                  res_target_processed := true;
                  current_turns := Z.of_nat (length window);
                  grag_nodes_updated := Delta.nodes_updated updates;
                  grag_edges_added := Delta.edges_added updates |}
  | None =>
      Py.modify (set_sliding_window_managers
        (insert session_id
           {| window_size := window_size mgr;
              processing_delay := processing_delay mgr;
              conversations := window;
              next_sequence := next_sequence mgr + 1;
              dum_memory := dum_memory mgr;
              dum_grag_agent := dum_grag_agent mgr |})) ;;;
      Py.ret {| new_turn_sequence := next_sequence mgr;
                res_target_processed := false;
                current_turns := Z.of_nat (length window);
                grag_nodes_updated := 0; grag_edges_added := 0 |}
  end.

(** The handler of [except ValueError] in [process_conversation]: the
    turn is processed by the engine at once. *)
Definition process_conversation_fallback (req : ProcessConversationRequest)
  : Py.M state ProcessConversationResponse :=
  st <- Py.get ;;
  engine <- Py.subscript (pr_session_id req) (sessions st !! pr_session_id req) ;;
  update_results <-
    on_memory (memory engine)
      (GameEngine.extract_updates_from_response
         (grag_agent engine) (pr_llm_response req) (pr_user_input req)) ;;
  on_memory (memory engine)
    (add_conversation (pr_user_input req) (pr_llm_response req)) ;;;
  mem <- read_memory (memory engine) ;;
  Py.lift (save_all_memory mem) ;;;
  Py.ret {| pc_message := "Processed using fallback method";
            turn_sequence := 1;
            turn_processed := true;
            target_processed := true;
            pc_window_size := 1;
            pc_nodes_updated := Delta.nodes_updated update_results;
            pc_edges_added := Delta.edges_added update_results;
            conflicts_resolved := 0 |}.

(** [POST /process_conversation]: [process_conversation] *)
Definition process_conversation (req : ProcessConversationRequest)
  : Py.M state ProcessConversationResponse :=
  Py.try_except
    (st <- Py.get ;;
     if negb (bool_decide (is_Some (sessions st !! pr_session_id req))) then
       Py.raise (Py.HTTPException 404
                   ("Session " +:+ pr_session_id req +:+ " not found."))
     else
       sliding_manager <-
         Py.try_except
           (mgr <- get_or_create_sliding_window_manager (pr_session_id req) None ;;
            Py.ret (Some mgr))
           (fun e =>
              match e with
              | Py.ValueError _ => Py.ret None
              | _ => Py.raise e
              end) ;;
       match sliding_manager with
       | None => process_conversation_fallback req
       | Some mgr =>
           result <-
             process_new_conversation (pr_session_id req) mgr
               (pr_user_input req) (pr_llm_response req) ;;
           (if res_target_processed result then
              st <- Py.get ;;
              _ <- Py.subscript (pr_session_id req)
                     (sessions st !! pr_session_id req) ;;
              on_manager (Channel.send_message (pr_session_id req) "graph_updated")
            else Py.ret tt) ;;;
           Py.ret {| pc_message :=
                       "Conversation processed successfully with sliding window";
                     turn_sequence := new_turn_sequence result;
                     turn_processed := true;
                     target_processed := res_target_processed result;
                     pc_window_size := current_turns result;
                     pc_nodes_updated := grag_nodes_updated result;
                     pc_edges_added := grag_edges_added result;
                     conflicts_resolved := 0 |}
       end)
    (internal_error "Failed to process conversation: ").

(** The loop of the two reset endpoints that closes every bound
    socket, each [close()] in a [try] whose handler is [pass], and the
    [manager.active_connections.clear()] after it. *)
Definition close_all_connections : Py.M state unit :=
  st <- Py.get ;;
  Py.for_each (map_to_list (Channel.active_connections (manager st)))
    (fun entry : string * Channel.socket =>
       on_manager
         (Py.try_except (Channel.ws_close (snd entry) 1000 "")
                        (fun _ => Py.ret tt))) ;;;
  on_manager (Channel.set_connections (fun _ => ∅)).

(** [POST /system/full_reset]: [full_system_reset] *)
Definition full_system_reset : Py.M state reset_response :=
  Py.try_except
    (st <- Py.get ;;
     let session_count := size (sessions st) in
     Py.modify (set_sessions (fun _ => ∅)) ;;;
     let sliding_window_count := size (sliding_window_managers st) in
     Py.modify (set_sliding_window_managers (fun _ => ∅)) ;;;
     let conflict_resolver_count := size (conflict_resolvers st) in
     Py.modify (set_conflict_resolvers (fun _ => ∅)) ;;;
     let init_task_count := size (initialization_tasks st) in
     Py.modify (set_initialization_tasks (fun _ => ∅)) ;;;
     let plugin_char_count := size (plugin_character_data st) in
     Py.modify (set_plugin_character_data (fun _ => ∅)) ;;;
     let ws_connection_count := size (Channel.active_connections (manager st)) in
     close_all_connections ;;;
     on_storage storage_init ;;;
     let total_cleared :=
       (session_count + sliding_window_count + conflict_resolver_count
        + init_task_count + plugin_char_count + ws_connection_count)%nat in
     Py.ret {| success := true;
               reset_message := "系统已完全清理，可以重新开始使用";
               cleared_counts :=
                 [("sessions", session_count);
                  ("sliding_windows", sliding_window_count);
                  ("conflict_resolvers", conflict_resolver_count);
                  ("initialization_tasks", init_task_count);
                  ("plugin_characters", plugin_char_count);
                  ("websocket_connections", ws_connection_count);
                  ("total", total_cleared)] |})
    (fun e =>
       Py.ret {| success := false;
                 reset_message := "系统清理失败: " +:+ exn_str e;
                 cleared_counts := [] |}).

(** [GET /system/quick_reset]: [quick_reset] *)
Definition quick_reset : Py.M state reset_response :=
  Py.try_except
    (st <- Py.get ;;
     let session_count := size (sessions st) in
     let sliding_window_count := size (sliding_window_managers st) in
     let conflict_resolver_count := size (conflict_resolvers st) in
     let ws_connection_count := size (Channel.active_connections (manager st)) in
     let plugin_char_count := size (plugin_character_data st) in
     Py.modify (set_sessions (fun _ => ∅)) ;;;
     Py.modify (set_sliding_window_managers (fun _ => ∅)) ;;;
     Py.modify (set_conflict_resolvers (fun _ => ∅)) ;;;
     Py.modify (set_plugin_character_data (fun _ => ∅)) ;;;
     close_all_connections ;;;
     let total_cleared :=
       (session_count + sliding_window_count + conflict_resolver_count
        + ws_connection_count + plugin_char_count)%nat in
     Py.ret {| success := true;
               reset_message :=
                 "快速清理完成，清理了 " +:+ Py.str_of_nat total_cleared +:+ " 个对象";
               cleared_counts :=
                 [("sessions", session_count);
                  ("sliding_windows", sliding_window_count);
                  ("conflict_resolvers", conflict_resolver_count);
                  ("websocket_connections", ws_connection_count);
                  ("plugin_characters", plugin_char_count);
                  ("total", total_cleared)] |})
    (fun e =>
       Py.ret {| success := false;
                 reset_message := "快速清理失败: " +:+ exn_str e;
                 cleared_counts := [] |}).

(** [GET /system/liveness]: [liveness], the pair [ok], [version]. *)
Definition liveness : Py.M state (bool * string) :=
  Py.ret (true, "1.0.0").

(** [GET /tavern/characters]: [list_characters], the pair
    [characters], [total_count]. *)
Definition list_characters : Py.M state (list string * nat) :=
  Py.try_except
    (st <- Py.get ;;
     characters <- Py.lift (storage_list_characters (storage_manager st)) ;;
     Py.ret (characters, length characters))
    (fun e =>
       Py.raise (Py.HTTPException 500
                   ("Failed to list characters: " +:+ exn_str e))).

(** [GET /tavern/get_character/{character_id}]: [get_character_data] *)
Definition get_character_data (character_id : string)
  : Py.M state plugin_character :=
  Py.try_except
    (st <- Py.get ;;
     match plugin_character_data st !! character_id with
     | Some character_info => Py.ret character_info
     | None =>
         Py.raise (Py.HTTPException 404
                     ("Character data not found: " +:+ character_id))
     end)
    (internal_error "Internal server error: ").

(** The dictionary returned by [get_current_tavern_session]. *)
Record current_session : Type := {
  has_session : bool;
  cs_session_id : option string;
  graph_nodes : option nat;
  graph_edges : option nat;
}.

Definition no_current_session : current_session :=
{| has_session := false; cs_session_id := None;
   graph_nodes := None; graph_edges := None |}.

(** [max(l)] for a list of strings that is not empty. *)
Definition max_string (first : string) (rest : list string) : string :=
fold_left
  (fun best sid =>
     match String.compare best sid with
     | Lt => sid
     | _ => best
     end)
  rest first.

(** [GET /tavern/current_session]: [get_current_tavern_session] *)
Definition get_current_tavern_session : Py.M state current_session :=
require_tavern_mode ;;;
Py.try_except
  (st <- Py.get ;;
   let tavern_sessions :=
     List.filter (Py.startswith "tavern_") (map fst (map_to_list (sessions st))) in
   match tavern_sessions with
   | [] => Py.ret no_current_session
   | first :: rest =>
       let latest_session := max_string first rest in
       engine <- Py.subscript latest_session (sessions st !! latest_session) ;;
       counts <- graph_stats_of (memory engine) ;;
       let '(nodes_count, edges_count) := counts in
       Py.ret {| has_session := true;
                 cs_session_id := Some latest_session;
                 graph_nodes := Some nodes_count;
                 graph_edges := Some edges_count |}
   end)
  (fun _ => Py.ret no_current_session).

(** [WS /ws/tavern/{session_id}]: [websocket_endpoint].  [serve] is
    the loop that receives and answers the requests of the plugin; it
    only ends by raising ([WebSocketDisconnect] when the peer
    leaves). *)
Definition websocket_endpoint (websocket : Channel.socket)
    (session_id : string) (serve : Py.M state unit) : Py.M state unit :=
  st <- Py.get ;;
  if negb (TAVERN_MODE_ACTIVE st) then
    on_manager (Channel.ws_accept websocket) ;;;
    on_manager (Channel.ws_close websocket 1008 "Tavern mode disabled")
  else
    on_manager (Channel.connect session_id websocket) ;;;
    Py.try_except
      (on_manager (Channel.ws_send_json websocket "connection_established") ;;;
       serve)
      (fun _ => on_manager (Channel.disconnect session_id (Some websocket))).

End WithEnvironment.

(** The HTTP routes of the server, in the order of the file. *)
Inductive route : Type :=
| initialize | initialize_async | initialize_status | enhance_prompt
| update_memory | route_process_conversation | sync_conversation
| sessions_clear | sessions_stats | sessions_reset | sessions_reinitialize
| sessions_list | tavern_submit_character | tavern_get_character
| tavern_available_characters | health | system_liveness
| system_tavern_mode_get | system_tavern_mode_post | tavern_new_session
| tavern_process_message | sessions_export | ui_test_clear_data
| tavern_character_delete | tavern_current_session | tavern_characters
| tavern_sessions | tavern_request_reinitialize
| tavern_reinitialize_from_plugin | system_full_reset | system_quick_reset.

Definition all_routes : list route :=
  [initialize; initialize_async; initialize_status; enhance_prompt;
   update_memory; route_process_conversation; sync_conversation;
   sessions_clear; sessions_stats; sessions_reset; sessions_reinitialize;
   sessions_list; tavern_submit_character; tavern_get_character;
   tavern_available_characters; health; system_liveness;
   system_tavern_mode_get; system_tavern_mode_post; tavern_new_session;
   tavern_process_message; sessions_export; ui_test_clear_data;
   tavern_character_delete; tavern_current_session; tavern_characters;
   tavern_sessions; tavern_request_reinitialize;
   tavern_reinitialize_from_plugin; system_full_reset; system_quick_reset].

(** The path given to [@app.get], [@app.post] or [@app.delete]. *)
Definition route_path (r : route) : string :=
  match r with
  | initialize => "/initialize"
  | initialize_async => "/initialize_async"
  | initialize_status => "/initialize_status/{task_id}"
  | enhance_prompt => "/enhance_prompt"
  | update_memory => "/update_memory"
  | route_process_conversation => "/process_conversation"
  | sync_conversation => "/sync_conversation"
  | sessions_clear => "/sessions/{session_id}/clear"
  | sessions_stats => "/sessions/{session_id}/stats"
  | sessions_reset => "/sessions/{session_id}/reset"
  | sessions_reinitialize => "/sessions/{session_id}/reinitialize"
  | sessions_list => "/sessions"
  | tavern_submit_character => "/tavern/submit_character"
  | tavern_get_character => "/tavern/get_character/{character_id}"
  | tavern_available_characters => "/tavern/available_characters"
  | health => "/health"
  | system_liveness => "/system/liveness"
  | system_tavern_mode_get => "/system/tavern_mode"
  | system_tavern_mode_post => "/system/tavern_mode"
  | tavern_new_session => "/tavern/new_session"
  | tavern_process_message => "/tavern/process_message"
  | sessions_export => "/sessions/{session_id}/export"
  | ui_test_clear_data => "/ui_test/clear_data"
  | tavern_character_delete => "/tavern/character/{character_name}"
  | tavern_current_session => "/tavern/current_session"
  | tavern_characters => "/tavern/characters"
  | tavern_sessions => "/tavern/sessions"
  | tavern_request_reinitialize =>
      "/tavern/sessions/{session_id}/request_reinitialize"
  | tavern_reinitialize_from_plugin =>
      "/tavern/sessions/{session_id}/reinitialize_from_plugin"
  | system_full_reset => "/system/full_reset"
  | system_quick_reset => "/system/quick_reset"
  end.

(** Whether the handler of the route starts with
    [if not TAVERN_MODE_ACTIVE: raise HTTPException(status_code=403,
    detail="Tavern mode disabled")]. *)
Definition checks_tavern_mode (r : route) : bool :=
  match r with
  | tavern_submit_character | tavern_available_characters | health
  | tavern_process_message | tavern_current_session => true
  | _ => false
  end.

(** The endpoints "operating on tavern sessions or character data":
    the routes under [/tavern/]. *)
Definition plugin_facing (r : route) : bool :=
  Py.startswith "/tavern/" (route_path r).

(** A handler: its gate, when it has one, and then the rest of its
    body, whatever it is. *)
Definition handler {A} (r : route) (body : Py.M state A) : Py.M state A :=
  if checks_tavern_mode r then require_tavern_mode ;;; body else body.

End ApiServer.

(* ===================================================================== *)
(** ** api_server.py: more endpoints *)
(* ===================================================================== *)

Module Endpoints.
Import Memory ApiServer.

(** A JSON value as [payload.get("active")] may return it; the arrays
    and the objects are one case, and the floats are the rationals (the
    values NaN and Infinity, which Python's parser accepts, are left
    out). *)
Inductive json : Type :=
| JNull
| JBool (b : bool)
| JInt (z : Z)
| JFloat (q : Q)
| JStr (s : string)
| JComposite.

(** [to_bool], the local function of [set_tavern_mode_state] *)
Definition to_bool (v : json) : bool :=
match v with
| JBool b => b
| JInt z => negb (Z.eqb z 0)
| JFloat q => negb (Qeq_bool q 0)
| JStr s =>
    let t := Py.lower (Py.strip s) in
    String.eqb t "1" || String.eqb t "true" || String.eqb t "yes"
    || String.eqb t "on"
| JNull | JComposite => false
end.

(** [GET /system/tavern_mode]: [get_tavern_mode_state], the value of
    ["active"]. *)
Definition get_tavern_mode_state : Py.M state bool :=
st <- Py.get ;;
Py.ret (TAVERN_MODE_ACTIVE st).

(** [POST /system/tavern_mode]: [set_tavern_mode_state], the pair
    [success], [active]; [payload.get("active")] is [None] for a missing
    key. *)
Definition set_tavern_mode_state (payload : gmap string json)
  : Py.M state (bool * bool) :=
Py.try_except
  (let raw_val := default JNull (payload !! "active") in
   let active := to_bool raw_val in
   Py.modify (set_TAVERN_MODE_ACTIVE (fun _ => active)) ;;;
   st <- Py.get ;;
   Py.ret (true, TAVERN_MODE_ACTIVE st))
  (fun e => Py.raise (Py.HTTPException 400 (exn_str e))).

(** [s[:stop]] for a string: a negative [stop] counts from the end. *)
Definition slice_to (stop : Z) (s : string) : string :=
if (0 <=? stop)%Z then String.substring 0 (Z.to_nat stop) s
else String.substring 0 (Z.to_nat (Z.of_nat (String.length s) + stop)) s.

(** The collaborators of [enhance_prompt] and [sync_conversation] whose
    code is not embedded. *)
Class Retrieval : Type := {
  (** [engine.perception.analyze(user_input, knowledge_graph)], read
      with [.get("entities", [])] and [.get("intent", "unknown")] *)
  analyze : string -> KnowledgeGraph.t -> Py.outcome (list string * string);
  (** [memory.retrieve_context_for_prompt(entities, recent_turns=...)] *)
  retrieve_context_for_prompt :
    GRAGMemory -> list string -> Z -> Py.outcome string;
  (** [conflict_resolver.sync_conversation_state(tavern_history)] for
      the resolver of a session: the values of ['conflicts_detected'],
      ['conflicts_resolved'] and ['window_synced'] in its result, [None]
      for a missing key. *)
  sync_conversation_state :
    string -> list (gmap string string)
    -> Py.M state (option Z * option Z * option bool);
}.

Record EnhancePromptRequest : Type := {
  ep_session_id : string;
  ep_user_input : string;
  max_context_length : option Z;
}.

(** [class EnhancePromptResponse], with the entries of
    [context_stats]. *)
Record EnhancePromptResponse : Type := {
  enhanced_context : string;
  entities_found : list string;
  entities_count : nat;
  context_length : nat;
  intent : string;
  ep_graph_nodes : nat;
  ep_graph_edges : nat;
}.

Definition truncation_marker : string :=
String (ascii_of_nat 10) "[...context truncated...]".

Record UpdateMemoryRequest : Type := {
  um_session_id : string;
  um_llm_response : string;
  um_user_input : string;
}.

(** [class UpdateMemoryResponse], with the lengths and the totals of
    [processing_stats]. *)
Record UpdateMemoryResponse : Type := {
  um_message : string;
  um_nodes_updated : Z;
  um_edges_added : Z;
  llm_response_length : nat;
  user_input_length : nat;
  total_graph_nodes : nat;
  total_graph_edges : nat;
}.

Record SyncConversationRequest : Type := {
  sy_session_id : string;
  tavern_history : list (gmap string string);
}.

Record SyncConversationResponse : Type := {
  sy_message : string;
  conflicts_detected : Z;
  sy_conflicts_resolved : Z;
  window_synced : bool;
}.

Definition session_not_found (session_id tail : string) : Py.exn :=
Py.HTTPException 404 ("Session " +:+ session_id +:+ " not found" +:+ tail).

Section WithCollaborators.
Context `{Environment} `{GameEngine.Collaborators} `{Channel.SocketBehaviour}
        `{Retrieval}.

(** [POST /enhance_prompt]: [enhance_prompt] *)
Definition enhance_prompt (req : EnhancePromptRequest)
  : Py.M state EnhancePromptResponse :=
Py.try_except
  (st <- Py.get ;;
   match sessions st !! ep_session_id req with
   | None =>
       Py.raise (session_not_found (ep_session_id req) ". Please initialize first.")
   | Some engine =>
       mem <- read_memory (memory engine) ;;
       perception_result <-
         Py.lift (analyze (ep_user_input req) (knowledge_graph mem)) ;;
       let '(entities, intent) := perception_result in
       let recent_turns :=
         match max_context_length req with
         | Some n => if Z.eqb n 0 then 3 else Z.min (n / 200) 5
         | None => 3
         end in
       context <-
         Py.lift (retrieve_context_for_prompt mem entities recent_turns) ;;
       limit <-
         match max_context_length req with
         | Some n => Py.ret n
         | None =>
             Py.raise (Py.TypeError
               "'>' not supported between instances of 'int' and 'NoneType'")
         end ;;
       let context :=
         if (limit <? Z.of_nat (String.length context))%Z
         then slice_to (limit - 100) context +:+ truncation_marker
         else context in
       counts <- graph_stats_of (memory engine) ;;
       Py.ret {| enhanced_context := context;
                 entities_found := entities;
                 entities_count := length entities;
                 context_length := String.length context;
                 intent := intent;
                 ep_graph_nodes := fst counts;
                 ep_graph_edges := snd counts |}
   end)
  (internal_error "Failed to enhance prompt: ").

(** [POST /update_memory]: [update_memory] *)
Definition update_memory (req : UpdateMemoryRequest)
  : Py.M state UpdateMemoryResponse :=
Py.try_except
  (st <- Py.get ;;
   match sessions st !! um_session_id req with
   | None => Py.raise (session_not_found (um_session_id req) ".")
   | Some engine =>
       update_results <-
         on_memory (memory engine)
           (GameEngine.extract_updates_from_response
              (grag_agent engine) (um_llm_response req) (um_user_input req)) ;;
       on_memory (memory engine)
         (add_conversation (um_user_input req) (um_llm_response req)) ;;;
       mem <- read_memory (memory engine) ;;
       Py.lift (save_all_memory mem) ;;;
       counts <- graph_stats_of (memory engine) ;;
       Py.ret {| um_message := "Memory updated successfully.";
                 um_nodes_updated := Delta.nodes_updated update_results;
                 um_edges_added := Delta.edges_added update_results;
                 llm_response_length := String.length (um_llm_response req);
                 user_input_length := String.length (um_user_input req);
                 total_graph_nodes := fst counts;
                 total_graph_edges := snd counts |}
   end)
  (internal_error "Failed to update memory: ").

(** [POST /sync_conversation]: [sync_conversation] *)
Definition sync_conversation (req : SyncConversationRequest)
  : Py.M state SyncConversationResponse :=
Py.try_except
  (st <- Py.get ;;
   if negb (bool_decide (is_Some (sessions st !! sy_session_id req))) then
     Py.raise (session_not_found (sy_session_id req) ".")
   else
     conflict_resolver <-
       Py.try_except
         (cr <- get_or_create_conflict_resolver (sy_session_id req) ;;
          Py.ret (Some cr))
         (fun e =>
            match e with
            | Py.ValueError _ => Py.ret None
            | _ => Py.raise e
            end) ;;
     match conflict_resolver with
     | None =>
         Py.ret {| sy_message :=
                     "Conflict resolution not available - sliding window system not initialized";
                   conflicts_detected := 0;
                   sy_conflicts_resolved := 0;
                   window_synced := false |}
     | Some _ =>
         sync_result <-
           sync_conversation_state (sy_session_id req) (tavern_history req) ;;
         let '(detected, resolved, synced) := sync_result in
         detected <- Py.subscript "conflicts_detected" detected ;;
         resolved <- Py.subscript "conflicts_resolved" resolved ;;
         Py.ret {| sy_message := "Conversation state synchronized successfully";
                   conflicts_detected := detected;
                   sy_conflicts_resolved := resolved;
                   window_synced := default true synced |}
     end)
  (internal_error "Failed to sync conversation: ").

(** [POST /sessions/{session_id}/clear]: [clear_session_graph], the
    pair [success], [message]. *)
Definition clear_session_graph (session_id : string)
  : Py.M state (bool * string) :=
st <- Py.get ;;
match sessions st !! session_id with
| None => Py.raise (session_not_found session_id "")
| Some engine =>
    Py.try_except
      (on_memory (memory engine) clear_all ;;;
       Py.ret (true, "Session " +:+ session_id
                     +:+ " knowledge graph cleared successfully"))
      (fun e =>
         Py.raise (Py.HTTPException 500 ("Failed to clear graph: " +:+ exn_str e)))
end.

(** [engine.memory.basic_memory.conversation_history.clear()] *)
Definition clear_conversation_history : Py.M GRAGMemory unit :=
Py.modify (fun m =>
  {| Memory.knowledge_graph := Memory.knowledge_graph m;
     Memory.conversation_history := [];
     Memory.state := Memory.state m;
     Memory.graph_save_path := Memory.graph_save_path m |}).

(** [POST /sessions/{session_id}/reset]: [reset_session], the pair
    [message], [session_id]. *)
Definition reset_session (session_id : string) (keep_character_data : bool)
  : Py.M state (string * string) :=
Py.try_except
  (st <- Py.get ;;
   match sessions st !! session_id with
   | None => Py.raise (session_not_found session_id ".")
   | Some engine =>
       (if keep_character_data then
          on_memory (memory engine) clear_conversation_history
        else
          Py.modify (set_sessions (delete session_id))) ;;;
       Py.ret ("Session reset successfully", session_id)
   end)
  (internal_error "Failed to reset session: ").

End WithCollaborators.

End Endpoints.

(* ===================================================================== *)
(** ** api_server.py: reinitializing a session *)
(* ===================================================================== *)

Module Reinitialize.
Import Memory ApiServer Endpoints.

(** [s.split(sep)] for a separator of one character: the pieces
    between the separators, at least one. *)
Fixpoint split (sep : ascii) (s : string) : list string :=
match s with
| EmptyString => [EmptyString]
| String c s' =>
    if Ascii.eqb c sep then EmptyString :: split sep s'
    else match split sep s' with
         | piece :: pieces => String c piece :: pieces
         | [] => [String c EmptyString]
         end
end.

(** [sep.join(parts)] *)
Definition join (sep : string) (parts : list string) : string :=
String.concat sep parts.

(** The functions of the standard library that the endpoints call. *)
Class Codec : Type := {
  (** [urllib.parse.unquote] *)
  unquote : string -> string;
  (** [hashlib.md5(s.encode('utf-8')).hexdigest()[:8]] *)
  md5_hex8 : string -> string;
}.

(** The dictionary returned by [reinitialize_session]. *)
Record reinitialize_response : Type := {
  ri_message : string;
  ri_session_id : string;
  ri_character_name : string;
  nodes_created : Z;
  edges_created : Z;
}.

(** [attrs.get('description', '')[:n]] in the two listings of
    [reinitialize_session]: a number or a boolean cannot be sliced. *)
Definition description_preview (attrs : attr_dict) : Py.outcome unit :=
match attrs !! "description" with
| Some (KnowledgeGraph.ANum _) =>
    Py.Raise (Py.TypeError "'int' object is not subscriptable")
| Some (KnowledgeGraph.ABool _) =>
    Py.Raise (Py.TypeError "'bool' object is not subscriptable")
| _ => Py.Ok tt
end.

(** A listing of the nodes of the graph in the log: the first [limit]
    nodes, or all of them.  The graph of the embedding does not keep the
    order in which the nodes were inserted; the nodes are taken in the
    order of the map. *)
Definition list_nodes (limit : option nat) (g : KnowledgeGraph.t)
  : Py.M state unit :=
let listed :=
  match limit with
  | Some n => take n (map_to_list (KnowledgeGraph.nodes g))
  | None => map_to_list (KnowledgeGraph.nodes g)
  end in
Py.for_each listed
  (fun entry : string * attr_dict => Py.lift (description_preview (snd entry))).

Section WithCollaborators.
Context `{Environment} `{Channel.SocketBehaviour} `{Codec}.

(** The local function [generate_consistent_session_id] of
    [process_tavern_message] *)
Definition generate_consistent_session_id (character_name : string) : string :=
"tavern_" +:+ character_name +:+ "_" +:+ md5_hex8 character_name.

(** The name of the character read off a session id
    [tavern_<name>_<suffix>], as [reinitialize_session] does it. *)
Definition character_name_from_session_id (session_id : string) : option string :=
if Py.startswith "tavern_" session_id then
  let parts := split "_" session_id in
  if (3 <=? length parts)%nat
  then Some (unquote (join "_" (removelast (tl parts))))
  else None
else None.

(** The name [reinitialize_session] decides on before it clears the
    graph.  No code of the repository sets [engine._tavern_character_name],
    so the state of the memory is asked first. *)
Definition resolve_character_name (mem : GRAGMemory) (session_id : string)
  : string :=
let character_name :=
  match Bootstrap.truthy_str (get_state "tavern_character_name" mem) with
  | Some stored_character => stored_character
  | None => "Unknown Character"
  end in
if String.eqb character_name "Unknown Character" then
  default character_name (character_name_from_session_id session_id)
else character_name.

(** [POST /sessions/{session_id}/reinitialize]: [reinitialize_session] *)
Definition reinitialize_session (session_id : string)
  : Py.M state reinitialize_response :=
Py.try_except
  (st <- Py.get ;;
   match sessions st !! session_id with
   | None => Py.raise (session_not_found session_id ".")
   | Some engine =>
       mem <- read_memory (memory engine) ;;
       let character_name := resolve_character_name mem session_id in
       (if (0 <? KnowledgeGraph.number_of_nodes (knowledge_graph mem))%nat
        then list_nodes (Some 10%nat) (knowledge_graph mem)
        else Py.ret tt) ;;;
       on_memory (memory engine) clear_all ;;;
       created <-
         (if negb (String.eqb character_name "")
             && negb (String.eqb character_name "Unknown Character")
          then
            on_memory (memory engine)
              (add_or_update_node character_name
                 (KnowledgeGraph.AStr "character")
                 (<["description" :=
                      KnowledgeGraph.AStr ("SillyTavern中的角色 " +:+ character_name)]>
                  (<["role" := KnowledgeGraph.AStr "主角"]>
                  (<["source" := KnowledgeGraph.AStr "SillyTavern"]> ∅)))) ;;;
            on_memory (memory engine)
              (add_or_update_node "对话世界"
                 (KnowledgeGraph.AStr "location")
                 (<["description" :=
                      KnowledgeGraph.AStr (character_name +:+ "所在的对话环境")]>
                  (<["type" := KnowledgeGraph.AStr "虚拟空间"]> ∅))) ;;;
            on_memory (memory engine)
              (add_edge character_name "对话世界" "位于") ;;;
            on_memory (memory engine)
              (update_state "tavern_character_name" character_name) ;;;
            Py.ret (2, 1)
          else Py.ret (0, 0)) ;;
       mem <- read_memory (memory engine) ;;
       (if (0 <? KnowledgeGraph.number_of_nodes (knowledge_graph mem))%nat
        then list_nodes None (knowledge_graph mem)
        else Py.ret tt) ;;;
       Py.ret {| ri_message := "Session reinitialized successfully";
                 ri_session_id := session_id;
                 ri_character_name := character_name;
                 nodes_created := fst created;
                 edges_created := snd created |}
   end)
  (internal_error "Failed to reinitialize session: ").

(** The dictionary returned by [request_coordinated_reinitialize]. *)
Definition coordinated_response : Type := bool * string.

(** [POST /tavern/sessions/{session_id}/request_reinitialize]:
    [request_coordinated_reinitialize], the pair [success],
    [session_id]. *)
Definition request_coordinated_reinitialize (session_id : string)
  : Py.M state coordinated_response :=
st <- Py.get ;;
if negb (bool_decide (is_Some (sessions st !! session_id))) then
  Py.raise (session_not_found session_id ".")
else if negb (bool_decide
                (is_Some (Channel.active_connections (manager st) !! session_id)))
then
  Py.raise (Py.HTTPException 400
              ("无法重新初始化：会话 " +:+ session_id
               +:+ " 没有活动的插件连接。请确保SillyTavern插件已连接。"))
else
  Py.try_except
    (Py.modify (set_pending_coordinated_reinits (union {[session_id]})) ;;;
     on_manager (Channel.send_message session_id "request_character_submission") ;;;
     Py.ret (true, session_id))
    (fun e =>
       Py.modify (set_pending_coordinated_reinits
                    (fun pending => pending ∖ {[session_id]})) ;;;
       Py.raise (Py.HTTPException 500 ("向插件发送请求失败：" +:+ exn_str e))).

End WithCollaborators.

End Reinitialize.

(* ===================================================================== *)
(** ** api_server.py: requests over the socket and test data *)
(* ===================================================================== *)

Module WsRequests.
Import Memory ApiServer Endpoints.

(** The ["code"] of an error frame: the status of an [HTTPException], or
    one of the two texts. *)
Inductive error_code : Type :=
| status_code (status : Z)
| unknown_action
| internal_error_code.

(** The dictionary [_handle_ws_request] returns: [{"ok": True, "data":
    ...}] or [{"ok": False, "error": {"code": ..., "message": ...}}]. *)
Inductive frame (D : Type) : Type :=
| ok_frame (data : D)
| error_frame (code : error_code) (message : string).
Arguments ok_frame {D} data.
Arguments error_frame {D} code message.

(** [POST /ui_test/clear_data]'s collaborator. *)
Class Maintenance : Type := {
  (** [storage_manager.clear_test_data()] *)
  storage_clear_test_data : Py.M storage unit;
}.

(** [needle in s] for two strings. *)
Fixpoint contains (needle s : string) : bool :=
Py.startswith needle s
|| match s with
   | EmptyString => false
   | String _ s' => contains needle s'
   end.

(** [sid.startswith("test_") or "test" in sid.lower()] *)
Definition is_test_session (sid : string) : bool :=
Py.startswith "test_" sid || contains "test" (Py.lower sid).

Section WithCollaborators.
Context `{Environment} `{GameEngine.Collaborators} `{LLMClient.Provider}
        `{Bootstrap.Analysis} `{Channel.SocketBehaviour} `{Retrieval}
        `{Maintenance}.

(** [POST /ui_test/clear_data]: [clear_test_data], the message. *)
Definition clear_test_data : Py.M state string :=
Py.try_except
  (on_storage storage_clear_test_data ;;;
   st <- Py.get ;;
   let test_sessions_to_remove :=
     List.filter is_test_session (map fst (map_to_list (sessions st))) in
   Py.for_each test_sessions_to_remove
     (fun test_sid => Py.modify (set_sessions (delete test_sid))) ;;;
   Py.ret "Test data cleared successfully")
  (fun e =>
     Py.raise (Py.HTTPException 500 ("Failed to clear test data: " +:+ exn_str e))).

(** The payload of a request frame, and the handlers of
    [api_server.py] that are not embedded: their results are of types of
    their own. *)
Context {payload submit_request submit_response session_stats health_data : Type}.

(** The constructors of the request models run on the payload (each
    raises when the payload does not validate),
    [payload.get("session_id")], and the three handlers. *)
Context (parse_initialize : payload -> Py.outcome InitializeRequest)
        (parse_enhance_prompt : payload -> Py.outcome EnhancePromptRequest)
        (parse_process_conversation :
           payload -> Py.outcome ProcessConversationRequest)
        (parse_sync_conversation : payload -> Py.outcome SyncConversationRequest)
        (parse_submit_character : payload -> Py.outcome submit_request)
        (payload_session_id : payload -> option string)
        (submit_character_data : submit_request -> Py.M state submit_response)
        (get_session_stats : string -> Py.M state session_stats)
        (health_check : Py.M state health_data).

(** The ["data"] of an answer, by the action that was asked for. *)
Inductive data : Type :=
| initialize_data (r : InitializeResponse)
| enhance_prompt_data (r : EnhancePromptResponse)
| process_conversation_data (r : ProcessConversationResponse)
| sync_conversation_data (r : SyncConversationResponse)
| submit_character_data_of (r : submit_response)
| request_character_data
| current_session_data (r : current_session)
| session_stats_data (r : session_stats)
| health_data_of (r : health_data)
| full_reset_data (r : reset_response).

(** The request of [initialize] with its [session_id] set:
    [req.session_id = session_id]. *)
Definition with_session_id (session_id : string) (req : InitializeRequest)
  : InitializeRequest :=
{| ir_session_id := Some session_id;
   ir_character_card := ir_character_card req;
   ir_world_info := ir_world_info req;
   ir_session_config := ir_session_config req;
   ir_is_test := ir_is_test req;
   ir_enable_agent := ir_enable_agent req |}.

(** The branch of the action ["tavern.current_session"]. *)
Definition ws_current_session (session_id : string) : Py.M state current_session :=
st <- Py.get ;;
match sessions st !! session_id with
| Some engine =>
    if Py.startswith "tavern_" session_id then
      counts <- graph_stats_of (memory engine) ;;
      Py.ret {| has_session := true;
                cs_session_id := Some session_id;
                graph_nodes := Some (fst counts);
                graph_edges := Some (snd counts) |}
    else Py.ret no_current_session
| None => Py.ret no_current_session
end.

(** [_handle_ws_request]; [action] is [message.get("action")] and
    [request_payload] is [message.get("payload") or {}]. *)
Definition _handle_ws_request (session_id : string) (action : option string)
    (request_payload : payload) : Py.M state (frame data) :=
let is_action name :=
  match action with
  | Some a => String.eqb a name
  | None => false
  end in
Py.try_except
  (if is_action "initialize" then
     req <- Py.lift (parse_initialize request_payload) ;;
     resp <- initialize_session (with_session_id session_id req) ;;
     Py.ret (ok_frame (initialize_data resp))
   else if is_action "enhance_prompt" then
     req <- Py.lift (parse_enhance_prompt request_payload) ;;
     resp <- enhance_prompt req ;;
     Py.ret (ok_frame (enhance_prompt_data resp))
   else if is_action "process_conversation" then
     req <- Py.lift (parse_process_conversation request_payload) ;;
     resp <- process_conversation req ;;
     Py.ret (ok_frame (process_conversation_data resp))
   else if is_action "sync_conversation" then
     req <- Py.lift (parse_sync_conversation request_payload) ;;
     resp <- sync_conversation req ;;
     Py.ret (ok_frame (sync_conversation_data resp))
   else if is_action "tavern.submit_character" then
     req <- Py.lift (parse_submit_character request_payload) ;;
     resp <- submit_character_data req ;;
     Py.ret (ok_frame (submit_character_data_of resp))
   else if is_action "tavern.request_character_data" then
     Py.ret (ok_frame request_character_data)
   else if is_action "tavern.current_session" then
     resp <- ws_current_session session_id ;;
     Py.ret (ok_frame (current_session_data resp))
   else if is_action "sessions.stats" then
     let sid :=
       default session_id (Bootstrap.truthy_str (payload_session_id request_payload)) in
     resp <- get_session_stats sid ;;
     Py.ret (ok_frame (session_stats_data resp))
   else if is_action "health" then
     resp <- health_check ;;
     Py.ret (ok_frame (health_data_of resp))
   else if is_action "system.full_reset" then
     resp <- full_system_reset ;;
     Py.ret (ok_frame (full_reset_data resp))
   else
     Py.ret (error_frame unknown_action
               ("Unknown action: " +:+ default "None" action)))
  (fun e =>
     match e with
     | Py.HTTPException status detail =>
         Py.ret (error_frame (status_code status) detail)
     | _ => Py.ret (error_frame internal_error_code (exn_str e))
     end).

End WithCollaborators.

End WsRequests.

(* ===================================================================== *)
(** ** Concrete collaborators and inputs *)
(* ===================================================================== *)

Module Examples.

(** Sockets on which every call succeeds. *)
Definition quiet_sockets : Channel.SocketBehaviour :=
  {| Channel.accept_result := fun _ => Py.Ok tt;
     Channel.close_result := fun _ _ => Py.Ok tt;
     Channel.send_result := fun _ _ => Py.Ok tt |}.

(** A binding table in which socket 1 is bound to the session "s1". *)
Definition one_binding : Channel.ConnectionManager :=
  {| Channel.active_connections := {[ "s1" := 1%nat ]};
     Channel.trace := [] |}.

(** The graph of scenario S6: a hero who owns an amulet and has a
    friend. *)
Definition amulet_graph : KnowledgeGraph.t :=
  {| KnowledgeGraph.nodes :=
       <["character_hero" := {[ "type" := KnowledgeGraph.AStr "character" ]}]>
       (<["character_npc_a" := {[ "type" := KnowledgeGraph.AStr "character" ]}]>
       (<["item_amulet" := {[ "type" := KnowledgeGraph.AStr "item" ]}]> ∅));
     KnowledgeGraph.edges :=
       [("character_hero", "item_amulet", "owns");
        ("character_hero", "character_npc_a", "friend_of")] |}.

Definition amulet_memory : Memory.GRAGMemory :=
  {| Memory.knowledge_graph := amulet_graph;
     Memory.conversation_history := [];
     Memory.state := ∅;
     Memory.graph_save_path := None |}.

(** The delta of scenario S6: the friend dies, the amulet is lost. *)
Definition amulet_delta : Delta.t :=
  {| Delta.nodes_to_update := [];
     Delta.edges_to_add := [];
     Delta.nodes_to_delete :=
       [{| Delta.nd_node_id := Some "character_npc_a";
           Delta.nd_deletion_type := Some "death";
           Delta.nd_reason := Some "slain" |};
        {| Delta.nd_node_id := Some "item_amulet";
           Delta.nd_deletion_type := Some "lost";
           Delta.nd_reason := None |}];
     Delta.edges_to_delete := [] |}.

(** An update agent whose analysis times out, a rule extractor that
finds one new node in every reply, a validation layer that accepts
everything and a disk that works. *)
Definition found_by_rules : Delta.t :=
{| Delta.nodes_to_update :=
     [{| Delta.nu_node_id := Some "location_old_mill";
         Delta.nu_type := Some "location";
         Delta.nu_attributes := Some {[ "name" := KnowledgeGraph.AStr "Old Mill" ]} |}];
   Delta.edges_to_add := [];
   Delta.nodes_to_delete := [];
   Delta.edges_to_delete := [] |}.

Definition timing_out_agent : GameEngine.Collaborators :=
{| GameEngine.analyze_conversation_for_updates :=
     fun _ _ _ _ => Py.Raise Py.APITimeoutError;
   GameEngine.convert_to_execution_format :=
     fun a => Py.Ok (GameEngine.operations a);
   GameEngine.validate := fun d _ => Py.Ok (Some d);
   GameEngine.extract_rpg_entities_and_relations := fun _ => Py.Ok found_by_rules;
   GameEngine.save_graph := fun _ _ => Py.Ok tt;
   GameEngine.sync_entities_to_json := fun _ => Py.Ok tt |}.

(** A hero who owns two items and has a friend. *)
Definition hoard_graph : KnowledgeGraph.t :=
{| KnowledgeGraph.nodes :=
     <["character_hero" := {[ "type" := KnowledgeGraph.AStr "character" ]}]>
     (<["character_npc_a" := {[ "type" := KnowledgeGraph.AStr "character" ]}]>
     (<["item_amulet" := {[ "type" := KnowledgeGraph.AStr "item" ]}]>
     (<["item_sword" := {[ "type" := KnowledgeGraph.AStr "item" ]}]> ∅)));
   KnowledgeGraph.edges :=
     [("character_hero", "item_amulet", "owns");
      ("character_hero", "item_sword", "owns");
      ("character_hero", "character_npc_a", "friend_of")] |}.

Definition hoard_memory : Memory.GRAGMemory :=
{| Memory.knowledge_graph := hoard_graph;
   Memory.conversation_history := [];
   Memory.state := ∅;
   Memory.graph_save_path := None |}.

(** A delta with one entry of [edges_to_delete]. *)
Definition edge_deletion_delta (source target relationship : string) : Delta.t :=
{| Delta.nodes_to_update := [];
   Delta.edges_to_add := [];
   Delta.nodes_to_delete := [];
   Delta.edges_to_delete :=
     [{| Delta.ed_source := Some source;
         Delta.ed_target := Some target;
         Delta.ed_relationship := Some relationship;
         Delta.ed_reason := None |}] |}.

Definition example_config : LLMClient.LLMConfig :=
{| LLMClient.api_key := "sk-test";
   LLMClient.base_url := "https://llm.example/v1";
   LLMClient.cfg_model := "test-model";
   LLMClient.cfg_max_tokens := 4000;
   LLMClient.cfg_temperature := 7 # 10;
   LLMClient.request_timeout := 60 # 1 |}.

(** A provider whose every call runs into the time-out. *)
Definition timing_out_provider : LLMClient.Provider :=
{| LLMClient.config := example_config;
   LLMClient.create := fun _ => Py.Raise Py.APITimeoutError |}.

Definition timing_out_client : LLMClient.t :=
LLMClient.__init__ (H := timing_out_provider).

Definition hello : list LLMClient.message :=
[{| LLMClient.role := "user"; LLMClient.content := "hello" |}].

Definition no_kwargs : LLMClient.kwargs :=
{| LLMClient.kw_model := None;
   LLMClient.kw_max_tokens := None;
   LLMClient.kw_temperature := None |}.

Definition empty_memory : Memory.GRAGMemory :=
{| Memory.knowledge_graph := KnowledgeGraph.empty;
   Memory.conversation_history := [];
   Memory.state := ∅;
   Memory.graph_save_path := None |}.

(** A provider that answers every call, and the document its answer
    parses to: Seraphina, who guards the Old Mill. *)
Definition answering_provider : LLMClient.Provider :=
{| LLMClient.config := example_config;
   LLMClient.create := fun _ => Py.Ok [Some "{ }"] |}.

Definition seraphina_payload : Bootstrap.parsed_data :=
{| Bootstrap.pd_main_character :=
     Some {| Bootstrap.mc_name := Some "Seraphina";
             Bootstrap.mc_attributes :=
               Some {[ "background" := KnowledgeGraph.AStr "guardian" ]} |};
   Bootstrap.pd_entities :=
     [{| Bootstrap.e_name := Some "Old Mill";
         Bootstrap.e_type := Some "location";
         Bootstrap.e_description := Some "a ruined mill";
         Bootstrap.e_attributes := None |}];
   Bootstrap.pd_relationships :=
     [{| Bootstrap.r_source := Some "Seraphina";
         Bootstrap.r_target := Some "Old Mill";
         Bootstrap.r_relationship := Some "guards" |}] |}.

Definition seraphina_analysis : Bootstrap.Analysis :=
{| Bootstrap.json_loads := fun _ => Py.Ok seraphina_payload;
   Bootstrap._build_character_analysis_prompt :=
     fun name _ _ _ _ _ _ => "analyse " +:+ name;
   Bootstrap.analysis_system_message := "return JSON" |}.

Definition seraphina_card : gmap string string :=
{[ "name" := "Seraphina" ]}.

(** Modelled from the spec: the storage manager is not among the
embedded files.  [register_character] "derives a stable directory name
from the character name" and "persists the mapping
character_mapping_key -> dir" (here the name itself is the key and the
directory), and records the session under the character;
[get_graph_path] "returns the graph file path", in the directory of the
character of the session, and "test sessions live under a separate
subtree". *)
Definition register_character (card : gmap string string) (session_id : string)
  : Py.M ApiServer.storage string :=
fun s =>
  let name := default "Unknown" (card !! "name") in
  (Py.Ok name,
   {| ApiServer.character_mapping := <[name := name]> (ApiServer.character_mapping s);
      ApiServer.active_sessions := <[session_id := name]> (ApiServer.active_sessions s) |}).

Definition get_graph_path (s : ApiServer.storage) (session_id : string)
  (is_test : bool) : Py.outcome string :=
if is_test then Py.Ok ("test/" +:+ session_id +:+ "/knowledge_graph.graphml")
else
  match ApiServer.active_sessions s !! session_id with
  | Some key =>
      Py.Ok (default key (ApiServer.character_mapping s !! key)
             +:+ "/knowledge_graph.graphml")
  | None => Py.Raise (Py.ValueError "unknown session")
  end.

(** The disk: the directory of Bob holds the graph of the amulet, the
    other directories hold nothing. *)
Definition disk (path : string) : Py.outcome Memory.GRAGMemory :=
Py.Ok
  {| Memory.knowledge_graph :=
       if String.eqb path "Bob/knowledge_graph.graphml"
       then amulet_graph else KnowledgeGraph.empty;
     Memory.conversation_history := [];
     Memory.state := ∅;
     Memory.graph_save_path := Some path |}.

(** A machine whose disk works and whose environment variables are the
    ones given. *)
Definition machine (env : string -> option string) : ApiServer.Environment :=
{| ApiServer.register_tavern_character := register_character;
   ApiServer.get_graph_file_path := get_graph_path;
   ApiServer.storage_list_characters :=
     fun s => Py.Ok (map fst (map_to_list (ApiServer.character_mapping s)));
   ApiServer.storage_init := Py.ret tt;
   ApiServer.load_memory := disk;
   ApiServer.save_all_memory := fun _ => Py.Ok tt;
   ApiServer.make_agent := Py.Ok tt;
   ApiServer.getenv := env;
   ApiServer.uuid4 := fun n => "uuid-" +:+ Py.str_of_nat n |}.

(** No environment variable is set. *)
Definition plain_machine : ApiServer.Environment := machine (fun _ => None).

(** [SLIDING_WINDOW_SIZE] is set to a word. *)
Definition misconfigured_machine : ApiServer.Environment :=
machine (fun name =>
           if String.eqb name "SLIDING_WINDOW_SIZE" then Some "four" else None).

(** The storage of a server on which Bob was registered before. *)
Definition bob_storage : ApiServer.storage :=
{| ApiServer.character_mapping := {[ "Bob" := "Bob" ]};
   ApiServer.active_sessions := {[ "tavern_Bob_1" := "Bob" ]} |}.

(** A server that has just started, with the tavern mode off. *)
Definition started_server : ApiServer.state :=
ApiServer.initial_state bob_storage.

(** A server with one session: an engine without agent on the graph of
    the amulet, and one finished initialization task. *)
Definition busy_server : ApiServer.state :=
{| ApiServer.TAVERN_MODE_ACTIVE := true;
   ApiServer.manager :=
     {| Channel.active_connections := {[ "tavern_Bob_1" := 7%nat ]};
        Channel.trace := [] |};
   ApiServer.sessions :=
     {[ "tavern_Bob_1" := {| ApiServer.memory := 0%nat;
                             ApiServer.grag_agent := false |} ]};
   ApiServer.session_creation_locks := {[ "tavern_Bob_1" ]};
   ApiServer.sliding_window_managers := ∅;
   ApiServer.conflict_resolvers := ∅;
   ApiServer.initialization_tasks :=
     {[ "task-1" := {| ApiServer.status := "completed";
                       ApiServer.progress := 1;
                       ApiServer.task_message := "初始化完成" |} ]};
   ApiServer.plugin_character_data := ∅;
   ApiServer.pending_coordinated_reinits := ∅;
   ApiServer.storage_manager := bob_storage;
   ApiServer.memories := {[ 0%nat := amulet_memory ]};
   ApiServer.uuid_counter := 0%nat |}.

Definition bob_card : gmap string string := {[ "name" := "Bob" ]}.

(** A request to initialize a session for Bob. *)
Definition bob_request (session_id : string) : ApiServer.InitializeRequest :=
{| ApiServer.ir_session_id := Some session_id;
   ApiServer.ir_character_card := bob_card;
   ApiServer.ir_world_info := "";
   ApiServer.ir_session_config := None;
   ApiServer.ir_is_test := false;
   ApiServer.ir_enable_agent := false |}.


End Examples.

(* ===================================================================== *)
(** * Examples for the endpoints *)
(* ===================================================================== *)

Module EndpointExamples.
Import Examples.

(** A delta whose second node update has lost its ["node_id"], with the
    death of the friend. *)
Definition careless_delta : Delta.t :=
{| Delta.nodes_to_update :=
     [{| Delta.nu_node_id := Some "location_old_mill";
         Delta.nu_type := Some "location";
         Delta.nu_attributes := Some {[ "name" := KnowledgeGraph.AStr "Old Mill" ]} |};
      {| Delta.nu_node_id := None;
         Delta.nu_type := Some "item";
         Delta.nu_attributes := None |}];
   Delta.edges_to_add := [];
   Delta.nodes_to_delete :=
     [{| Delta.nd_node_id := Some "character_npc_a";
         Delta.nd_deletion_type := Some "death";
         Delta.nd_reason := Some "slain" |}];
   Delta.edges_to_delete := [] |}.

(** A rule extractor that returns that delta, behind a validation layer
    that accepts everything. *)
Definition careless_rules : GameEngine.Collaborators :=
{| GameEngine.analyze_conversation_for_updates :=
     fun _ _ _ _ => Py.Raise Py.APITimeoutError;
   GameEngine.convert_to_execution_format :=
     fun a => Py.Ok (GameEngine.operations a);
   GameEngine.validate := fun d _ => Py.Ok (Some d);
   GameEngine.extract_rpg_entities_and_relations := fun _ => Py.Ok careless_delta;
   GameEngine.save_graph := fun _ _ => Py.Ok tt;
   GameEngine.sync_entities_to_json := fun _ => Py.Ok tt |}.

(** A context of 120 characters. *)
Definition long_context : string :=
String.concat "" (repeat "The hero owns an amulet. " 4) +:+ "He is in the mill.  ".

(** A perception module that finds the hero, a retrieval that returns
    the long context, and a resolver that finds no conflict. *)
Definition quiet_retrieval : Endpoints.Retrieval :=
{| Endpoints.analyze := fun _ _ => Py.Ok (["hero"], "explore");
   Endpoints.retrieve_context_for_prompt := fun _ _ _ => Py.Ok long_context;
   Endpoints.sync_conversation_state :=
     fun _ _ => Py.ret (Some 0, Some 0, Some true) |}.

(** A prompt of the session of Bob, with the limit given. *)
Definition bob_prompt (limit : option Z) : Endpoints.EnhancePromptRequest :=
{| Endpoints.ep_session_id := "tavern_Bob_1";
   Endpoints.ep_user_input := "Where are we?";
   Endpoints.max_context_length := limit |}.

(** The turn of Bob, sent to [POST /update_memory]. *)
Definition bob_update : Endpoints.UpdateMemoryRequest :=
{| Endpoints.um_session_id := "tavern_Bob_1";
   Endpoints.um_llm_response := "They reached the Old Mill.";
   Endpoints.um_user_input := "Where are we?" |}.

(** The history of the tavern for the session of Bob. *)
Definition bob_history : Endpoints.SyncConversationRequest :=
{| Endpoints.sy_session_id := "tavern_Bob_1";
   Endpoints.tavern_history := [] |}.

(** Names without percent escapes, and a hash that is the same for
    every name. *)
Definition plain_codec : Reinitialize.Codec :=
{| Reinitialize.unquote := fun s => s;
   Reinitialize.md5_hex8 := fun _ => "08a0fb04" |}.

(** Sockets that accept and close, and on which every send fails. *)
Definition deaf_sockets : Channel.SocketBehaviour :=
{| Channel.accept_result := fun _ => Py.Ok tt;
   Channel.close_result := fun _ _ => Py.Ok tt;
   Channel.send_result := fun _ _ => Py.Raise Py.WebSocketDisconnect |}.

(** A storage manager that clears its test data without a failure. *)
Definition clearing_storage : WsRequests.Maintenance :=
{| WsRequests.storage_clear_test_data := Py.ret tt |}.

(** The busy server with a second session, of the character Contest. *)
Definition contest_server : ApiServer.state :=
ApiServer.set_sessions
  (insert "tavern_Contest_2"
     {| ApiServer.memory := 0%nat; ApiServer.grag_agent := false |})
  busy_server.

(** A provider that answers every call with a sentence. *)
Definition chatty_provider : LLMClient.Provider :=
{| LLMClient.config := example_config;
   LLMClient.create := fun _ => Py.Ok [Some "Sure, here is the analysis."] |}.

(** A parser that reads the document of Seraphina and refuses every
    other text. *)
Definition strict_analysis : Bootstrap.Analysis :=
{| Bootstrap.json_loads :=
     fun text =>
       if String.eqb text "{ }" then Py.Ok seraphina_payload
       else Py.Raise (Py.JSONDecodeError "Expecting value");
   Bootstrap._build_character_analysis_prompt :=
     fun name _ _ _ _ _ _ => "analyse " +:+ name;
   Bootstrap.analysis_system_message := "return JSON" |}.

End EndpointExamples.

(* ===================================================================== *)
(** ** The binding table of the plugin channel *)
(* ===================================================================== *)

Section ChannelProperties.
Import Channel.
Context `{SocketBehaviour}.

Lemma run_emit (e : effect) (m : ConnectionManager) :
  emit e m
  = (Py.Ok tt, {| active_connections := active_connections m;
                  trace := trace m ++ [e] |}).
Proof. reflexivity. Qed.

(** Closing a socket inside a [try] whose handler is [pass] always
    returns, and only adds the call to the trace. *)
Lemma run_guarded_close (ws : socket) (code : Z) (reason : string)
      (m : ConnectionManager) :
  Py.try_except (ws_close ws code reason) (fun _ => Py.ret tt) m
  = (Py.Ok tt, {| active_connections := active_connections m;
                  trace := trace m ++ [WsClose ws code reason] |}).
Proof.
  unfold Py.try_except, ws_close, Py.bind, Py.lift. rewrite run_emit.
  destruct (close_result ws code) as [[]|]; reflexivity.
Qed.

(** [disconnect] never raises; it removes the binding of the session
    exactly when the socket it is given is the bound one. *)
Lemma disconnect_spec (session_id : string) (ws : socket)
      (m : ConnectionManager) :
  ∃ m', disconnect session_id (Some ws) m = (Py.Ok tt, m')
        ∧ active_connections m'
          = (if decide (active_connections m !! session_id = Some ws)
             then delete session_id (active_connections m)
             else active_connections m).
Proof.
  unfold disconnect, Py.bind, Py.get.
  destruct (active_connections m !! session_id) as [cur|] eqn:Hcur.
  - destruct (Nat.eqb cur ws) eqn:Heq.
    + apply Nat.eqb_eq in Heq. subst cur.
      eexists. split; [reflexivity|]. cbn.
      case_decide; [reflexivity|done].
    + apply Nat.eqb_neq in Heq.
      eexists. split; [reflexivity|].
      case_decide; [naive_solver|reflexivity].
  - eexists. split; [reflexivity|].
    case_decide; [done|reflexivity].
Qed.

End ChannelProperties.

(** C2.  When a socket connects for a session that another socket is bound
    to, the previous socket is closed with the code 1012 before the new
    one is stored in the binding table; and a disconnect removes the
    binding of the session only if the stored entry is the socket that
    disconnects, so that the late close of the replaced socket leaves the
    binding of the new one in place. *)
Theorem connect_replaces_and_disconnect_is_guarded
    `{Channel.SocketBehaviour} (session_id : string)
    (old_ws new_ws : Channel.socket) (m : Channel.ConnectionManager) :
  Channel.active_connections m !! session_id = Some old_ws →
  old_ws ≠ new_ws →
  Channel.accept_result new_ws = Py.Ok tt →
  ∃ m',
    Channel.connect session_id new_ws m = (Py.Ok tt, m')
    ∧ Channel.trace m'
      = (Channel.trace m
         ++ [Channel.WsAccept new_ws;
             Channel.WsClose old_ws 1012 "Replaced by new connection";
             Channel.Bind session_id new_ws])%list
    ∧ Channel.active_connections m'
      = <[session_id := new_ws]> (Channel.active_connections m)
    ∧ Channel.disconnect session_id (Some old_ws) m' = (Py.Ok tt, m')
    ∧ ∀ (ws : Channel.socket) (m0 : Channel.ConnectionManager),
        ∃ m1,
          Channel.disconnect session_id (Some ws) m0 = (Py.Ok tt, m1)
          ∧ Channel.active_connections m1
            = (if decide (Channel.active_connections m0 !! session_id = Some ws)
               then delete session_id (Channel.active_connections m0)
               else Channel.active_connections m0).
Proof.
  intros Hold Hne Hacc.
  eexists. split.
  - unfold Channel.connect, Channel.ws_accept, Py.bind, Py.lift, Py.get.
    rewrite run_emit, Hacc. cbn [Channel.active_connections].
    rewrite Hold.
    assert (Hneb : Nat.eqb old_ws new_ws = false) by (apply Nat.eqb_neq; exact Hne).
    rewrite Hneb. cbn [negb].
    rewrite run_guarded_close.
    reflexivity.
  - cbn. repeat split.
    + rewrite <- !app_assoc. reflexivity.
    + unfold Channel.disconnect, Py.bind, Py.get. cbn.
      rewrite lookup_insert_eq.
      assert (Hneb : Nat.eqb new_ws old_ws = false)
        by (apply Nat.eqb_neq; congruence).
      rewrite Hneb. reflexivity.
    + intros ws m0. apply disconnect_spec.
Qed.

Lemma connect_replaces_and_disconnect_is_guarded_witness :
  ∃ m',
    Channel.connect (H := Examples.quiet_sockets) "s1" 2%nat Examples.one_binding
    = (Py.Ok tt, m')
    ∧ Channel.trace m'
      = [Channel.WsAccept 2%nat;
         Channel.WsClose 1%nat 1012 "Replaced by new connection";
         Channel.Bind "s1" 2%nat]
    ∧ Channel.disconnect "s1" (Some 1%nat) m' = (Py.Ok tt, m').
Proof.
  destruct (@connect_replaces_and_disconnect_is_guarded
              Examples.quiet_sockets "s1" 1%nat 2%nat Examples.one_binding)
    as (m' & Hrun & Htrace & _ & Hlate & _).
  - vm_compute. reflexivity.
  - lia.
  - reflexivity.
  - exists m'. split; [exact Hrun|]. split; [exact Htrace|exact Hlate].
Defined.

(* ===================================================================== *)
(** ** Deletions of a delta *)
(* ===================================================================== *)

Section DeletionProperties.
Import KnowledgeGraph Memory Delta GameEngine.

(** The node is still in the graph and carries [is_deleted = true]. *)
Definition soft_deleted (g : KnowledgeGraph.t) (node_id : string) : Prop :=
  ∃ a, nodes g !! node_id = Some a ∧ a !! "is_deleted" = Some (ABool true).

(** The node is not in the graph and no edge starts or ends at it. *)
Definition hard_deleted (g : KnowledgeGraph.t) (node_id : string) : Prop :=
  nodes g !! node_id = None
  ∧ ∀ e, In e (edges g) → incident node_id e = false.

(** What one entry of [nodes_to_delete] does to the graph. *)
Definition node_deletion_effect (nd : node_deletion) (g : KnowledgeGraph.t)
  : KnowledgeGraph.t :=
  match nd_node_id nd with
  | None => g
  | Some node_id =>
      if String.eqb (default "default" (nd_deletion_type nd)) "lost"
      then snd (KnowledgeGraph.delete_node node_id g)
      else mark_node_deleted node_id
             (default "No reason provided" (nd_reason nd)) g
  end.

Lemma process_node_deletion_run (n : Z) (nd : node_deletion) (m : GRAGMemory) :
  ∃ n', process_node_deletion n nd m
        = (Py.Ok n', with_graph (node_deletion_effect nd) m).
Proof.
  unfold process_node_deletion, node_deletion_effect, Py.try_except, Py.bind,
    Py.subscript.
  destruct m as [g h st path].
  destruct (nd_node_id nd) as [node_id|]; cbn; [|eexists; reflexivity].
  destruct (String.eqb (default "default" (nd_deletion_type nd)) "death") eqn:Hd.
  - apply String.eqb_eq in Hd. rewrite Hd. cbn. eexists; reflexivity.
  - destruct (String.eqb (default "default" (nd_deletion_type nd)) "lost");
      cbn; [|eexists; reflexivity].
    unfold Memory.delete_node, KnowledgeGraph.delete_node, with_graph. cbn.
    destruct (has_node g node_id); cbn; eexists; reflexivity.
Qed.

(** The node loop: it returns, and the graph is the fold of the
    effects of the entries. *)
Lemma node_deletions_run (l : list node_deletion) (n : Z) (m : GRAGMemory) :
  ∃ n', Py.for_fold l process_node_deletion n m
        = (Py.Ok n',
           with_graph (fun g => fold_left (fun g nd => node_deletion_effect nd g) l g) m).
Proof.
  revert n m. induction l as [|nd l IH]; intros n m.
  - exists n. destruct m; reflexivity.
  - cbn [Py.for_fold fold_left]. unfold Py.bind.
    destruct (process_node_deletion_run n nd m) as [n1 ->].
    destruct (IH n1 (with_graph (node_deletion_effect nd) m)) as [n2 ->].
    exists n2. destruct m; reflexivity.
Qed.

(** An operation that keeps the nodes and only removes edges. *)
Definition only_removes_edges (g g' : KnowledgeGraph.t) : Prop :=
  nodes g' = nodes g ∧ ∀ e, In e (edges g') → In e (edges g).

Lemma only_removes_edges_refl g : only_removes_edges g g.
Proof. split; auto. Qed.

Lemma only_removes_edges_trans g1 g2 g3 :
  only_removes_edges g1 g2 → only_removes_edges g2 g3 → only_removes_edges g1 g3.
Proof.
  intros [Hn1 He1] [Hn2 He2]. split; [congruence|auto].
Qed.

Lemma delete_edge_only_removes s t r g :
  only_removes_edges g (snd (KnowledgeGraph.delete_edge s t r g)).
Proof.
  unfold KnowledgeGraph.delete_edge.
  destruct (existsb _ _); cbn; [|apply only_removes_edges_refl].
  split; [reflexivity|]. cbn. intros e He. apply filter_In in He. tauto.
Qed.

Lemma memory_delete_edge_run s t r (m : GRAGMemory) :
  ∃ ok m', Memory.delete_edge s t r m = (Py.Ok ok, m')
           ∧ only_removes_edges (knowledge_graph m) (knowledge_graph m').
Proof.
  unfold Memory.delete_edge.
  pose proof (delete_edge_only_removes s t r (knowledge_graph m)) as Hrm.
  destruct (KnowledgeGraph.delete_edge s t r (knowledge_graph m)) as [ok g'].
  exists ok, (with_graph (fun _ => g') m). split; [reflexivity|].
  destruct m; exact Hrm.
Qed.

Lemma wildcard_loop_run (l : list edge) (n : Z) (m : GRAGMemory) :
  ∃ n' m',
    Py.for_fold l
      (fun deleted (e : edge) =>
         let '(src, tgt, rel) := e in
         ok <- Memory.delete_edge src tgt rel ;;
         Py.ret (if ok then deleted + 1 else deleted)) n m
    = (Py.Ok n', m')
    ∧ only_removes_edges (knowledge_graph m) (knowledge_graph m').
Proof.
  revert n m. induction l as [|[[src tgt] rel] l IH]; intros n m.
  - exists n, m. split; [reflexivity|apply only_removes_edges_refl].
  - cbn [Py.for_fold]. unfold Py.bind at 1 2.
    destruct (memory_delete_edge_run src tgt rel m) as (ok & m1 & -> & H1).
    cbn [Py.ret].
    destruct (IH (if ok then n + 1 else n) m1) as (n2 & m2 & -> & H2).
    exists n2, m2. split; [reflexivity|].
    eapply only_removes_edges_trans; eassumption.
Qed.

Lemma process_edge_deletion_run (n : Z) (ed : edge_deletion) (m : GRAGMemory) :
  ∃ n' m', process_edge_deletion n ed m = (Py.Ok n', m')
           ∧ only_removes_edges (knowledge_graph m) (knowledge_graph m').
Proof.
  unfold process_edge_deletion, Py.try_except.
  destruct (is_wildcard (ed_source ed) || is_wildcard (ed_relationship ed)).
  - unfold Py.bind at 1, Py.get.
    match goal with
    | |- context [Py.for_fold ?l _ n m] =>
        destruct (wildcard_loop_run l n m) as (n' & m' & Hrun & Hrm)
    end.
    rewrite Hrun. exists n', m'. split; [reflexivity|exact Hrm].
  - unfold delete_edge_get, Py.bind.
    destruct (ed_source ed) as [s|], (ed_target ed) as [t|],
      (ed_relationship ed) as [r|];
      try (cbn; exists n, m; split; [reflexivity|apply only_removes_edges_refl]).
    destruct (memory_delete_edge_run s t r m) as (ok & m' & -> & Hrm).
    cbn. eexists _, m'. split; [reflexivity|exact Hrm].
Qed.

Lemma edge_deletions_run (l : list edge_deletion) (n : Z) (m : GRAGMemory) :
  ∃ n' m', Py.for_fold l process_edge_deletion n m = (Py.Ok n', m')
           ∧ only_removes_edges (knowledge_graph m) (knowledge_graph m').
Proof.
  revert n m. induction l as [|ed l IH]; intros n m.
  - exists n, m. split; [reflexivity|apply only_removes_edges_refl].
  - cbn [Py.for_fold]. unfold Py.bind.
    destruct (process_edge_deletion_run n ed m) as (n1 & m1 & -> & H1).
    destruct (IH n1 m1) as (n2 & m2 & -> & H2).
    exists n2, m2. split; [reflexivity|].
    eapply only_removes_edges_trans; eassumption.
Qed.


(** Edge integrity: both ends of every edge are nodes of the graph. *)
Definition edge_integrity (g : KnowledgeGraph.t) : Prop :=
  ∀ s t r, In (s, t, r) (edges g) →
           is_Some (nodes g !! s) ∧ is_Some (nodes g !! t).

Definition is_lost (nd : node_deletion) : bool :=
  String.eqb (default "default" (nd_deletion_type nd)) "lost".

Lemma is_lost_true nd : is_lost nd = true ↔ nd_deletion_type nd = Some "lost".
Proof.
  unfold is_lost. rewrite String.eqb_eq.
  destruct (nd_deletion_type nd) as [ty|]; cbn; split; intros Heq;
    congruence.
Qed.

Lemma incident_true node_id s t r :
  incident node_id (s, t, r) = true ↔ s = node_id ∨ t = node_id.
Proof.
  unfold incident. rewrite orb_true_iff, !String.eqb_eq. tauto.
Qed.

Lemma has_node_true g node_id :
  has_node g node_id = true ↔ is_Some (nodes g !! node_id).
Proof. unfold has_node. apply bool_decide_eq_true. Qed.

Lemma has_node_false g node_id :
  has_node g node_id = false ↔ nodes g !! node_id = None.
Proof.
  unfold has_node. rewrite bool_decide_eq_false.
  rewrite <- eq_None_not_Some. tauto.
Qed.

Lemma mark_lookup node_id reason g x :
  nodes (mark_node_deleted node_id reason g) !! x
  = if decide (node_id = x)
    then (fun a => <["deletion_reason" := AStr reason]>
                     (<["is_deleted" := ABool true]> a)) <$> nodes g !! x
    else nodes g !! x.
Proof.
  unfold mark_node_deleted. cbn. rewrite lookup_alter.
  case_decide; [subst x|]; reflexivity.
Qed.

Lemma delete_node_lookup node_id g x :
  nodes (snd (KnowledgeGraph.delete_node node_id g)) !! x
  = if decide (node_id = x) then None else nodes g !! x.
Proof.
  unfold KnowledgeGraph.delete_node.
  destruct (has_node g node_id) eqn:Hh; cbn.
  - rewrite lookup_delete. reflexivity.
  - apply has_node_false in Hh. case_decide; [subst; exact Hh|reflexivity].
Qed.

Lemma delete_node_edges node_id g e :
  In e (edges (snd (KnowledgeGraph.delete_node node_id g))) → In e (edges g).
Proof.
  unfold KnowledgeGraph.delete_node.
  destruct (has_node g node_id); cbn; [|auto].
  intros He. apply filter_In in He. tauto.
Qed.

Lemma effect_edges nd g e :
  In e (edges (node_deletion_effect nd g)) → In e (edges g).
Proof.
  unfold node_deletion_effect.
  destruct (nd_node_id nd) as [node_id|]; [|auto].
  destruct (String.eqb _ _); [apply delete_node_edges|auto].
Qed.

Lemma effect_integrity nd g :
  edge_integrity g → edge_integrity (node_deletion_effect nd g).
Proof.
  intros Hwf. unfold node_deletion_effect.
  destruct (nd_node_id nd) as [node_id|]; [|exact Hwf].
  destruct (String.eqb _ _).
  - intros s t r He.
    unfold KnowledgeGraph.delete_node in *.
    destruct (has_node g node_id); cbn in *; [|apply (Hwf s t r He)].
    apply filter_In in He. destruct He as [He Hinc].
    apply negb_true_iff in Hinc.
    assert (Hs : s ≠ node_id).
    { intros ->. rewrite (proj2 (incident_true node_id node_id t r)) in Hinc
        by auto. discriminate. }
    assert (Ht : t ≠ node_id).
    { intros ->. rewrite (proj2 (incident_true node_id s node_id r)) in Hinc
        by auto. discriminate. }
    destruct (Hwf s t r He) as [Hps Hpt].
    rewrite !lookup_delete_ne by congruence. auto.
  - intros s t r He. cbn in He. destruct (Hwf s t r He) as [Hps Hpt].
    rewrite !mark_lookup.
    split; case_decide; try assumption; apply fmap_is_Some; assumption.
Qed.

(** A hard delete: the node and its edges are gone at once. *)
Lemma delete_node_hard node_id g :
  edge_integrity g →
  hard_deleted (snd (KnowledgeGraph.delete_node node_id g)) node_id.
Proof.
  intros Hwf. split.
  - rewrite delete_node_lookup. case_decide; [reflexivity|done].
  - intros [[s t] r] He. unfold KnowledgeGraph.delete_node in He.
    destruct (has_node g node_id) eqn:Hh; cbn in He.
    + apply filter_In in He. destruct He as [_ Hinc].
      apply negb_true_iff in Hinc. exact Hinc.
    + apply has_node_false in Hh.
      destruct (incident node_id (s, t, r)) eqn:Hinc; [|reflexivity].
      apply incident_true in Hinc. destruct (Hwf s t r He) as [[a Ha] [b Hb]].
      destruct Hinc; subst; congruence.
Qed.

(** ... and they stay gone whatever entries are processed later. *)
Lemma effect_keeps_hard nd g node_id :
  hard_deleted g node_id → hard_deleted (node_deletion_effect nd g) node_id.
Proof.
  intros [Hn He]. split.
  - unfold node_deletion_effect.
    destruct (nd_node_id nd) as [x|]; [|exact Hn].
    destruct (String.eqb _ _).
    + rewrite delete_node_lookup. case_decide; [reflexivity|exact Hn].
    + rewrite mark_lookup, Hn. case_decide; reflexivity.
  - intros e Hin. apply He. eapply effect_edges. exact Hin.
Qed.

Lemma removal_keeps_hard g g' node_id :
  only_removes_edges g g' → hard_deleted g node_id → hard_deleted g' node_id.
Proof.
  intros [Hn He] [Hnone Hedges]. split; [rewrite Hn; exact Hnone|].
  intros e Hin. apply Hedges, He, Hin.
Qed.

Lemma removal_keeps_soft g g' node_id :
  only_removes_edges g g' → soft_deleted g node_id → soft_deleted g' node_id.
Proof.
  intros [Hn _] (a & Ha & Hdel). exists a. rewrite Hn. auto.
Qed.

(** A soft delete marks the node, if it is there. *)
Lemma mark_soft node_id reason g :
  is_Some (nodes g !! node_id) →
  soft_deleted (mark_node_deleted node_id reason g) node_id.
Proof.
  intros [a Ha]. eexists. rewrite mark_lookup, Ha.
  case_decide; [|done]. split; [reflexivity|].
  rewrite lookup_insert_ne by discriminate. apply lookup_insert_eq.
Qed.

(** An entry that is not a hard delete of the node keeps the node, and
    keeps its mark. *)
Lemma effect_keeps_present nd g node_id :
  (nd_node_id nd = Some node_id → is_lost nd = false) →
  is_Some (nodes g !! node_id) →
  is_Some (nodes (node_deletion_effect nd g) !! node_id).
Proof.
  intros Hnot Hin. unfold node_deletion_effect.
  destruct (nd_node_id nd) as [x|]; [|exact Hin].
  fold (is_lost nd). destruct (is_lost nd) eqn:Hl.
  - rewrite delete_node_lookup. case_decide; [|exact Hin].
    subst x. specialize (Hnot eq_refl). congruence.
  - rewrite mark_lookup. case_decide; [apply fmap_is_Some|]; exact Hin.
Qed.

Lemma effect_keeps_soft nd g node_id :
  (nd_node_id nd = Some node_id → is_lost nd = false) →
  soft_deleted g node_id →
  soft_deleted (node_deletion_effect nd g) node_id.
Proof.
  intros Hnot (a & Ha & Hdel). unfold node_deletion_effect.
  destruct (nd_node_id nd) as [x|]; [|exists a; auto].
  fold (is_lost nd). destruct (is_lost nd) eqn:Hl.
  - exists a. rewrite delete_node_lookup. case_decide; [|auto].
    subst x. specialize (Hnot eq_refl). congruence.
  - destruct (decide (x = node_id)) as [->|Hne].
    + apply mark_soft. eauto.
    + exists a. rewrite mark_lookup. case_decide; [congruence|auto].
Qed.

Abbreviation run_node_deletions l g :=
  (fold_left (fun g nd => node_deletion_effect nd g) l g).

Lemma fold_keeps_hard l g node_id :
  hard_deleted g node_id → hard_deleted (run_node_deletions l g) node_id.
Proof.
  revert g. induction l as [|nd l IH]; intros g Hh; [exact Hh|].
  cbn. apply IH, effect_keeps_hard, Hh.
Qed.

Lemma fold_keeps_soft l g node_id :
  (∀ nd, In nd l → nd_node_id nd = Some node_id → is_lost nd = false) →
  soft_deleted g node_id → soft_deleted (run_node_deletions l g) node_id.
Proof.
  revert g. induction l as [|nd l IH]; intros g Hnot Hs; [exact Hs|].
  cbn. apply IH.
  - intros nd' Hin. apply Hnot. right. exact Hin.
  - apply effect_keeps_soft; [apply Hnot; left; reflexivity|exact Hs].
Qed.

Lemma fold_hard l g nd node_id :
  edge_integrity g →
  In nd l → nd_node_id nd = Some node_id → is_lost nd = true →
  hard_deleted (run_node_deletions l g) node_id.
Proof.
  revert g. induction l as [|a l IH]; intros g Hwf Hin Hid Hlost; [destruct Hin|].
  cbn. destruct Hin as [->|Hin].
  - apply fold_keeps_hard. unfold node_deletion_effect. rewrite Hid.
    fold (is_lost nd). rewrite Hlost. apply delete_node_hard, Hwf.
  - eapply IH; eauto. apply effect_integrity, Hwf.
Qed.

Lemma fold_soft l g nd node_id :
  (∀ nd', In nd' l → nd_node_id nd' = Some node_id → is_lost nd' = false) →
  is_Some (nodes g !! node_id) →
  In nd l → nd_node_id nd = Some node_id →
  soft_deleted (run_node_deletions l g) node_id.
Proof.
  revert g. induction l as [|a l IH]; intros g Hnot Hpres Hin Hid; [destruct Hin|].
  cbn. destruct Hin as [->|Hin].
  - apply fold_keeps_soft; [intros nd' Hin'; apply Hnot; right; exact Hin'|].
    unfold node_deletion_effect. rewrite Hid. fold (is_lost nd).
    rewrite (Hnot nd (or_introl eq_refl) Hid). apply mark_soft, Hpres.
  - eapply IH; eauto.
    + intros nd' Hin'. apply Hnot. right. exact Hin'.
    + apply effect_keeps_present; [apply Hnot; left; reflexivity|exact Hpres].
Qed.

End DeletionProperties.

(** C4.  When the deletions of a delta are applied to a graph (with edge
    integrity), every node deletion with [deletion_type = "lost"] is a
    hard delete: the node is absent afterwards and no edge starts or ends
    at it; every node deletion with [deletion_type = "death"] or
    ["default"] (or without a type) of a node of the graph is a soft
    delete: the node is still present afterwards, with
    [is_deleted = true], unless the same delta also deletes it hard. *)
Theorem deletion_type_semantics (delta : Delta.t) (m : Memory.GRAGMemory) :
  edge_integrity (Memory.knowledge_graph m) →
  ∃ counts m',
    GameEngine._process_deletion_events delta m = (Py.Ok counts, m')
    ∧ ∀ nd node_id,
        In nd (Delta.nodes_to_delete delta) →
        Delta.nd_node_id nd = Some node_id →
        (Delta.nd_deletion_type nd = Some "lost" →
         hard_deleted (Memory.knowledge_graph m') node_id)
        ∧ (Delta.nd_deletion_type nd = Some "death"
           ∨ Delta.nd_deletion_type nd = Some "default"
           ∨ Delta.nd_deletion_type nd = None →
           is_Some (KnowledgeGraph.nodes (Memory.knowledge_graph m) !! node_id) →
           (∀ nd', In nd' (Delta.nodes_to_delete delta) →
                   Delta.nd_node_id nd' = Some node_id →
                   Delta.nd_deletion_type nd' ≠ Some "lost") →
           soft_deleted (Memory.knowledge_graph m') node_id).
Proof.
  intros Hwf. unfold GameEngine._process_deletion_events, Py.bind.
  destruct (node_deletions_run (Delta.nodes_to_delete delta) 0 m) as [n1 ->].
  match goal with
  | |- context [Py.for_fold (Delta.edges_to_delete delta) _ 0 ?m1] =>
      destruct (edge_deletions_run (Delta.edges_to_delete delta) 0 m1)
        as (n2 & m2 & -> & Hrm)
  end.
  exists (n1, n2), m2. split; [reflexivity|].
  assert (Hg : Memory.knowledge_graph
                 (Memory.with_graph
                    (fun g => fold_left (fun g nd => node_deletion_effect nd g)
                                        (Delta.nodes_to_delete delta) g) m)
               = fold_left (fun g nd => node_deletion_effect nd g)
                           (Delta.nodes_to_delete delta) (Memory.knowledge_graph m))
    by (destruct m; reflexivity).
  rewrite Hg in Hrm.
  intros nd node_id Hin Hid. split.
  - intros Hlost. eapply removal_keeps_hard; [exact Hrm|].
    eapply fold_hard; eauto. apply is_lost_true, Hlost.
  - intros Hty Hpres Hnolost. eapply removal_keeps_soft; [exact Hrm|].
    eapply fold_soft; eauto.
    intros nd' Hin' Hid'. specialize (Hnolost nd' Hin' Hid').
    destruct (is_lost nd') eqn:Hl; [|reflexivity].
    apply is_lost_true in Hl. contradiction.
Qed.

Lemma deletion_type_semantics_witness :
  ∃ counts m',
    GameEngine._process_deletion_events Examples.amulet_delta Examples.amulet_memory
    = (Py.Ok counts, m')
    ∧ soft_deleted (Memory.knowledge_graph m') "character_npc_a"
    ∧ hard_deleted (Memory.knowledge_graph m') "item_amulet".
Proof.
  destruct (deletion_type_semantics Examples.amulet_delta Examples.amulet_memory)
    as (counts & m' & Hrun & Hsem).
  - intros s t r Hin. cbn in Hin.
    destruct Hin as [[= <- <- <-]|[[= <- <- <-]|[]]];
      split; eexists; vm_compute; reflexivity.
  - exists counts, m'. split; [exact Hrun|]. split.
    + eapply (Hsem _ "character_npc_a").
      * left. reflexivity.
      * reflexivity.
      * left. reflexivity.
      * eexists. vm_compute. reflexivity.
      * intros nd' [<-|[<-|[]]]; cbn; congruence.
    + eapply (Hsem _ "item_amulet").
      * right. left. reflexivity.
      * reflexivity.
      * reflexivity.
Defined.

(* ===================================================================== *)
(** ** Recovery from a failing update agent *)
(* ===================================================================== *)

Section ExtractionProperties.
Import Memory Delta GameEngine.
Context `{Collaborators}.

(** A [try] whose handler always returns always returns. *)
Lemma try_except_returns {S A} (body : Py.M S A) (h : Py.exn -> Py.M S A) :
  (∀ e s, ∃ a s', h e s = (Py.Ok a, s')) →
  ∀ s, ∃ a s', Py.try_except body h s = (Py.Ok a, s').
Proof.
  intros Hh s. unfold Py.try_except.
  destruct (body s) as [[a|e] s']; [eauto|apply Hh].
Qed.

(** A loop whose body always returns always returns. *)
Lemma for_fold_returns {S A B} (l : list A) (body : B -> A -> Py.M S B) :
  (∀ acc x s, ∃ acc' s', body acc x s = (Py.Ok acc', s')) →
  ∀ acc s, ∃ acc' s', Py.for_fold l body acc s = (Py.Ok acc', s').
Proof.
  intros Hbody. induction l as [|x l IH]; intros acc s; cbn [Py.for_fold].
  - eexists _, _. reflexivity.
  - unfold Py.bind. destruct (Hbody acc x s) as (acc1 & s1 & ->). apply IH.
Qed.

Lemma local_processor_returns (llm_response : string) (m : GRAGMemory) :
  ∃ c m', _extract_with_local_processor llm_response m = (Py.Ok c, m').
Proof.
  apply try_except_returns. intros e s. eexists _, _. reflexivity.
Qed.

Lemma agent_returns (user_input llm_response : string) (m : GRAGMemory) :
  ∃ c m', _extract_with_agent user_input llm_response m = (Py.Ok c, m').
Proof.
  apply try_except_returns. intros e s. apply local_processor_returns.
Qed.

End ExtractionProperties.



(* ===================================================================== *)
(** ** Wildcards in edge deletions *)
(* ===================================================================== *)

Section WildcardProperties.
Import KnowledgeGraph Memory Delta GameEngine.

(** The edges an entry of [edges_to_delete] selects in the wildcard
    branch: the ones that agree with every component that is not
    ["*"]. *)
Definition selected_by (ed : edge_deletion) (e : edge) : bool :=
let '(src, tgt, rel) := e in
field_matches (ed_source ed) src && field_matches (ed_target ed) tgt
&& field_matches (ed_relationship ed) rel.

(** The edges that a call of [delete_edge] with the components of [p]
    removes. *)
Definition matched_by (p e : edge) : bool :=
let '(s, t, r) := p in edge_matches s t r e.

(** The graph after [delete_edge] has been called with the components
    of each edge of [l]. *)
Definition without_matching (l : list edge) (g : KnowledgeGraph.t)
  : KnowledgeGraph.t :=
{| nodes := nodes g;
   edges := List.filter (fun e => negb (existsb (fun p => matched_by p e) l))
                        (edges g) |}.

(** The graph without the edges an entry selects. *)
Definition without_selected (ed : edge_deletion) (g : KnowledgeGraph.t)
  : KnowledgeGraph.t :=
{| nodes := nodes g;
   edges := List.filter (fun e => negb (selected_by ed e)) (edges g) |}.

Lemma filter_filter {A} (p q : A -> bool) (l : list A) :
  List.filter p (List.filter q l) = List.filter (fun x => q x && p x) l.
Proof.
  induction l as [|x l IH]; [reflexivity|]. cbn.
  destruct (q x); cbn; [destruct (p x)|]; rewrite IH; reflexivity.
Qed.

Lemma filter_none {A} (p : A -> bool) (l : list A) :
  existsb p l = false → List.filter (fun x => negb (p x)) l = l.
Proof.
  intros Hnone. apply forallb_filter_id, forallb_forall. intros x Hx.
  apply negb_true_iff. destruct (p x) eqn:Hp; [|reflexivity].
  assert (existsb p l = true) by (apply existsb_exists; eauto). congruence.
Qed.

Lemma filter_some {A} (p : A -> bool) (l : list A) :
  existsb p l = true →
  (length (List.filter (fun x => negb (p x)) l) + 1 <= length l)%nat.
Proof.
  induction l as [|x l IH]; cbn; [discriminate|].
  destruct (p x); cbn.
  - intros _. pose proof (filter_length_le (fun x => negb (p x)) l). lia.
  - intros Hl. specialize (IH Hl). lia.
Qed.

(** [memory.delete_edge] always returns: it says whether an edge agreed
    with its arguments, and the edges that did are gone. *)
Lemma memory_delete_edge_exact (s t r : string) (m : GRAGMemory) :
  Memory.delete_edge s t r m
  = (Py.Ok (existsb (edge_matches s t r) (edges (knowledge_graph m))),
     with_graph (without_matching [(s, t, r)]) m).
Proof.
  unfold Memory.delete_edge, KnowledgeGraph.delete_edge.
  destruct m as [[ns es] h st path]. unfold with_graph, without_matching.
  cbn [knowledge_graph nodes edges existsb matched_by conversation_history
       Memory.state graph_save_path].
  destruct (existsb (edge_matches s t r) es) eqn:Hex.
  - do 3 f_equal. apply filter_ext. intros e. rewrite orb_false_r. reflexivity.
  - do 3 f_equal. symmetry.
    rewrite (filter_ext _ (fun e => negb (edge_matches s t r e)))
      by (intros e; rewrite orb_false_r; reflexivity).
    apply filter_none, Hex.
Qed.

(** The loop of the wildcard branch: the graph loses the edges that
    agree with one of the edges of the list, and every deletion that is
    counted has removed an edge. *)
Lemma wildcard_loop_graph (l : list edge) (n : Z) (m : GRAGMemory) :
  ∃ n',
    Py.for_fold l
      (fun deleted (e : edge) =>
         let '(src, tgt, rel) := e in
         ok <- Memory.delete_edge src tgt rel ;;
         Py.ret (if ok then deleted + 1 else deleted)) n m
    = (Py.Ok n', with_graph (without_matching l) m)
    ∧ 0 <= n' - n
         <= Z.of_nat (length (edges (knowledge_graph m)))
            - Z.of_nat (length (edges (without_matching l (knowledge_graph m)))).
Proof.
  revert n m. induction l as [|[[src tgt] rel] l IH]; intros n m.
  - exists n. cbn [Py.for_fold]. unfold Py.ret.
    destruct m as [[ns es] h st path]. unfold with_graph, without_matching.
    cbn [knowledge_graph nodes edges existsb negb conversation_history
         Memory.state graph_save_path].
    assert (Hall : List.filter (fun _ : edge => true) es = es)
      by (apply forallb_filter_id, forallb_forall; reflexivity).
    rewrite Hall. split; [reflexivity|lia].
  - cbn [Py.for_fold]. unfold Py.bind at 1 2.
    rewrite memory_delete_edge_exact. cbn [Py.ret].
    destruct (IH (if existsb (edge_matches src tgt rel) (edges (knowledge_graph m))
                  then n + 1 else n)
                 (with_graph (without_matching [(src, tgt, rel)]) m))
      as (n' & -> & Hn').
    exists n'.
    destruct m as [[ns es] h st path]. unfold with_graph, without_matching in *.
    cbn [knowledge_graph nodes edges existsb matched_by conversation_history
         Memory.state graph_save_path] in *.
    assert (Hfilter :
      List.filter (fun e => negb (existsb (fun p => matched_by p e) l))
        (List.filter (fun e => negb (edge_matches src tgt rel e || false)) es)
      = List.filter
          (fun e => negb (edge_matches src tgt rel e
                          || existsb (fun p => matched_by p e) l)) es).
    { rewrite filter_filter. apply filter_ext. intros e.
      rewrite orb_false_r, negb_orb. reflexivity. }
    rewrite Hfilter in *. split; [reflexivity|].
    rewrite (filter_ext _ (fun e => negb (edge_matches src tgt rel e)))
      in Hn' by (intros e; rewrite orb_false_r; reflexivity).
    destruct (existsb (edge_matches src tgt rel) es) eqn:Hex.
    + pose proof (filter_some _ es Hex). lia.
    + rewrite (filter_none _ es Hex) in Hn'. lia.
Qed.

Lemma matched_by_refl (e : edge) : matched_by e e = true.
Proof.
  destruct e as [[s t] r]. unfold matched_by, edge_matches.
  rewrite !String.eqb_refl, !orb_true_r. reflexivity.
Qed.

(** An edge that agrees with the components of a selected edge is
    selected too. *)
Lemma field_matches_through (field : option string) (x y : string) :
  field_matches field x = true →
  String.eqb x "*" || String.eqb y x = true →
  field_matches field y = true.
Proof.
  destruct field as [f|]; cbn; [|discriminate].
  destruct (String.eqb_spec f "*") as [->|Hf]; [reflexivity|]. cbn.
  intros Hx Hy. apply String.eqb_eq in Hx. subst x.
  apply orb_true_iff in Hy. destruct Hy as [Hy|Hy].
  - apply String.eqb_eq in Hy. contradiction.
  - exact Hy.
Qed.

Lemma selected_through (ed : edge_deletion) (p e : edge) :
  selected_by ed p = true → matched_by p e = true → selected_by ed e = true.
Proof.
  destruct p as [[ps pt] pr], e as [[s t] r].
  unfold selected_by, matched_by, edge_matches.
  rewrite !andb_true_iff. intros [[H1 H2] H3] [[M1 M2] M3].
  repeat split; eapply field_matches_through; eassumption.
Qed.

Lemma selected_patterns (ed : edge_deletion) (es : list edge) (e : edge) :
  In e es →
  existsb (fun p => matched_by p e) (List.filter (selected_by ed) es)
  = selected_by ed e.
Proof.
  intros Hin. destruct (selected_by ed e) eqn:Hsel.
  - apply existsb_exists. exists e. split; [|apply matched_by_refl].
    apply filter_In. auto.
  - destruct (existsb _ _) eqn:Hex; [|reflexivity].
    apply existsb_exists in Hex. destruct Hex as (p & Hp & Hm).
    apply filter_In in Hp. destruct Hp as [_ Hp].
    rewrite (selected_through ed p e Hp Hm) in Hsel. discriminate Hsel.
Qed.

(** An entry that takes the wildcard branch removes the edges it
    selects. *)
Lemma wildcard_entry_graph (n : Z) (ed : edge_deletion) (m : GRAGMemory) :
  is_wildcard (ed_source ed) || is_wildcard (ed_relationship ed) = true →
  ∃ n',
    process_edge_deletion n ed m = (Py.Ok n', with_graph (without_selected ed) m)
    ∧ 0 <= n' - n
         <= Z.of_nat (length (List.filter (selected_by ed)
                                (edges (knowledge_graph m)))).
Proof.
  intros Hwild. unfold process_edge_deletion, Py.try_except.
  rewrite Hwild. unfold Py.bind at 1, Py.get at 1.
  fold (selected_by ed).
  destruct (wildcard_loop_graph
              (List.filter (selected_by ed) (edges (knowledge_graph m))) n m)
    as (n' & -> & Hn').
  exists n'.
  assert (Hgraph : without_matching
                     (List.filter (selected_by ed) (edges (knowledge_graph m)))
                     (knowledge_graph m)
                   = without_selected ed (knowledge_graph m)).
  { unfold without_matching, without_selected. f_equal.
    apply filter_ext_in. intros e He. rewrite (selected_patterns ed _ e He).
    reflexivity. }
  rewrite Hgraph in Hn'. split.
  - f_equal. destruct m as [g h st path]. unfold with_graph.
    cbn [knowledge_graph] in *. rewrite Hgraph. reflexivity.
  - unfold without_selected in Hn'. cbn [edges] in Hn'.
    pose proof (filter_length (selected_by ed) (edges (knowledge_graph m))).
    lia.
Qed.

(** The edges that agree with the three fields of an entry, in the
    words of the claim: every edge agrees with a field that is ["*"],
    and the edges that have its value agree with another field. *)
Definition agrees_with (source target relationship : string) (e : edge) : bool :=
let '(s, t, r) := e in
(String.eqb source "*" || String.eqb source s)
&& (String.eqb target "*" || String.eqb target t)
&& (String.eqb relationship "*" || String.eqb relationship r).

Lemma selected_by_agrees (source target relationship : string)
      (reason : option string) (e : edge) :
  selected_by {| ed_source := Some source; ed_target := Some target;
                 ed_relationship := Some relationship; ed_reason := reason |} e
  = agrees_with source target relationship e.
Proof.
  destruct e as [[s t] r]. unfold selected_by, agrees_with, field_matches.
  cbn [ed_source ed_target ed_relationship].
  rewrite (String.eqb_sym s source), (String.eqb_sym t target),
    (String.eqb_sym r relationship). reflexivity.
Qed.

Lemma edge_matches_agrees (source target relationship : string) (e : edge) :
  edge_matches source target relationship e
  = agrees_with source target relationship e.
Proof.
  destruct e as [[s t] r]. unfold edge_matches, agrees_with.
  rewrite (String.eqb_sym s source), (String.eqb_sym t target),
    (String.eqb_sym r relationship). reflexivity.
Qed.

(** C6.  An entry of [edges_to_delete] that gives its three fields,
    each one a value or ["*"], removes exactly the edges that agree with
    its fields that are not ["*"], and leaves the nodes as they are.
    When the source or the relationship is ["*"] the edges are found by
    the loop of [_process_deletion_events]; when the target alone is
    ["*"] the entry is handed to [memory.delete_edge], whose wildcard
    form removes them: no edge from the source with the relationship is
    left. *)
Theorem wildcard_field_matches_all_agreeing_edges (n : Z)
    (source target relationship : string) (reason : option string)
    (m : GRAGMemory) :
  let entry := {| ed_source := Some source; ed_target := Some target;
                  ed_relationship := Some relationship; ed_reason := reason |} in
  ∃ n' m',
    process_edge_deletion n entry m = (Py.Ok n', m')
    ∧ nodes (knowledge_graph m') = nodes (knowledge_graph m)
    ∧ edges (knowledge_graph m')
      = List.filter (fun e => negb (agrees_with source target relationship e))
                    (edges (knowledge_graph m))
    ∧ (target = "*" →
       ∀ t, ¬ In (source, t, relationship) (edges (knowledge_graph m')))
    ∧ n <= n'.
Proof.
  cbv zeta.
  assert (Hrun : ∃ n' m',
            process_edge_deletion n
              {| ed_source := Some source; ed_target := Some target;
                 ed_relationship := Some relationship; ed_reason := reason |} m
            = (Py.Ok n', m')
            ∧ nodes (knowledge_graph m') = nodes (knowledge_graph m)
            ∧ edges (knowledge_graph m')
              = List.filter
                  (fun e => negb (agrees_with source target relationship e))
                  (edges (knowledge_graph m))
            ∧ n <= n').
  { destruct (is_wildcard (Some source) || is_wildcard (Some relationship))
      eqn:Hwild.
    - destruct (wildcard_entry_graph n
                  {| ed_source := Some source; ed_target := Some target;
                     ed_relationship := Some relationship; ed_reason := reason |}
                  m Hwild) as (n' & Hrun & Hn').
      eexists n', _. split; [exact Hrun|].
      destruct m as [[ns es] h st path]. unfold with_graph, without_selected.
      cbn [knowledge_graph nodes edges].
      split; [reflexivity|]. split; [|lia].
      apply filter_ext. intros e. rewrite selected_by_agrees. reflexivity.
    - unfold process_edge_deletion, Py.try_except.
      cbn [ed_source ed_target ed_relationship]. rewrite Hwild.
      unfold delete_edge_get, Py.bind. rewrite memory_delete_edge_exact.
      cbn [Py.ret]. eexists _, _. split; [reflexivity|].
      destruct m as [[ns es] h st path]. unfold with_graph, without_matching.
      cbn [knowledge_graph nodes edges existsb matched_by].
      split; [reflexivity|]. split.
      + apply filter_ext. intros e.
        rewrite orb_false_r, edge_matches_agrees. reflexivity.
      + destruct (existsb _ _); lia. }
  destruct Hrun as (n' & m' & Hrun & Hnodes & Hedges & Hn').
  exists n', m'. split; [exact Hrun|]. split; [exact Hnodes|].
  split; [exact Hedges|]. split; [|exact Hn'].
  intros -> t Hin. rewrite Hedges in Hin. apply filter_In in Hin.
  destruct Hin as [_ Hin]. unfold agrees_with in Hin.
  rewrite !String.eqb_refl, !orb_true_r in Hin. discriminate Hin.
Qed.

End WildcardProperties.

Lemma wildcard_field_matches_all_agreeing_edges_witness :
  ∃ counts m',
    GameEngine._process_deletion_events
      (Examples.edge_deletion_delta "character_hero" "*" "owns")
      Examples.hoard_memory
    = (Py.Ok counts, m')
    ∧ KnowledgeGraph.edges (Memory.knowledge_graph m')
      = [("character_hero", "character_npc_a", "friend_of")].
Proof.
  destruct (wildcard_field_matches_all_agreeing_edges 0 "character_hero" "*"
              "owns" None Examples.hoard_memory)
    as (n' & m' & Hrun & _ & Hedges & _).
  exists (0, n'), m'. split; [|rewrite Hedges; reflexivity].
  unfold GameEngine._process_deletion_events, Examples.edge_deletion_delta.
  cbn [Delta.nodes_to_delete Delta.edges_to_delete Py.for_fold].
  unfold Py.bind, Py.ret. rewrite Hrun. reflexivity.
Defined.

(* ===================================================================== *)
(** ** The LLM client *)
(* ===================================================================== *)

(** The request that [chat] sends for its arguments. *)
Definition chat_request `{LLMClient.Provider} (self : LLMClient.t)
  (messages : list LLMClient.message) (kw : LLMClient.kwargs)
  : LLMClient.request :=
{| LLMClient.req_model := default (LLMClient.model self) (LLMClient.kw_model kw);
   LLMClient.req_messages := messages;
   LLMClient.req_max_tokens :=
     default (LLMClient.max_tokens self) (LLMClient.kw_max_tokens kw);
   LLMClient.req_temperature :=
     default (LLMClient.temperature self) (LLMClient.kw_temperature kw);
   LLMClient.req_timeout := LLMClient.request_timeout LLMClient.config;
   LLMClient.req_response_format := "json_object" |}.

(** The text [chat] returns when the call fails. *)
Definition apology : string := "抱歉，系统暂时无法响应。".

(** C7, as the code has it.  [chat] makes exactly one call to the
    provider, with the configured time-out and in JSON mode, and never
    retries; it never raises: when the call fails, whatever the failure,
    it returns the fixed apology as an ordinary text, and when the call
    succeeds it returns the content of the first choice (the empty text
    when there is none). *)
Theorem chat_calls_once_and_swallows_failures
    `{LLMClient.Provider} (self : LLMClient.t)
    (messages : list LLMClient.message) (kw : LLMClient.kwargs)
    (calls : list LLMClient.request) :
  ∃ text,
    LLMClient.chat self messages kw calls
    = (Py.Ok text, (calls ++ [chat_request self messages kw])%list)
    ∧ LLMClient.req_timeout (chat_request self messages kw)
      = LLMClient.request_timeout LLMClient.config
    ∧ (∀ e, LLMClient.create (chat_request self messages kw) = Py.Raise e →
            text = apology)
    ∧ (∀ content rest,
         LLMClient.create (chat_request self messages kw) = Py.Ok (content :: rest) →
         text = default "" content).
Proof.
  unfold LLMClient.chat, Py.try_except, Py.bind, Py.modify, Py.lift.
  fold (chat_request self messages kw).
  destruct (LLMClient.create (chat_request self messages kw))
    as [[|[c|] rest]|e] eqn:Hcreate; cbn;
    eexists; (split; [reflexivity|]); (split; [reflexivity|]);
    split; intros; simplify_eq; reflexivity.
Qed.

Lemma timeout_is_returned_as_text :
  LLMClient.chat (H := Examples.timing_out_provider)
    Examples.timing_out_client Examples.hello Examples.no_kwargs []
  = (Py.Ok apology,
     [chat_request (H := Examples.timing_out_provider)
        Examples.timing_out_client Examples.hello Examples.no_kwargs])
  ∧ ¬ ∃ e, Py.eval_in
             (LLMClient.chat (H := Examples.timing_out_provider)
                Examples.timing_out_client Examples.hello Examples.no_kwargs) []
           = Py.Raise e.
Proof.
  split; [reflexivity|]. intros [e He]. discriminate He.
Qed.

(* ===================================================================== *)
(** ** Canonical node ids *)
(* ===================================================================== *)

(** The normalization of a name as the specification words it:
    lower-case, spaces replaced by underscores. *)
Definition normalize_as_specified (name : string) : string :=
Py.replace_char " " "_" (Py.lower name).

(** The normalization of a name as [_generate_entity_id] does it: the
    white space around the name is removed first. *)
Definition normalize (name : string) : string :=
Py.replace_char " " "_" (Py.lower (Py.strip name)).

(** Every node has a text type and a text name, and its id is the type,
    an underscore and the normalized name. *)
Definition canonical_ids (g : KnowledgeGraph.t) : Prop :=
∀ node_id a,
  KnowledgeGraph.nodes g !! node_id = Some a →
  ∃ ty name,
    a !! "type" = Some (KnowledgeGraph.AStr ty)
    ∧ a !! "name" = Some (KnowledgeGraph.AStr name)
    ∧ node_id = ty +:+ "_" +:+ normalize name.

(** The attribute dictionaries of the payload do not carry a ["type"] of
    their own. *)
Definition carries_no_type (attrs : option attr_dict) : Prop :=
default ∅ attrs !! "type" = None.

Definition payload_without_type_attribute (p : Bootstrap.parsed_data) : Prop :=
(∀ mc, Bootstrap.pd_main_character p = Some mc →
       carries_no_type (Bootstrap.mc_attributes mc))
∧ ∀ e, In e (Bootstrap.pd_entities p) → carries_no_type (Bootstrap.e_attributes e).

(** The computation keeps the property of the store, whether it returns
    or raises. *)
Definition preserves {S A} (P : S -> Prop) (m : Py.M S A) : Prop :=
∀ s, P s → P (snd (m s)).

Section PreservationRules.
Context {S : Type} (P : S -> Prop).

Lemma preserves_ret {A} (a : A) : preserves P (Py.ret a).
Proof. intros s Hs. exact Hs. Qed.

Lemma preserves_raise {A} (e : Py.exn) : preserves P (@Py.raise S A e).
Proof. intros s Hs. exact Hs. Qed.

Lemma preserves_lift {A} (o : Py.outcome A) : preserves P (Py.lift o).
Proof. intros s Hs. exact Hs. Qed.

Lemma preserves_get : preserves P Py.get.
Proof. intros s Hs. exact Hs. Qed.

Lemma preserves_modify (f : S -> S) :
  (∀ s, P s → P (f s)) → preserves P (Py.modify f).
Proof. intros Hf s Hs. apply Hf, Hs. Qed.

Lemma preserves_bind {A B} (m : Py.M S A) (k : A -> Py.M S B) :
  preserves P m → (∀ a, preserves P (k a)) → preserves P (Py.bind m k).
Proof.
  intros Hm Hk s Hs. unfold Py.bind. specialize (Hm s Hs).
  destruct (m s) as [[a|e] s']; cbn in *; [apply Hk, Hm|exact Hm].
Qed.

Lemma preserves_bind_lift {A B} (o : Py.outcome A) (k : A -> Py.M S B) :
  (∀ a, o = Py.Ok a → preserves P (k a)) → preserves P (Py.bind (Py.lift o) k).
Proof.
  intros Hk s Hs. unfold Py.bind, Py.lift.
  destruct o as [a|e]; cbn; [apply (Hk a eq_refl), Hs|exact Hs].
Qed.

Lemma preserves_try_except {A} (m : Py.M S A) (h : Py.exn -> Py.M S A) :
  preserves P m → (∀ e, preserves P (h e)) → preserves P (Py.try_except m h).
Proof.
  intros Hm Hh s Hs. unfold Py.try_except. specialize (Hm s Hs).
  destruct (m s) as [[a|e] s']; cbn in *; [exact Hm|apply Hh, Hm].
Qed.

Lemma preserves_for_fold {A B} (l : list A) (body : B -> A -> Py.M S B) :
  (∀ acc x, In x l → preserves P (body acc x)) →
  ∀ acc, preserves P (Py.for_fold l body acc).
Proof.
  induction l as [|x l IH]; intros Hbody acc; cbn [Py.for_fold].
  - apply preserves_ret.
  - apply preserves_bind.
    + apply Hbody. left. reflexivity.
    + intros acc'. apply IH. intros acc'' y Hin. apply Hbody. right. exact Hin.
Qed.

End PreservationRules.

Section CanonicalIds.
Import KnowledgeGraph Memory GameEngine Bootstrap.

Definition canonical_memory (m : GRAGMemory) : Prop :=
canonical_ids (knowledge_graph m).

Lemma generated_id_is_canonical (name ty : string) :
  _generate_entity_id name ty = ty +:+ "_" +:+ normalize name.
Proof. reflexivity. Qed.

(** Writing a node under its generated id keeps the ids canonical, as
    long as the keyword arguments give the name and no type. *)
Lemma add_node_canonical (name ty : string) (attrs : attr_dict) :
  attrs !! "type" = None →
  attrs !! "name" = Some (AStr name) →
  preserves canonical_memory
    (Memory.add_or_update_node (_generate_entity_id name ty) (AStr ty) attrs).
Proof.
  intros Hty Hname. apply preserves_modify. intros m Hm node_id a.
  destruct m as [g h st path]. unfold canonical_memory in *. cbn in *.
  destruct (decide (_generate_entity_id name ty = node_id)) as [<-|Hne].
  - rewrite lookup_insert_eq. intros [= <-]. exists ty, name.
    split; [|split; [|reflexivity]].
    + rewrite lookup_union_r by exact Hty. apply lookup_insert_eq.
    + apply lookup_union_Some_l. exact Hname.
  - rewrite lookup_insert_ne by exact Hne. apply Hm.
Qed.

Lemma add_edge_canonical (s t r : string) :
  preserves canonical_memory (Memory.add_edge s t r).
Proof.
  intros m Hm. unfold Memory.add_edge, KnowledgeGraph.add_edge.
  destruct m as [g h st path]. unfold canonical_memory in *. cbn in *.
  repeat (match goal with |- context [if ?b then _ else _] => destruct b end;
          cbn; try exact Hm).
Qed.

Section WithCollaborators.
Context `{Collaborators} `{LLMClient.Provider} `{Analysis}.

Lemma persist_canonical : preserves canonical_memory persist.
Proof.
  unfold persist. apply preserves_bind; [apply preserves_get|]. intros m.
  apply preserves_bind; [|intros; apply preserves_lift].
  destruct (graph_save_path m) as [path|]; [|apply preserves_ret].
  destruct (String.eqb path ""); [apply preserves_ret|apply preserves_lift].
Qed.

Lemma fallback_canonical (char_name char_description : string) :
  preserves canonical_memory
    (_fallback_simple_initialization char_name char_description).
Proof.
  unfold _fallback_simple_initialization.
  apply preserves_try_except; [|intros; apply preserves_ret].
  apply preserves_bind; [|intros _; apply preserves_bind;
                           [apply persist_canonical|intros; apply preserves_ret]].
  apply add_node_canonical; reflexivity.
Qed.

Lemma fallback_result_canonical (char_name char_description : string) :
  preserves canonical_memory (fallback_result char_name char_description).
Proof.
  unfold fallback_result. apply preserves_bind; [apply fallback_canonical|].
  intros [[n e] how]. apply preserves_ret.
Qed.

Lemma fallback_returns (char_name char_description : string) (m : GRAGMemory) :
  ∃ r m', _fallback_simple_initialization char_name char_description m
          = (Py.Ok r, m').
Proof.
  apply try_except_returns. intros e s. eexists _, _. reflexivity.
Qed.

Lemma fallback_result_returns (char_name char_description : string)
      (m : GRAGMemory) :
  ∃ r m', fallback_result char_name char_description m = (Py.Ok r, m').
Proof.
  unfold fallback_result, Py.bind.
  destruct (fallback_returns char_name char_description m)
    as ([[n e] how] & m' & ->).
  eexists _, _. reflexivity.
Qed.

Lemma main_character_canonical mc char_name n :
  (∀ c, mc = Some c → carries_no_type (mc_attributes c)) →
  preserves canonical_memory (add_main_character mc char_name n).
Proof.
  intros Hty. unfold add_main_character.
  destruct mc as [c|]; [|apply preserves_ret].
  apply preserves_bind; [|intros; apply preserves_ret].
  apply add_node_canonical.
  - rewrite !lookup_insert_ne by discriminate. apply Hty. reflexivity.
  - rewrite !lookup_insert_ne by discriminate. apply lookup_insert_eq.
Qed.

Lemma entity_canonical n (e : entity) :
  carries_no_type (e_attributes e) →
  preserves canonical_memory (add_entity n e).
Proof.
  intros Hty. unfold add_entity.
  destruct (truthy_str (e_name e)) as [name|]; [|apply preserves_ret].
  apply preserves_bind; [|intros; apply preserves_ret].
  apply add_node_canonical.
  - rewrite !lookup_insert_ne by discriminate. exact Hty.
  - rewrite !lookup_insert_ne by discriminate. apply lookup_insert_eq.
Qed.

Lemma relationship_canonical name_to_id n (rel : relationship) :
  preserves canonical_memory (add_relationship name_to_id n rel).
Proof.
  unfold add_relationship.
  destruct (truthy_str (r_source rel)); [|apply preserves_ret].
  destruct (truthy_str (r_target rel)); [|apply preserves_ret].
  destruct (name_to_id !! _); [|apply preserves_ret].
  destruct (name_to_id !! _); [|apply preserves_ret].
  destruct (_ || _); [apply preserves_ret|].
  apply preserves_bind; [apply preserves_get|]. intros m.
  destruct (_ && _); [|apply preserves_ret].
  apply preserves_bind; [apply add_edge_canonical|intros; apply preserves_ret].
Qed.

Lemma relationship_returns name_to_id n (rel : relationship) (m : GRAGMemory) :
  ∃ n' m', add_relationship name_to_id n rel m = (Py.Ok n', m').
Proof.
  unfold add_relationship.
  destruct (truthy_str (r_source rel)); [|eexists _, _; reflexivity].
  destruct (truthy_str (r_target rel)); [|eexists _, _; reflexivity].
  destruct (name_to_id !! _) as [source_id|]; [|eexists _, _; reflexivity].
  destruct (name_to_id !! _) as [target_id|]; [|eexists _, _; reflexivity].
  destruct (_ || _); [eexists _, _; reflexivity|].
  unfold Py.bind, Py.get.
  destruct (node_truthy (knowledge_graph m) source_id) eqn:Hs;
    [|eexists _, _; reflexivity].
  destruct (node_truthy (knowledge_graph m) target_id) eqn:Ht;
    [|eexists _, _; reflexivity].
  cbn [andb]. unfold Memory.add_edge, KnowledgeGraph.add_edge.
  assert (Hhas : ∀ x, node_truthy (knowledge_graph m) x = true →
                      has_node (knowledge_graph m) x = true).
  { intros x Hx. unfold node_truthy, get_node, has_node in *.
    apply bool_decide_eq_true.
    destruct (nodes (knowledge_graph m) !! x); [eauto|discriminate]. }
  rewrite (Hhas _ Hs), (Hhas _ Ht). cbn [negb].
  destruct (existsb _ _); eexists _, _; reflexivity.
Qed.

(** [_apply_llm_analysis_results] never raises on a typed payload. *)
Lemma analysis_results_return (parsed : parsed_data) (char_name : string)
      (m : GRAGMemory) :
  ∃ r m', _apply_llm_analysis_results parsed char_name m = (Py.Ok r, m').
Proof.
  unfold _apply_llm_analysis_results, Py.bind.
  assert (Hmain : ∃ n m1, add_main_character (pd_main_character parsed) char_name 0 m
                          = (Py.Ok n, m1)).
  { unfold add_main_character. destruct (pd_main_character parsed);
      eexists _, _; reflexivity. }
  destruct Hmain as (n & m1 & ->).
  destruct (for_fold_returns (pd_entities parsed) add_entity) with (acc := n) (s := m1)
    as (n2 & m2 & ->).
  { intros acc e s. unfold add_entity.
    destruct (truthy_str (e_name e)); eexists _, _; reflexivity. }
  destruct (for_fold_returns (pd_relationships parsed)
              (add_relationship (entity_name_to_id parsed char_name)))
    with (acc := 0) (s := m2) as (n3 & m3 & ->).
  { intros acc rel s. apply relationship_returns. }
  eexists _, _. reflexivity.
Qed.

Lemma analysis_results_canonical (parsed : parsed_data) (char_name : string) :
  payload_without_type_attribute parsed →
  preserves canonical_memory (_apply_llm_analysis_results parsed char_name).
Proof.
  intros [Hmain Hents]. unfold _apply_llm_analysis_results.
  apply preserves_bind; [apply main_character_canonical, Hmain|]. intros n.
  apply preserves_bind.
  { apply preserves_for_fold. intros acc e Hin. apply entity_canonical, Hents, Hin. }
  intros n'. apply preserves_bind; [|intros; apply preserves_ret].
  apply preserves_for_fold. intros acc rel _. apply relationship_canonical.
Qed.

Lemma initialize_canonical (agent : bool) (card : character_card) (world_info : string) :
  (∀ text parsed, json_loads text = Py.Ok parsed →
                  payload_without_type_attribute parsed) →
  preserves canonical_memory (initialize_from_tavern_data agent card world_info).
Proof.
  intros Hjson. unfold initialize_from_tavern_data.
  apply preserves_try_except; [|intros; apply fallback_result_canonical].
  destruct (negb (_is_llm_available agent)); [apply fallback_result_canonical|].
  apply preserves_try_except; [|intros; apply fallback_result_canonical].
  apply preserves_bind.
  - unfold _perform_llm_analysis.
    apply preserves_try_except; [|intros; apply preserves_ret].
    apply preserves_bind; [apply preserves_lift|]. intros text.
    apply preserves_bind_lift. intros parsed Hparse.
    apply preserves_bind; [eapply analysis_results_canonical, Hjson, Hparse|].
    intros [n e]. apply preserves_bind; [apply persist_canonical|].
    intros; apply preserves_ret.
  - intros [r|]; [apply preserves_ret|apply fallback_result_canonical].
Qed.

End WithCollaborators.
End CanonicalIds.

(** C8, as the code has it.  The bootstrap from a character card keeps
    the ids canonical, where the normalization of a name removes the
    white space around it, puts it in lower case and replaces its spaces
    by underscores: if every node of the graph has the id
    [type + "_" + normalize name], so has every node after
    [initialize_from_tavern_data], whether the LLM analysis or the simple
    fallback built the graph (the attribute dictionaries of the analysed
    document carrying no ["type"] of their own). *)
Theorem bootstrap_keeps_ids_canonical
    `{GameEngine.Collaborators} `{LLMClient.Provider} `{Bootstrap.Analysis}
    (grag_agent : bool) (card : gmap string string) (world_info : string)
    (m : Memory.GRAGMemory) :
  canonical_ids (Memory.knowledge_graph m) →
  (∀ text parsed, Bootstrap.json_loads text = Py.Ok parsed →
                  payload_without_type_attribute parsed) →
  ∃ result m',
    Bootstrap.initialize_from_tavern_data grag_agent card world_info m
    = (Py.Ok result, m')
    ∧ canonical_ids (Memory.knowledge_graph m').
Proof.
  intros Hm Hjson.
  pose proof (initialize_canonical grag_agent card world_info Hjson m Hm) as Hkeep.
  assert (Hret : ∃ r m', Bootstrap.initialize_from_tavern_data
                           grag_agent card world_info m = (Py.Ok r, m')).
  { apply try_except_returns. intros e s. apply fallback_result_returns. }
  destruct Hret as (r & m' & Hrun). exists r, m'. split; [exact Hrun|].
  unfold canonical_memory in Hkeep. rewrite Hrun in Hkeep. exact Hkeep.
Qed.

Lemma bootstrap_keeps_ids_canonical_witness :
  ∃ result m',
    Bootstrap.initialize_from_tavern_data
      (H := Examples.timing_out_agent) (H0 := Examples.answering_provider)
      (H1 := Examples.seraphina_analysis)
      true Examples.seraphina_card "" Examples.empty_memory
    = (Py.Ok result, m')
    ∧ canonical_ids (Memory.knowledge_graph m').
Proof.
  apply (@bootstrap_keeps_ids_canonical
           Examples.timing_out_agent Examples.answering_provider
           Examples.seraphina_analysis).
  - intros node_id a Hlookup. cbn in Hlookup.
    rewrite lookup_empty in Hlookup. discriminate.
  - intros text parsed [= <-]. split.
    + intros mc [= <-]. reflexivity.
    + intros e [<-|[]]. reflexivity.
Defined.

(** A name with a space at its end gets the id of the stripped name,
    which is not the id the specified normalization gives. *)
Lemma trailing_space_breaks_specified_id :
  let g :=
    Memory.knowledge_graph
      (snd (GameEngine._fallback_simple_initialization
              (H := Examples.timing_out_agent) "Bob " "" Examples.empty_memory)) in
  (KnowledgeGraph.nodes g !! "character_bob") ≫= (fun a => a !! "type")
  = Some (KnowledgeGraph.AStr "character")
  ∧ (KnowledgeGraph.nodes g !! "character_bob") ≫= (fun a => a !! "name")
    = Some (KnowledgeGraph.AStr "Bob ")
  ∧ "character" +:+ "_" +:+ normalize_as_specified "Bob " = "character_bob_"
  ∧ "character_bob" ≠ "character" +:+ "_" +:+ normalize_as_specified "Bob ".
Proof.
  cbv zeta. split; [vm_compute; reflexivity|].
  split; [vm_compute; reflexivity|].
  split; [vm_compute; reflexivity|].
  vm_compute. discriminate.
Qed.

(* ===================================================================== *)
(** ** The tavern-mode gate *)
(* ===================================================================== *)

Section GateProperties.
Import ApiServer.
Context `{Environment} `{Channel.SocketBehaviour}.

(** A handler that starts with the gate rejects with 403 while the mode
    is off, whatever the rest of its body is, and touches nothing. *)
Lemma gated_handler_rejects {A} (r : route) (body : Py.M state A) (st : state) :
  checks_tavern_mode r = true →
  TAVERN_MODE_ACTIVE st = false →
  handler r body st = (Py.Raise (Py.HTTPException 403 "Tavern mode disabled"), st).
Proof.
  intros Hgate Hoff. unfold handler, require_tavern_mode, Py.bind, Py.get.
  rewrite Hgate, Hoff. reflexivity.
Qed.

(** A handler without the gate runs its body whatever the mode is. *)
Lemma ungated_handler_runs {A} (r : route) (body : Py.M state A) (st : state) :
  checks_tavern_mode r = false → handler r body st = body st.
Proof. intros Hgate. unfold handler. rewrite Hgate. reflexivity. Qed.

(** While the mode is off a socket is accepted, closed with 1008 and
    never bound. *)
Lemma websocket_refused (ws : Channel.socket) (session_id : string)
      (serve : Py.M state unit) (st : state) :
  TAVERN_MODE_ACTIVE st = false →
  Channel.accept_result ws = Py.Ok tt →
  ∃ r,
    websocket_endpoint ws session_id serve st
    = (r, set_manager
            (fun m =>
               {| Channel.active_connections := Channel.active_connections m;
                  Channel.trace :=
                    (Channel.trace m
                     ++ [Channel.WsAccept ws;
                         Channel.WsClose ws 1008 "Tavern mode disabled"])%list |})
            st).
Proof.
  intros Hoff Hacc.
  unfold websocket_endpoint, Py.bind at 1, Py.get. rewrite Hoff. cbn [negb].
  unfold on_manager, zoom, Py.bind, Channel.ws_accept, Channel.ws_close,
    Channel.emit, Py.modify, Py.lift, Py.bind.
  rewrite Hacc. destruct st as [mode [conns tr] ? ? ? ? ? ? ? ? ? ?]. cbn.
  destruct (Channel.close_result ws 1008) as [[]|e]; eexists;
    rewrite <- app_assoc; reflexivity.
Qed.

End GateProperties.

(** C1.  On a server whose tavern mode is off, with Bob registered:
    [GET /tavern/characters], a route under [/tavern/] whose handler has
    no gate, answers with the list of the registered characters and not
    with 403; the routes under [/tavern/] without gate are the seven
    listed; the five handlers that have the gate reject with 403 whatever
    their body is; a socket is accepted and closed with 1008 without
    being bound; [GET /tavern/current_session] rejects with 403;
    [GET /system/liveness] answers. *)
Theorem tavern_routes_left_ungated :
  ApiServer.handler (A := list string * nat) ApiServer.tavern_characters
    (ApiServer.list_characters (H := Examples.plain_machine))
    Examples.started_server
  = (Py.Ok (["Bob"], 1%nat), Examples.started_server)
  ∧ ApiServer.TAVERN_MODE_ACTIVE Examples.started_server = false
  ∧ List.filter
      (fun r => ApiServer.plugin_facing r && negb (ApiServer.checks_tavern_mode r))
      ApiServer.all_routes
    = [ApiServer.tavern_get_character; ApiServer.tavern_new_session;
       ApiServer.tavern_character_delete; ApiServer.tavern_characters;
       ApiServer.tavern_sessions; ApiServer.tavern_request_reinitialize;
       ApiServer.tavern_reinitialize_from_plugin]
  ∧ (∀ body : Py.M ApiServer.state string,
       Forall
         (fun r =>
            ApiServer.handler r body Examples.started_server
            = (Py.Raise (Py.HTTPException 403 "Tavern mode disabled"),
               Examples.started_server))
         [ApiServer.tavern_submit_character; ApiServer.tavern_available_characters;
          ApiServer.health; ApiServer.tavern_process_message;
          ApiServer.tavern_current_session])
  ∧ (∀ serve,
       Channel.trace
         (ApiServer.manager
            (snd (ApiServer.websocket_endpoint (H3 := Examples.quiet_sockets)
                    3%nat "x" serve Examples.started_server)))
       = [Channel.WsAccept 3%nat; Channel.WsClose 3%nat 1008 "Tavern mode disabled"]
       ∧ Channel.active_connections
           (ApiServer.manager
              (snd (ApiServer.websocket_endpoint (H3 := Examples.quiet_sockets)
                      3%nat "x" serve Examples.started_server)))
         = ∅)
  ∧ ApiServer.get_current_tavern_session Examples.started_server
    = (Py.Raise (Py.HTTPException 403 "Tavern mode disabled"),
       Examples.started_server)
  ∧ ApiServer.handler ApiServer.system_liveness ApiServer.liveness
      Examples.started_server
    = (Py.Ok (true, "1.0.0"), Examples.started_server).
Proof.
  split; [vm_compute; reflexivity|].
  split; [reflexivity|].
  split; [vm_compute; reflexivity|].
  split.
  { intros body. repeat constructor. }
  split; [intros serve; split; reflexivity|].
  split; reflexivity.
Qed.

(* ===================================================================== *)
(** ** POST /initialize on a session that is already there *)
(* ===================================================================== *)

Section InitializeProperties.
Import ApiServer.
Context `{Environment} `{GameEngine.Collaborators} `{LLMClient.Provider}
        `{Bootstrap.Analysis}.

(** The agent flag of an engine created for a request. *)
Definition created_agent (enable_agent : bool) : bool :=
if enable_agent then
  if String.eqb (LLMClient.api_key LLMClient.config) "" then false
  else if String.eqb (LLMClient.base_url LLMClient.config) "" then false
  else Py.is_ok make_agent
else false.

(** The state after the engine of [session_id] has been created on the
    memory [mem] and published, the storage being [storage']. *)
Definition with_created_engine (session_id : string) (enable_agent : bool)
  (storage' : storage) (mem : Memory.GRAGMemory) (st : state) : state :=
set_sessions
  (insert session_id {| memory := fresh (dom (memories st));
                        grag_agent := created_agent enable_agent |})
  (set_memories (insert (fresh (dom (memories st))) mem)
     (set_session_creation_locks (union {[session_id]})
        (set_storage_manager (fun _ => storage') st))).

(** The registration step of [initialize_session]. *)
Definition registration (req : InitializeRequest) (session_id : string)
  (st : state) : Py.outcome unit * storage :=
if ir_is_test req then (Py.Ok tt, storage_manager st)
else
  match register_tavern_character (ir_character_card req) session_id
          (storage_manager st) with
  | (Py.Ok _, s') => (Py.Ok tt, s')
  | (Py.Raise e, s') => (Py.Raise e, s')
  end.

Lemma initialize_existing_engine (req : InitializeRequest) (session_id : string)
      (engine : Engine) (mem : Memory.GRAGMemory) (st : state) :
  Bootstrap.truthy_str (ir_session_id req) = Some session_id →
  sessions st !! session_id = Some engine →
  memories st !! memory engine = Some mem →
  initialize_session req st
  = (Py.Ok {| resp_session_id := session_id;
              resp_message :=
                existing_session_message
                  (KnowledgeGraph.number_of_nodes (Memory.knowledge_graph mem))
                  (KnowledgeGraph.number_of_edges (Memory.knowledge_graph mem));
              graph_stats := None |},
     st).
Proof.
  intros Hsid Hengine Hmem.
  unfold initialize_session, Py.try_except, session_id_or_uuid.
  rewrite Hsid. unfold Py.bind at 1. cbn [Py.ret].
  unfold Py.bind at 1, Py.get at 1. rewrite Hengine.
  unfold graph_stats_of, read_memory, Py.bind, Py.get. rewrite Hmem.
  reflexivity.
Qed.

Lemma initialize_existing_graph (req : InitializeRequest) (session_id : string)
      (storage' : storage) (path : string) (mem : Memory.GRAGMemory) (st : state) :
  Bootstrap.truthy_str (ir_session_id req) = Some session_id →
  sessions st !! session_id = None →
  registration req session_id st = (Py.Ok tt, storage') →
  get_graph_file_path storage' session_id (ir_is_test req) = Py.Ok path →
  load_memory path = Py.Ok mem →
  (0 < KnowledgeGraph.number_of_nodes (Memory.knowledge_graph mem))%nat →
  initialize_session req st
  = (Py.Ok {| resp_session_id := session_id;
              resp_message :=
                existing_graph_message
                  (KnowledgeGraph.number_of_nodes (Memory.knowledge_graph mem))
                  (KnowledgeGraph.number_of_edges (Memory.knowledge_graph mem));
              graph_stats := None |},
     with_created_engine session_id (ir_enable_agent req) storage' mem st).
Proof.
  intros Hsid Hnone Hreg Hpath Hload Hnodes.
  unfold initialize_session, Py.try_except, session_id_or_uuid.
  rewrite Hsid. unfold Py.bind at 1. cbn [Py.ret].
  unfold Py.bind at 1, Py.get at 1. rewrite Hnone.
  unfold registration in Hreg.
  destruct st as [mode mgr sess locks swm cr tasks pcd pend stor mems uc].
  cbn in Hnone, Hreg.
  unfold get_or_create_session_engine, graph_stats_of, read_memory, on_storage,
    zoom, with_created_engine, created_agent.
  unfold Py.bind, Py.get, Py.modify, Py.lift, Py.ret.
  destruct (ir_is_test req) eqn:Htest; cbn [negb].
  - injection Hreg as <-. cbn. rewrite Hnone, Hpath, Hload. cbn.
    rewrite lookup_insert_eq. cbn.
    destruct (KnowledgeGraph.number_of_nodes (Memory.knowledge_graph mem));
      [lia|reflexivity].
  - cbn.
    destruct (register_tavern_character (ir_character_card req) session_id stor)
      as [[dir|e] s1]; [|discriminate]. injection Hreg as <-.
    cbn. rewrite Hnone, Hpath, Hload. cbn.
    rewrite lookup_insert_eq. cbn.
    destruct (KnowledgeGraph.number_of_nodes (Memory.knowledge_graph mem));
      [lia|reflexivity].
Qed.

(** C3.  For a session whose engine exists, [POST /initialize] changes
    nothing in the state of the server and does not run the bootstrap.
    Its response does not carry the statistics of the graph: the handler
    passes the numbers of nodes and edges as [nodes_added] and
    [edges_added], which are not fields of [InitializeResponse] and are
    dropped, so that [graph_stats] is left empty and the numbers are
    only in the text of the message.  It is the same for a session
    without engine whose stored graph is not empty: the character is
    registered with the storage manager (unless the request is a test),
    the engine is created on the memory loaded from the disk and
    published, the bootstrap is not run, so that the graph and the
    conversation log are the loaded ones, and [graph_stats] is empty. *)
Theorem initialize_on_existing_session (req : InitializeRequest)
    (session_id : string) (st : state) :
  Bootstrap.truthy_str (ir_session_id req) = Some session_id →
  (∀ engine mem,
     sessions st !! session_id = Some engine →
     memories st !! memory engine = Some mem →
     initialize_session req st
     = (Py.Ok {| resp_session_id := session_id;
                 resp_message :=
                   existing_session_message
                     (KnowledgeGraph.number_of_nodes (Memory.knowledge_graph mem))
                     (KnowledgeGraph.number_of_edges (Memory.knowledge_graph mem));
                 graph_stats := None |},
        st))
  ∧ (∀ storage' path mem,
       sessions st !! session_id = None →
       registration req session_id st = (Py.Ok tt, storage') →
       get_graph_file_path storage' session_id (ir_is_test req) = Py.Ok path →
       load_memory path = Py.Ok mem →
       (0 < KnowledgeGraph.number_of_nodes (Memory.knowledge_graph mem))%nat →
       ∃ st' engine,
         initialize_session req st
         = (Py.Ok {| resp_session_id := session_id;
                     resp_message :=
                       existing_graph_message
                         (KnowledgeGraph.number_of_nodes (Memory.knowledge_graph mem))
                         (KnowledgeGraph.number_of_edges (Memory.knowledge_graph mem));
                     graph_stats := None |},
            st')
         ∧ st' = with_created_engine session_id (ir_enable_agent req) storage' mem st
         ∧ sessions st' !! session_id = Some engine
         ∧ memories st' !! memory engine = Some mem
         ∧ (ir_is_test req = true → storage_manager st' = storage_manager st)).
Proof.
  intros Hsid. split.
  - intros engine mem. apply initialize_existing_engine, Hsid.
  - intros storage' path mem Hnone Hreg Hpath Hload Hnodes.
    exists (with_created_engine session_id (ir_enable_agent req) storage' mem st),
      {| memory := fresh (dom (memories st));
         grag_agent := created_agent (ir_enable_agent req) |}.
    split; [|split; [reflexivity|]].
    + eapply initialize_existing_graph; eassumption.
    + destruct st. cbn. split; [apply lookup_insert_eq|].
      split; [apply lookup_insert_eq|].
      intros Htest. unfold registration in Hreg. rewrite Htest in Hreg.
      cbn in Hreg. congruence.
Qed.

End InitializeProperties.

Lemma initialize_on_existing_session_witness :
  ApiServer.initialize_session
    (H := Examples.plain_machine) (H0 := Examples.timing_out_agent)
    (H1 := Examples.answering_provider) (H2 := Examples.seraphina_analysis)
    (Examples.bob_request "tavern_Bob_1")
    Examples.busy_server
  = (Py.Ok {| ApiServer.resp_session_id := "tavern_Bob_1";
              ApiServer.resp_message :=
                ApiServer.existing_session_message 3 2;
              ApiServer.graph_stats := None |},
     Examples.busy_server).
Proof.
  eapply (proj1 (@initialize_on_existing_session
                   Examples.plain_machine Examples.timing_out_agent
                   Examples.answering_provider Examples.seraphina_analysis
                   (Examples.bob_request "tavern_Bob_1") "tavern_Bob_1"
                   Examples.busy_server eq_refl)
            {| ApiServer.memory := 0%nat; ApiServer.grag_agent := false |}
            Examples.amulet_memory).
  - vm_compute. reflexivity.
  - vm_compute. reflexivity.
Defined.

(* ===================================================================== *)
(** ** The two resets *)
(* ===================================================================== *)

Section ResetProperties.
Import ApiServer.
Context `{Environment} `{Channel.SocketBehaviour}.

(** The binding table after every bound socket has been closed: it is
    empty, and the trace has one [close()] per socket that was bound. *)
Definition all_closed (m : Channel.ConnectionManager) : Channel.ConnectionManager :=
{| Channel.active_connections := ∅;
   Channel.trace :=
     (Channel.trace m
      ++ map (fun entry : string * Channel.socket =>
                Channel.WsClose (snd entry) 1000 "")
             (map_to_list (Channel.active_connections m)))%list |}.

(** The state after [quick_reset]. *)
Definition quick_reset_state (st : state) : state :=
set_manager all_closed
  (set_plugin_character_data (fun _ => ∅)
     (set_conflict_resolvers (fun _ => ∅)
        (set_sliding_window_managers (fun _ => ∅)
           (set_sessions (fun _ => ∅) st)))).

Lemma close_loop_run (l : list (string * Channel.socket)) (st : state) :
  Py.for_each l
    (fun entry : string * Channel.socket =>
       on_manager
         (Py.try_except (Channel.ws_close (snd entry) 1000 "")
                        (fun _ => Py.ret tt))) st
  = (Py.Ok tt,
     set_manager
       (fun m =>
          {| Channel.active_connections := Channel.active_connections m;
             Channel.trace :=
               (Channel.trace m
                ++ map (fun entry : string * Channel.socket =>
                          Channel.WsClose (snd entry) 1000 "") l)%list |})
       st).
Proof.
  revert st. induction l as [|[sid ws] l IH]; intros st.
  - destruct st as [? [conns tr] ? ? ? ? ? ? ? ? ? ?].
    unfold set_manager, Py.ret. cbn. rewrite app_nil_r. reflexivity.
  - cbn [Py.for_each]. unfold Py.bind, on_manager at 1, zoom.
    rewrite run_guarded_close. rewrite IH.
    destruct st as [? [conns tr] ? ? ? ? ? ? ? ? ? ?].
    unfold set_manager. cbn. rewrite <- app_assoc. reflexivity.
Qed.

Lemma close_all_connections_run (st : state) :
  close_all_connections st = (Py.Ok tt, set_manager all_closed st).
Proof.
  unfold close_all_connections, Py.bind at 1, Py.get at 1.
  unfold Py.bind. rewrite close_loop_run.
  destruct st as [? [conns tr] ? ? ? ? ? ? ? ? ? ?]. reflexivity.
Qed.

Lemma quick_reset_run (st : state) :
  ∃ resp, quick_reset st = (Py.Ok resp, quick_reset_state st)
          ∧ success resp = true.
Proof.
  unfold quick_reset, Py.try_except, Py.bind, Py.get, Py.modify.
  rewrite close_all_connections_run.
  eexists. split; reflexivity.
Qed.

(** The state after [full_system_reset], the storage manager apart. *)
Definition cleared_state (st : state) : state :=
set_manager all_closed
  (set_plugin_character_data (fun _ => ∅)
     (set_initialization_tasks (fun _ => ∅)
        (set_conflict_resolvers (fun _ => ∅)
           (set_sliding_window_managers (fun _ => ∅)
              (set_sessions (fun _ => ∅) st))))).

Lemma cleared_state_storage (st : state) :
  storage_manager (cleared_state st) = storage_manager st.
Proof. destruct st. reflexivity. Qed.

Lemma cleared_state_is_quick_reset_state (st : state) (s' : storage) :
  set_storage_manager (fun _ => s') (cleared_state st)
  = set_storage_manager (fun _ => s')
      (set_initialization_tasks (fun _ => ∅) (quick_reset_state st)).
Proof. destruct st. reflexivity. Qed.

Lemma full_reset_run (st : state) :
  ∃ resp,
    full_system_reset st
    = (Py.Ok resp,
       set_storage_manager (fun _ => snd (storage_init (storage_manager st)))
         (set_initialization_tasks (fun _ => ∅) (quick_reset_state st)))
    ∧ success resp = Py.is_ok (fst (storage_init (storage_manager st))).
Proof.
  unfold full_system_reset, Py.try_except, Py.bind, Py.get, Py.modify.
  rewrite close_all_connections_run.
  fold (cleared_state st).
  unfold on_storage, zoom. rewrite cleared_state_storage.
  rewrite <- cleared_state_is_quick_reset_state.
  destruct (storage_init (storage_manager st)) as [[[]|e] stor'].
  - eexists. split; reflexivity.
  - eexists. split; reflexivity.
Qed.

(** The two resets, as the code has them.  Both return; [quick_reset]
    closes every bound socket and empties the sessions, the
    sliding-window managers, the conflict resolvers, the plugin
    character data and the binding table, and leaves the table of the
    initialization tasks and the storage manager as they are;
    [full_system_reset] ends in the same state except that the table of
    the initialization tasks is empty too and the storage manager has
    been initialized again. *)
Theorem full_reset_is_quick_reset_plus_tasks_and_storage (st : state) :
  ∃ quick full,
    quick_reset st = (Py.Ok quick, quick_reset_state st)
    ∧ full_system_reset st
      = (Py.Ok full,
         set_storage_manager (fun _ => snd (storage_init (storage_manager st)))
           (set_initialization_tasks (fun _ => ∅) (quick_reset_state st)))
    ∧ sessions (quick_reset_state st) = ∅
    ∧ sliding_window_managers (quick_reset_state st) = ∅
    ∧ conflict_resolvers (quick_reset_state st) = ∅
    ∧ plugin_character_data (quick_reset_state st) = ∅
    ∧ manager (quick_reset_state st) = all_closed (manager st)
    ∧ initialization_tasks (quick_reset_state st) = initialization_tasks st
    ∧ storage_manager (quick_reset_state st) = storage_manager st.
Proof.
  destruct (quick_reset_run st) as (quick & Hq & _).
  destruct (full_reset_run st) as (full & Hf & _).
  exists quick, full. split; [exact Hq|]. split; [exact Hf|].
  destruct st. repeat split.
Qed.

End ResetProperties.

(** C9.  [quick_reset] does not drop the table of the initialization
    tasks, against the comment of its body ("clear all the data in
    memory") and unlike [full_system_reset]: on a server that has a
    finished initialization task, the table is empty after
    [full_system_reset] and still holds the task after [quick_reset],
    although the storage is the same after both. *)
Lemma quick_reset_keeps_initialization_tasks :
  ApiServer.initialization_tasks
    (snd (ApiServer.quick_reset (H3 := Examples.quiet_sockets) Examples.busy_server))
  = ApiServer.initialization_tasks Examples.busy_server
  ∧ is_Some (ApiServer.initialization_tasks
               (snd (ApiServer.quick_reset (H3 := Examples.quiet_sockets)
                       Examples.busy_server)) !! "task-1")
  ∧ ApiServer.initialization_tasks
      (snd (ApiServer.full_system_reset
              (H := Examples.plain_machine) (H3 := Examples.quiet_sockets)
              Examples.busy_server))
    = ∅
  ∧ ApiServer.storage_manager
      (snd (ApiServer.full_system_reset
              (H := Examples.plain_machine) (H3 := Examples.quiet_sockets)
              Examples.busy_server))
    = ApiServer.storage_manager
        (snd (ApiServer.quick_reset (H3 := Examples.quiet_sockets)
                Examples.busy_server))
  ∧ snd (ApiServer.full_system_reset
           (H := Examples.plain_machine) (H3 := Examples.quiet_sockets)
           Examples.busy_server)
    ≠ snd (ApiServer.quick_reset (H3 := Examples.quiet_sockets) Examples.busy_server).
Proof.
  repeat split; try (vm_compute; reflexivity).
  - eexists. vm_compute. reflexivity.
  - intros Heq.
    apply (f_equal (fun st => ApiServer.initialization_tasks st !! "task-1")) in Heq.
    vm_compute in Heq. discriminate.
Qed.

(* ===================================================================== *)
(** ** POST /process_conversation without a window manager *)
(* ===================================================================== *)

Section FallbackProperties.
Import ApiServer.
Context `{Environment} `{GameEngine.Collaborators} `{Channel.SocketBehaviour}.

Lemma extract_updates_returns (agent : bool) (llm_response user_input : string)
      (m : Memory.GRAGMemory) :
  ∃ c m', GameEngine.extract_updates_from_response agent llm_response user_input m
          = (Py.Ok c, m').
Proof.
  unfold GameEngine.extract_updates_from_response.
  destruct agent; [apply agent_returns|apply local_processor_returns].
Qed.

Lemma memories_set_memories (f : gmap nat Memory.GRAGMemory -> gmap nat Memory.GRAGMemory)
      (st : state) :
  memories (set_memories f st) = f (memories st).
Proof. destruct st. reflexivity. Qed.

Lemma on_memory_run {A} (ref : nat) (m : Py.M Memory.GRAGMemory A)
      (mem : Memory.GRAGMemory) (st : state) :
  memories st !! ref = Some mem →
  on_memory ref m st
  = (fst (m mem), set_memories (insert ref (snd (m mem))) st).
Proof.
  intros Hmem. unfold on_memory. rewrite Hmem.
  destruct (m mem) as [r mem']. reflexivity.
Qed.


(** For a session that has an engine and no manager, with neither
    variable set, the manager is made with the window 4 and the delay 1
    and stored. *)
Lemma default_window_manager (session_id : string) (engine : Engine) (st : state) :
  sessions st !! session_id = Some engine →
  sliding_window_managers st !! session_id = None →
  getenv "SLIDING_WINDOW_SIZE" = None →
  getenv "PROCESSING_DELAY" = None →
  ∃ mgr,
    get_or_create_sliding_window_manager session_id None st
    = (Py.Ok mgr, set_sliding_window_managers (insert session_id mgr) st)
    ∧ window_size mgr = 4 ∧ processing_delay mgr = 1 ∧ conversations mgr = []
    ∧ dum_memory mgr = memory engine.
Proof.
  intros Hengine Hnone Hsize Hdelay.
  unfold get_or_create_sliding_window_manager, getenv_int, Py.bind, Py.get,
    Py.lift, Py.modify, Py.ret.
  rewrite Hnone, Hsize, Hdelay, Hengine. cbn.
  eexists. split; [reflexivity|]. repeat split.
Qed.


End FallbackProperties.



(* ===================================================================== *)
(** ** More of the connection manager *)
(* ===================================================================== *)

Section MoreChannelProperties.
Import Channel.
Context `{SocketBehaviour}.

(** What [send_message] does: nothing without a binding; else one
    [send_json], and the binding is removed when that call raises. *)
Lemma send_message_run (session_id msg_type : string) (m : ConnectionManager) :
  ∃ m',
    send_message session_id msg_type m = (Py.Ok tt, m')
    ∧ match active_connections m !! session_id with
      | None => m' = m
      | Some ws =>
          match send_result ws msg_type with
          | Py.Ok _ =>
              active_connections m' = active_connections m
              ∧ trace m' = (trace m ++ [WsSendJson ws msg_type])%list
          | Py.Raise _ =>
              active_connections m' = delete session_id (active_connections m)
              ∧ trace m'
                = (trace m ++ [WsSendJson ws msg_type; Unbind session_id])%list
          end
      end.
Proof.
  unfold send_message, Py.bind at 1, Py.get at 1.
  destruct (active_connections m !! session_id) as [ws|] eqn:Hws.
  - unfold Py.try_except, ws_send_json, Py.bind, Py.lift. rewrite run_emit.
    destruct (send_result ws msg_type) as [[]|e].
    + eexists. split; [reflexivity|]. split; reflexivity.
    + unfold disconnect, Py.bind, Py.get. cbn [active_connections].
      rewrite Hws, Nat.eqb_refl. cbn.
      eexists. split; [reflexivity|]. cbn. split; [reflexivity|].
      rewrite <- app_assoc. reflexivity.
  - exists m. split; reflexivity.
Qed.

(** X1.  [send_message] never raises.  For a session without socket it
    does nothing; for a bound socket it makes one [send_json]; when that
    call raises, the binding of the session is removed, and otherwise the
    table is left as it is. *)
Theorem send_message_drops_the_socket_that_fails (session_id msg_type : string)
    (m : ConnectionManager) :
  ∃ m',
    send_message session_id msg_type m = (Py.Ok tt, m')
    ∧ (active_connections m !! session_id = None → m' = m)
    ∧ (∀ ws, active_connections m !! session_id = Some ws →
             send_result ws msg_type = Py.Ok tt →
             active_connections m' = active_connections m
             ∧ trace m' = (trace m ++ [WsSendJson ws msg_type])%list)
    ∧ (∀ ws e, active_connections m !! session_id = Some ws →
               send_result ws msg_type = Py.Raise e →
               active_connections m' !! session_id = None
               ∧ (∀ other, other ≠ session_id →
                           active_connections m' !! other
                           = active_connections m !! other)
               ∧ trace m'
                 = (trace m ++ [WsSendJson ws msg_type; Unbind session_id])%list).
Proof.
  destruct (send_message_run session_id msg_type m) as (m' & Hrun & Hcases).
  exists m'. split; [exact Hrun|]. split; [|split].
  - intros Hnone. rewrite Hnone in Hcases. exact Hcases.
  - intros ws Hws Hok. rewrite Hws, Hok in Hcases. exact Hcases.
  - intros ws e Hws Hraise. rewrite Hws, Hraise in Hcases.
    destruct Hcases as [Hconns Htrace]. rewrite Hconns.
    split; [apply lookup_delete_eq|]. split; [|exact Htrace].
    intros other Hne. apply lookup_delete_ne. congruence.
Qed.

(** The operations of the manager on one session leave the binding of
    every other session as it is, whether they return or raise. *)
Definition keeps_binding (other : string) {A} (op : Py.M ConnectionManager A) : Prop :=
∀ m, active_connections (snd (op m)) !! other = active_connections m !! other.

Lemma emit_keeps_binding (other : string) (e : effect) :
  keeps_binding other (emit e).
Proof. intros m. reflexivity. Qed.

Lemma disconnect_keeps_binding (session_id other : string) (ws : option socket) :
  session_id ≠ other → keeps_binding other (disconnect session_id ws).
Proof.
  intros Hne m. unfold disconnect, Py.bind, Py.get.
  destruct (active_connections m !! session_id) as [cur|]; [|reflexivity].
  destruct (match ws with None => true | Some w => Nat.eqb cur w end);
    [|reflexivity].
  cbn. apply lookup_delete_ne. exact Hne.
Qed.

(** X2.  [connect], [disconnect] and [send_message] for one session
    never change the socket bound to another session. *)
Theorem sessions_do_not_touch_each_other (session_id other : string)
    (ws : socket) (closing : option socket) (msg_type : string) :
  session_id ≠ other →
  keeps_binding other (connect session_id ws)
  ∧ keeps_binding other (disconnect session_id closing)
  ∧ keeps_binding other (send_message session_id msg_type).
Proof.
  intros Hne. split; [|split].
  - intros m. unfold connect, ws_accept, Py.bind, Py.lift. rewrite run_emit.
    destruct (accept_result ws) as [[]|e]; [|reflexivity].
    unfold Py.get. cbn [active_connections].
    destruct (active_connections m !! session_id) as [old|].
    + destruct (negb (Nat.eqb old ws)).
      * rewrite run_guarded_close. cbn. apply lookup_insert_ne. exact Hne.
      * cbn. apply lookup_insert_ne. exact Hne.
    + cbn. apply lookup_insert_ne. exact Hne.
  - apply disconnect_keeps_binding. exact Hne.
  - intros m. unfold send_message, Py.bind at 1, Py.get at 1.
    destruct (active_connections m !! session_id) as [bound|]; [|reflexivity].
    unfold Py.try_except, ws_send_json, Py.bind, Py.lift. rewrite run_emit.
    destruct (send_result bound msg_type) as [[]|e]; [reflexivity|].
    rewrite (disconnect_keeps_binding session_id other (Some bound) Hne).
    reflexivity.
Qed.

End MoreChannelProperties.

Lemma sessions_do_not_touch_each_other_witness :
  Channel.active_connections
    (snd (Channel.connect (H := Examples.quiet_sockets) "s2" 2%nat
            Examples.one_binding)) !! "s1"
  = Some 1%nat.
Proof.
  rewrite (proj1 (@sessions_do_not_touch_each_other Examples.quiet_sockets
                    "s2" "s1" 2%nat None "ping" ltac:(discriminate))).
  reflexivity.
Defined.

(* ===================================================================== *)
(** ** The life of a plugin socket *)
(* ===================================================================== *)

Section SocketLifeProperties.
Import ApiServer.
Context `{Channel.SocketBehaviour}.

Lemma manager_set_manager (f : Channel.ConnectionManager -> Channel.ConnectionManager)
      (st : state) :
  manager (set_manager f st) = f (manager st).
Proof. destruct st. reflexivity. Qed.

Lemma on_manager_run {A} (m : Py.M Channel.ConnectionManager A) (st : state) :
  on_manager m st
  = (fst (m (manager st)), set_manager (fun _ => snd (m (manager st))) st).
Proof.
  unfold on_manager, zoom. destruct (m (manager st)) as [r m']. reflexivity.
Qed.

Lemma connect_returns (session_id : string) (ws : Channel.socket)
      (m : Channel.ConnectionManager) :
  Channel.accept_result ws = Py.Ok tt →
  fst (Channel.connect session_id ws m) = Py.Ok tt.
Proof.
  intros Hacc.
  unfold Channel.connect, Channel.ws_accept, Py.bind, Py.lift.
  rewrite run_emit, Hacc. unfold Py.get. cbn [Channel.active_connections].
  destruct (Channel.active_connections m !! session_id) as [old|];
    [|reflexivity].
  destruct (negb (Nat.eqb old ws)); [|reflexivity].
  rewrite run_guarded_close. reflexivity.
Qed.

(** The handler of the endpoint's [try]: afterwards the session is not
    bound to the socket that left. *)
Lemma endpoint_disconnect (session_id : string) (ws : Channel.socket)
      (st : state) :
  ∃ st',
    on_manager (Channel.disconnect session_id (Some ws)) st = (Py.Ok tt, st')
    ∧ Channel.active_connections (manager st') !! session_id ≠ Some ws.
Proof.
  rewrite on_manager_run.
  destruct (disconnect_spec session_id ws (manager st)) as (m' & Hrun & Hconns).
  rewrite Hrun. cbn [fst snd]. eexists. split; [reflexivity|].
  rewrite manager_set_manager, Hconns.
  case_decide as Hbound.
  - rewrite lookup_delete_eq. discriminate.
  - exact Hbound.
Qed.

Lemma connect_run (session_id : string) (ws : Channel.socket)
      (m : Channel.ConnectionManager) :
  Channel.accept_result ws = Py.Ok tt →
  ∃ closing,
    Channel.connect session_id ws m
    = (Py.Ok tt,
       {| Channel.active_connections :=
            <[session_id := ws]> (Channel.active_connections m);
          Channel.trace :=
            (Channel.trace m
             ++ Channel.WsAccept ws :: closing ++ [Channel.Bind session_id ws])%list |}).
Proof.
  intros Hacc.
  unfold Channel.connect, Channel.ws_accept, Py.bind, Py.lift.
  rewrite run_emit, Hacc. unfold Py.get. cbn [Channel.active_connections].
  destruct (Channel.active_connections m !! session_id) as [old|].
  - destruct (negb (Nat.eqb old ws)).
    + rewrite run_guarded_close.
      exists [Channel.WsClose old 1012 "Replaced by new connection"].
      cbn. rewrite run_emit. cbn. rewrite <- !app_assoc. reflexivity.
    + exists []. cbn. rewrite run_emit. cbn. rewrite <- !app_assoc. reflexivity.
  - exists []. cbn. rewrite run_emit. cbn. rewrite <- !app_assoc. reflexivity.
Qed.

Lemma send_json_run (ws : Channel.socket) (msg_type : string)
      (m : Channel.ConnectionManager) :
  Channel.ws_send_json ws msg_type m
  = (Channel.send_result ws msg_type,
     {| Channel.active_connections := Channel.active_connections m;
        Channel.trace := (Channel.trace m ++ [Channel.WsSendJson ws msg_type])%list |}).
Proof.
  unfold Channel.ws_send_json, Py.bind, Py.lift. rewrite run_emit.
  destruct (Channel.send_result ws msg_type) as [[]|e]; reflexivity.
Qed.

(** The state after [manager.connect] has accepted the socket, closed
    with 1012 the sockets of [closing] and bound the session to the
    socket. *)
Definition bound_to (session_id : string) (ws : Channel.socket)
  (closing : list Channel.effect) (st : state) : state :=
set_manager
  (fun m =>
     {| Channel.active_connections :=
          <[session_id := ws]> (Channel.active_connections m);
        Channel.trace :=
          (Channel.trace m
           ++ Channel.WsAccept ws :: closing ++ [Channel.Bind session_id ws])%list |})
  st.

(** The state after the message ["connection_established"] has been
    sent on the socket. *)
Definition greeted_on (ws : Channel.socket) (st : state) : state :=
set_manager
  (fun m =>
     {| Channel.active_connections := Channel.active_connections m;
        Channel.trace :=
          (Channel.trace m
           ++ [Channel.WsSendJson ws "connection_established"])%list |})
  st.

(** X3.  While the tavern mode is on, a socket that is accepted is bound
    to its session, greeted and served, in this order: the serving loop
    starts in the state in which the socket has been accepted, the
    session is bound to it and the greeting has been sent on it.  When
    the serving loop ends (it only ends by raising, [WebSocketDisconnect]
    when the peer leaves) or the greeting cannot be sent, the endpoint
    disconnects the session from the socket in the state that was
    reached, and returns: the session is no longer bound to that
    socket. *)
Theorem websocket_endpoint_unbinds_its_socket (ws : Channel.socket)
    (session_id : string) (serve : Py.M state unit) (st : state) :
  TAVERN_MODE_ACTIVE st = true →
  Channel.accept_result ws = Py.Ok tt →
  (∀ s, ∃ e, fst (serve s) = Py.Raise e) →
  ∃ closing st',
    let bound := bound_to session_id ws closing st in
    let greeted := greeted_on ws bound in
    on_manager (Channel.connect session_id ws) st = (Py.Ok tt, bound)
    ∧ Channel.active_connections (manager bound) !! session_id = Some ws
    ∧ on_manager (Channel.ws_send_json ws "connection_established") bound
      = (Channel.send_result ws "connection_established", greeted)
    ∧ Channel.active_connections (manager greeted) !! session_id = Some ws
    ∧ websocket_endpoint ws session_id serve st
      = on_manager (Channel.disconnect session_id (Some ws))
          (match Channel.send_result ws "connection_established" with
           | Py.Ok _ => snd (serve greeted)
           | Py.Raise _ => greeted
           end)
    ∧ websocket_endpoint ws session_id serve st = (Py.Ok tt, st')
    ∧ Channel.active_connections (manager st') !! session_id ≠ Some ws.
Proof.
  intros Hon Hacc Hserve.
  destruct (connect_run session_id ws (manager st) Hacc) as [closing Hconnect].
  set (bound := bound_to session_id ws closing st).
  set (greeted := greeted_on ws bound).
  assert (Hbound : on_manager (Channel.connect session_id ws) st = (Py.Ok tt, bound)).
  { rewrite on_manager_run, Hconnect. reflexivity. }
  assert (Hgreeted :
            on_manager (Channel.ws_send_json ws "connection_established") bound
            = (Channel.send_result ws "connection_established", greeted)).
  { rewrite on_manager_run, send_json_run. reflexivity. }
  assert (Hrun : websocket_endpoint ws session_id serve st
                 = on_manager (Channel.disconnect session_id (Some ws))
                     (match Channel.send_result ws "connection_established" with
                      | Py.Ok _ => snd (serve greeted)
                      | Py.Raise _ => greeted
                      end)).
  { unfold websocket_endpoint, Py.bind at 1, Py.get at 1. rewrite Hon. cbn [negb].
    unfold Py.bind at 1. rewrite Hbound.
    unfold Py.try_except, Py.bind. rewrite Hgreeted.
    destruct (Channel.send_result ws "connection_established") as [[]|e];
      [|reflexivity].
    destruct (Hserve greeted) as [e He]. destruct (serve greeted) as [r s1].
    cbn [fst] in He. subst r. reflexivity. }
  destruct (endpoint_disconnect session_id ws
              (match Channel.send_result ws "connection_established" with
               | Py.Ok _ => snd (serve greeted)
               | Py.Raise _ => greeted
               end)) as (st' & Hdisconnect & Hunbound).
  exists closing, st'. cbv zeta. fold bound. fold greeted.
  split; [exact Hbound|].
  split; [unfold bound, bound_to; rewrite manager_set_manager;
          apply lookup_insert_eq|].
  split; [exact Hgreeted|].
  split; [unfold greeted, greeted_on, bound, bound_to;
          rewrite !manager_set_manager; apply lookup_insert_eq|].
  split; [exact Hrun|].
  split; [rewrite Hrun; exact Hdisconnect|exact Hunbound].
Qed.

End SocketLifeProperties.

Lemma websocket_endpoint_unbinds_its_socket_witness :
  ∃ st',
    ApiServer.websocket_endpoint (H3 := Examples.quiet_sockets) 9%nat
      "tavern_Bob_1" (Py.raise Py.WebSocketDisconnect) Examples.busy_server
    = (Py.Ok tt, st')
    ∧ Channel.active_connections (ApiServer.manager st') !! "tavern_Bob_1"
      ≠ Some 9%nat.
Proof.
  destruct (@websocket_endpoint_unbinds_its_socket Examples.quiet_sockets
              9%nat "tavern_Bob_1" (Py.raise Py.WebSocketDisconnect)
              Examples.busy_server)
    as (closing & st' & _ & _ & _ & _ & _ & Hrun & Hunbound).
  - reflexivity.
  - reflexivity.
  - intros s. exists Py.WebSocketDisconnect. reflexivity.
  - exists st'. split; [exact Hrun|exact Hunbound].
Defined.

(* ===================================================================== *)
(** ** Engines and window managers are made once *)
(* ===================================================================== *)

Section GetOrCreateProperties.
Import ApiServer.
Context `{Environment} `{LLMClient.Provider}.

Lemma sessions_set_sessions (f : gmap string Engine -> gmap string Engine)
      (st : state) :
  sessions (set_sessions f st) = f (sessions st).
Proof. destruct st. reflexivity. Qed.

Lemma managers_set_managers
      (f : gmap string DelayedUpdateManager -> gmap string DelayedUpdateManager)
      (st : state) :
  sliding_window_managers (set_sliding_window_managers f st)
  = f (sliding_window_managers st).
Proof. destruct st. reflexivity. Qed.

(** X4.  Once [get_or_create_session_engine] has returned an engine for
    a session, every later call for that session returns the same engine
    and changes nothing, whatever its [is_test] and [enable_agent] are;
    and making the engine of one session leaves the engines of the other
    sessions and every memory that exists where they are. *)
Theorem session_engine_is_made_once (session_id : string)
    (is_test enable_agent : bool) (engine : Engine) (st st' : state) :
  get_or_create_session_engine session_id is_test enable_agent st
  = (Py.Ok engine, st') →
  (∀ is_test' enable_agent',
     get_or_create_session_engine session_id is_test' enable_agent' st'
     = (Py.Ok engine, st'))
  ∧ (∀ other, other ≠ session_id → sessions st' !! other = sessions st !! other)
  ∧ (∀ ref mem, memories st !! ref = Some mem → memories st' !! ref = Some mem).
Proof.
  unfold get_or_create_session_engine at 1.
  unfold Py.bind at 1, Py.get at 1.
  destruct (sessions st !! session_id) as [old|] eqn:Hold.
  - intros [= <- <-]. split; [|split; auto].
    intros is_test' enable_agent'.
    unfold get_or_create_session_engine, Py.bind, Py.get. rewrite Hold.
    reflexivity.
  - unfold Py.bind, Py.modify, Py.lift, Py.get, Py.ret.
    destruct (get_graph_file_path _ _ _) as [path|e]; [|discriminate].
    destruct (load_memory path) as [mem|e]; [|discriminate].
    intros [= <- <-]. split; [|split].
    + intros is_test' enable_agent'.
      unfold get_or_create_session_engine, Py.bind, Py.get.
      rewrite sessions_set_sessions, lookup_insert_eq. reflexivity.
    + intros other Hne. rewrite sessions_set_sessions.
      rewrite lookup_insert_ne by congruence. destruct st; reflexivity.
    + intros ref mem0 Hmem0. destruct st as [? ? ? ? ? ? ? ? ? ? mems ?].
      cbn in Hmem0 |- *. rewrite lookup_insert_ne; [exact Hmem0|].
      intros <-. apply (is_fresh (dom mems)).
      apply elem_of_dom. eauto.
Qed.

(** X5.  Once a window manager has been made for a session, every later
    call returns that manager and changes nothing: the configuration and
    the environment of a later call are not read. *)
Theorem window_manager_is_made_once (session_id : string)
    (cfg : session_config) (mgr : DelayedUpdateManager) (st st' : state) :
  get_or_create_sliding_window_manager session_id cfg st = (Py.Ok mgr, st') →
  sliding_window_managers st' !! session_id = Some mgr
  ∧ ∀ cfg',
      get_or_create_sliding_window_manager session_id cfg' st' = (Py.Ok mgr, st').
Proof.
  intros Hrun.
  assert (Hstored : sliding_window_managers st' !! session_id = Some mgr).
  { revert Hrun.
    unfold get_or_create_sliding_window_manager, getenv_int, Py.bind, Py.get,
      Py.lift, Py.modify, Py.ret, Py.raise.
    destruct (sliding_window_managers st !! session_id) as [old|] eqn:Hold.
    - intros [= <- <-]. exact Hold.
    - destruct (py_int _) as [size|e1]; [|discriminate].
      destruct (py_int _) as [delay|e2]; [|discriminate].
      destruct (sessions st !! session_id); [|discriminate].
      intros [= <- <-]. rewrite managers_set_managers. apply lookup_insert_eq. }
  split; [exact Hstored|]. intros cfg'.
  unfold get_or_create_sliding_window_manager, Py.bind, Py.get.
  rewrite Hstored. reflexivity.
Qed.

(** X6.  The settings of a new window manager.  The two environment
    variables are read and converted before the configuration of the
    session is looked at, so a variable that is not a number makes the
    creation fail with [ValueError] even when the configuration gives
    both values; when they convert, the values of the configuration win
    over them, and the manager shares the memory of the engine. *)
Theorem window_manager_settings (session_id : string) (cfg : session_config)
    (engine : Engine) (st : state) :
  sliding_window_managers st !! session_id = None →
  sessions st !! session_id = Some engine →
  (∀ e,
     py_int (default "4" (getenv "SLIDING_WINDOW_SIZE")) = Py.Raise e →
     get_or_create_sliding_window_manager session_id cfg st = (Py.Raise e, st))
  ∧ (∀ size e,
       py_int (default "4" (getenv "SLIDING_WINDOW_SIZE")) = Py.Ok size →
       py_int (default "1" (getenv "PROCESSING_DELAY")) = Py.Raise e →
       get_or_create_sliding_window_manager session_id cfg st = (Py.Raise e, st))
  ∧ (∀ size delay,
       py_int (default "4" (getenv "SLIDING_WINDOW_SIZE")) = Py.Ok size →
       py_int (default "1" (getenv "PROCESSING_DELAY")) = Py.Ok delay →
       ∃ mgr,
         get_or_create_sliding_window_manager session_id cfg st
         = (Py.Ok mgr, set_sliding_window_managers (insert session_id mgr) st)
         ∧ window_size mgr
           = default size (sc_window_size (default empty_sliding_config cfg))
         ∧ processing_delay mgr
           = default delay (sc_processing_delay (default empty_sliding_config cfg))
         ∧ conversations mgr = []
         ∧ dum_memory mgr = memory engine
         ∧ (grag_agent engine = false → dum_grag_agent mgr = false)).
Proof.
  intros Hnone Hengine.
  unfold get_or_create_sliding_window_manager, getenv_int, Py.bind, Py.get,
    Py.lift, Py.modify, Py.ret.
  rewrite Hnone. split; [|split].
  - intros e ->. reflexivity.
  - intros size e -> ->. reflexivity.
  - intros size delay -> ->. rewrite Hengine.
    eexists. split; [reflexivity|]. cbn.
    repeat split. intros ->. apply andb_false_r.
Qed.

End GetOrCreateProperties.

Lemma session_engine_is_made_once_witness :
  ∃ engine st',
    ApiServer.get_or_create_session_engine
      (H := Examples.plain_machine) (H1 := Examples.answering_provider)
      "tavern_Bob_1" false false Examples.started_server
    = (Py.Ok engine, st')
    ∧ ApiServer.get_or_create_session_engine
        (H := Examples.plain_machine) (H1 := Examples.answering_provider)
        "tavern_Bob_1" true true st'
      = (Py.Ok engine, st').
Proof.
  destruct (ApiServer.get_or_create_session_engine
              (H := Examples.plain_machine) (H1 := Examples.answering_provider)
              "tavern_Bob_1" false false Examples.started_server)
    as [[engine|e] st'] eqn:Hrun.
  - exists engine, st'. split; [reflexivity|].
    apply (proj1 (@session_engine_is_made_once
                    Examples.plain_machine Examples.answering_provider
                    "tavern_Bob_1" false false engine _ st' Hrun)).
  - vm_compute in Hrun. discriminate Hrun.
Defined.

Lemma window_manager_is_made_once_witness :
  ∃ mgr st',
    ApiServer.get_or_create_sliding_window_manager (H := Examples.plain_machine)
      "tavern_Bob_1" None Examples.busy_server
    = (Py.Ok mgr, st')
    ∧ ApiServer.get_or_create_sliding_window_manager (H := Examples.plain_machine)
        "tavern_Bob_1"
        (Some {| ApiServer.sc_window_size := Some 9;
                 ApiServer.sc_processing_delay := Some 0;
                 ApiServer.sc_enable_enhanced_agent := None |}) st'
      = (Py.Ok mgr, st').
Proof.
  destruct (ApiServer.get_or_create_sliding_window_manager
              (H := Examples.plain_machine) "tavern_Bob_1" None Examples.busy_server)
    as [[mgr|e] st'] eqn:Hrun.
  - exists mgr, st'. split; [reflexivity|].
    apply (proj2 (@window_manager_is_made_once Examples.plain_machine
                    "tavern_Bob_1" None mgr _ st' Hrun)).
  - vm_compute in Hrun. discriminate Hrun.
Defined.

Lemma window_manager_settings_witness :
  ApiServer.get_or_create_sliding_window_manager
    (H := Examples.misconfigured_machine) "tavern_Bob_1"
    (Some {| ApiServer.sc_window_size := Some 9;
             ApiServer.sc_processing_delay := Some 0;
             ApiServer.sc_enable_enhanced_agent := None |})
    Examples.busy_server
  = (Py.Raise (Py.ValueError "invalid literal for int()"), Examples.busy_server).
Proof.
  apply (@window_manager_settings Examples.misconfigured_machine "tavern_Bob_1"
           _ {| ApiServer.memory := 0%nat; ApiServer.grag_agent := false |}).
  - vm_compute. reflexivity.
  - vm_compute. reflexivity.
  - vm_compute. reflexivity.
Defined.

(* ===================================================================== *)
(** ** What the deletions of a delta remove *)
(* ===================================================================== *)

Section MoreDeletionProperties.
Import KnowledgeGraph Memory Delta GameEngine.

(** No edge of the list has a component that is the text ["*"]. *)
Definition plainly_named (es : list edge) : Prop :=
∀ s t r, In (s, t, r) es → s ≠ "*" ∧ t ≠ "*" ∧ r ≠ "*".

Lemma plainly_named_sub (es es' : list edge) :
  (∀ e, In e es' → In e es) → plainly_named es → plainly_named es'.
Proof. intros Hsub Hplain s t r Hin. apply Hplain, Hsub, Hin. Qed.

(** Without wildcards the arguments of [delete_edge] agree with one
    edge only. *)
Lemma plain_match (s t r : string) (e : edge) :
  s ≠ "*" → t ≠ "*" → r ≠ "*" →
  (edge_matches s t r e = true ↔ e = (s, t, r)).
Proof.
  intros Hs Ht Hr. destruct e as [[s' t'] r']. unfold edge_matches.
  apply String.eqb_neq in Hs, Ht, Hr. rewrite Hs, Ht, Hr. cbn [orb].
  rewrite !andb_true_iff, !String.eqb_eq. split.
  - intros [[-> ->] ->]. reflexivity.
  - intros [= -> -> ->]. auto.
Qed.

Lemma length_without_one (p : edge -> bool) (x : edge) (l : list edge) :
  (∀ e, p e = true ↔ e = x) →
  List.NoDup l → In x l →
  (length (List.filter (fun e => negb (p e)) l) + 1)%nat = length l.
Proof.
  intros Hp. induction l as [|y l IH]; intros Hnd Hin; [destruct Hin|].
  inversion Hnd as [|y' l' Hnotin Hnd']; subst. cbn [List.filter].
  destruct (p y) eqn:Hy; cbn [negb length].
  - apply Hp in Hy. subst y. f_equal.
    rewrite forallb_filter_id; [lia|].
    apply forallb_forall. intros e He. apply negb_true_iff.
    destruct (p e) eqn:Hpe; [|reflexivity].
    apply Hp in Hpe. subst e. contradiction.
  - destruct Hin as [->|Hin].
    + rewrite (proj2 (Hp x) eq_refl) in Hy. discriminate Hy.
    + rewrite <- (IH Hnd' Hin). lia.
Qed.

(** The loop of the wildcard branch over edges without wildcards in
    their components, once each and all in the graph: every one is
    deleted and counted. *)
Lemma wildcard_loop_exact (l : list edge) (n : Z) (m : GRAGMemory) :
  List.NoDup l → plainly_named l →
  (∀ e, In e l → In e (edges (knowledge_graph m))) →
  ∃ m',
    Py.for_fold l
      (fun deleted (e : edge) =>
         let '(src, tgt, rel) := e in
         ok <- Memory.delete_edge src tgt rel ;;
         Py.ret (if ok then deleted + 1 else deleted)) n m
    = (Py.Ok (n + Z.of_nat (length l)), m').
Proof.
  revert n m. induction l as [|[[src tgt] rel] l IH]; intros n m Hnd Hplain Hin.
  - exists m. cbn [Py.for_fold length]. unfold Py.ret. do 2 f_equal. lia.
  - cbn [Py.for_fold]. unfold Py.bind at 1 2.
    rewrite memory_delete_edge_exact. cbn [Py.ret].
    destruct (Hplain src tgt rel (or_introl eq_refl)) as (Hs & Ht & Hr).
    assert (Hex : existsb (edge_matches src tgt rel) (edges (knowledge_graph m))
                  = true).
    { apply existsb_exists. exists (src, tgt, rel).
      split; [apply Hin; left; reflexivity|apply (matched_by_refl (src, tgt, rel))]. }
    rewrite Hex. inversion Hnd as [|x l' Hnotin Hnd']; subst.
    destruct (IH (n + 1) (with_graph (without_matching [(src, tgt, rel)]) m))
      as (m' & Hrun).
    + exact Hnd'.
    + intros s t r Hl. apply Hplain. right. exact Hl.
    + intros e He. destruct m as [[ns es] h st path].
      unfold with_graph, without_matching.
      cbn [knowledge_graph nodes edges existsb matched_by].
      apply filter_In. split; [apply Hin; right; exact He|].
      rewrite orb_false_r. apply negb_true_iff.
      destruct (edge_matches src tgt rel e) eqn:Hm; [|reflexivity].
      apply (plain_match src tgt rel e Hs Ht Hr) in Hm. subst e. contradiction.
    + exists m'. rewrite Hrun. do 2 f_equal. cbn [length]. lia.
Qed.

(** An entry that takes the wildcard branch, on a graph without
    repeated edges: the bounds of the count. *)
Lemma wildcard_entry_run (n : Z) (ed : edge_deletion)
      (m : GRAGMemory) :
  is_wildcard (ed_source ed) || is_wildcard (ed_relationship ed) = true →
  List.NoDup (edges (knowledge_graph m)) →
  ∃ n',
    process_edge_deletion n ed m = (Py.Ok n', with_graph (without_selected ed) m)
    ∧ n <= n' <= n + Z.of_nat (length (List.filter (selected_by ed)
                                         (edges (knowledge_graph m))))
    ∧ (plainly_named (edges (knowledge_graph m)) →
       n' = n + Z.of_nat (length (List.filter (selected_by ed)
                                    (edges (knowledge_graph m))))).
Proof.
  intros Hwild Hnd.
  destruct (wildcard_entry_graph n ed m Hwild) as (n' & Hrun & Hn').
  exists n'. split; [exact Hrun|]. split; [lia|].
  intros Hplain.
  destruct (wildcard_loop_exact
              (List.filter (selected_by ed) (edges (knowledge_graph m))) n m)
    as (m' & Hexact).
  - apply List.NoDup_filter. exact Hnd.
  - eapply plainly_named_sub; [|exact Hplain].
    intros e He. apply filter_In in He. tauto.
  - intros e He. apply filter_In in He. tauto.
  - unfold process_edge_deletion, Py.try_except in Hrun.
    rewrite Hwild in Hrun. unfold Py.bind at 1, Py.get at 1 in Hrun.
    fold (selected_by ed) in Hrun. rewrite Hexact in Hrun.
    injection Hrun as Hn _. lia.
Qed.

(** X7.  An entry of [edges_to_delete] whose source or relationship is
    ["*"] removes from a graph without repeated edges exactly the edges
    that agree with its components that are not ["*"], and leaves the
    nodes and the conversation log as they are.  It adds their number to
    the count when no edge of the graph has a component that is the text
    ["*"]; otherwise [memory.delete_edge] reads such a component as a
    wildcard and may remove several of them in one call, which is
    counted once, and the count grows by less. *)
Theorem wildcard_entry_deletes_the_selected_edges (n : Z) (ed : edge_deletion)
    (m : GRAGMemory) :
  is_wildcard (ed_source ed) || is_wildcard (ed_relationship ed) = true →
  List.NoDup (edges (knowledge_graph m)) →
  ∃ n' m',
    process_edge_deletion n ed m = (Py.Ok n', m')
    ∧ nodes (knowledge_graph m') = nodes (knowledge_graph m)
    ∧ edges (knowledge_graph m')
      = List.filter (fun e => negb (selected_by ed e)) (edges (knowledge_graph m))
    ∧ conversation_history m' = conversation_history m
    ∧ n <= n' <= n + Z.of_nat (length (List.filter (selected_by ed)
                                         (edges (knowledge_graph m))))
    ∧ (plainly_named (edges (knowledge_graph m)) →
       n' = n + Z.of_nat (length (List.filter (selected_by ed)
                                    (edges (knowledge_graph m))))).
Proof.
  intros Hwild Hnd.
  destruct (wildcard_entry_run n ed m Hwild Hnd)
    as (n' & Hrun & Hbound & Hexact).
  exists n', (with_graph (without_selected ed) m).
  split; [exact Hrun|].
  split; [destruct m; reflexivity|]. split; [destruct m; reflexivity|].
  split; [destruct m; reflexivity|]. split; [exact Hbound|exact Hexact].
Qed.

End MoreDeletionProperties.

Lemma wildcard_entry_deletes_the_selected_edges_witness :
  ∃ m',
    GameEngine.process_edge_deletion 0
      {| Delta.ed_source := Some "*"; Delta.ed_target := Some "item_sword";
         Delta.ed_relationship := Some "*"; Delta.ed_reason := None |}
      Examples.hoard_memory
    = (Py.Ok 1, m')
    ∧ KnowledgeGraph.edges (Memory.knowledge_graph m')
      = [("character_hero", "item_amulet", "owns");
         ("character_hero", "character_npc_a", "friend_of")].
Proof.
  destruct (wildcard_entry_deletes_the_selected_edges 0
              {| Delta.ed_source := Some "*"; Delta.ed_target := Some "item_sword";
                 Delta.ed_relationship := Some "*"; Delta.ed_reason := None |}
              Examples.hoard_memory)
    as (n' & m' & Hrun & _ & Hedges & _ & _ & Hcount).
  - reflexivity.
  - repeat constructor; cbn; intros Hin;
      repeat (destruct Hin as [Hin|Hin]; [discriminate Hin|]); exact Hin.
  - exists m'. split; [|rewrite Hedges; reflexivity].
    rewrite Hrun, Hcount; [reflexivity|].
    intros s t r Hin. cbn in Hin.
    destruct Hin as [[= <- <- <-]|[[= <- <- <-]|[[= <- <- <-]|[]]]];
      repeat split; discriminate.
Defined.

Section DeletionCounts.
Import KnowledgeGraph Memory Delta GameEngine.

(** The graph after the loop over [nodes_to_delete]. *)
Definition after_node_deletions (delta : Delta.t) (g : KnowledgeGraph.t)
  : KnowledgeGraph.t :=
fold_left (fun g nd => node_deletion_effect nd g) (nodes_to_delete delta) g.

Lemma process_node_deletion_count (n : Z) (nd : node_deletion) (m : GRAGMemory) :
  ∃ n', process_node_deletion n nd m
        = (Py.Ok n', with_graph (node_deletion_effect nd) m)
        ∧ n <= n' <= n + 1.
Proof.
  unfold process_node_deletion, node_deletion_effect, Py.try_except, Py.bind,
    Py.subscript.
  destruct m as [g h st path].
  destruct (nd_node_id nd) as [node_id|]; cbn;
    [|eexists; split; [reflexivity|lia]].
  destruct (String.eqb (default "default" (nd_deletion_type nd)) "death") eqn:Hd.
  - apply String.eqb_eq in Hd. rewrite Hd. cbn.
    eexists; split; [reflexivity|lia].
  - destruct (String.eqb (default "default" (nd_deletion_type nd)) "lost");
      cbn; [|eexists; split; [reflexivity|lia]].
    unfold Memory.delete_node, KnowledgeGraph.delete_node, with_graph. cbn.
    destruct (has_node g node_id); cbn; eexists; (split; [reflexivity|lia]).
Qed.

Lemma node_deletions_count (l : list node_deletion) (n : Z) (m : GRAGMemory) :
  ∃ n', Py.for_fold l process_node_deletion n m
        = (Py.Ok n',
           with_graph (fun g => fold_left (fun g nd => node_deletion_effect nd g) l g) m)
        ∧ n <= n' <= n + Z.of_nat (length l).
Proof.
  revert n m. induction l as [|nd l IH]; intros n m.
  - exists n. split; [destruct m; reflexivity|cbn; lia].
  - cbn [Py.for_fold fold_left]. unfold Py.bind.
    destruct (process_node_deletion_count n nd m) as (n1 & -> & Hn1).
    destruct (IH n1 (with_graph (node_deletion_effect nd) m)) as (n2 & -> & Hn2).
    exists n2. split; [destruct m; reflexivity|cbn [length]; lia].
Qed.

Lemma effect_nodes (nd : node_deletion) (g : KnowledgeGraph.t) (node_id : string) :
  is_Some (nodes (node_deletion_effect nd g) !! node_id) →
  is_Some (nodes g !! node_id).
Proof.
  unfold node_deletion_effect.
  destruct (nd_node_id nd) as [x|]; [|auto].
  destruct (String.eqb _ _).
  - rewrite delete_node_lookup. case_decide; [intros [? [=]]|auto].
  - rewrite mark_lookup. case_decide; [|auto]. apply fmap_is_Some.
Qed.

Lemma effect_nodup (nd : node_deletion) (g : KnowledgeGraph.t) :
  List.NoDup (edges g) → List.NoDup (edges (node_deletion_effect nd g)).
Proof.
  intros Hnd. unfold node_deletion_effect.
  destruct (nd_node_id nd) as [x|]; [|exact Hnd].
  destruct (String.eqb _ _); [|exact Hnd].
  unfold KnowledgeGraph.delete_node. destruct (has_node g x); [|exact Hnd].
  cbn. apply List.NoDup_filter. exact Hnd.
Qed.

(** What the loop over [nodes_to_delete] keeps. *)
Lemma node_loop_keeps (l : list node_deletion) (g : KnowledgeGraph.t) :
  edge_integrity g → List.NoDup (edges g) →
  let g' := fold_left (fun g nd => node_deletion_effect nd g) l g in
  edge_integrity g' ∧ List.NoDup (edges g')
  ∧ (∀ node_id, is_Some (nodes g' !! node_id) → is_Some (nodes g !! node_id))
  ∧ (∀ e, In e (edges g') → In e (edges g)).
Proof.
  revert g. induction l as [|nd l IH]; intros g Hwf Hnd; cbn.
  - auto.
  - destruct (IH (node_deletion_effect nd g)) as (Hwf' & Hnd' & Hnodes & Hedges).
    + apply effect_integrity, Hwf.
    + apply effect_nodup, Hnd.
    + split; [exact Hwf'|]. split; [exact Hnd'|]. split.
      * intros node_id Hin. eapply effect_nodes, Hnodes, Hin.
      * intros e Hin. eapply effect_edges, Hedges, Hin.
Qed.

(** The entry does not leave a wildcard to [memory.delete_edge]: when
    its target is ["*"], its source or its relationship is one too, so
    that it takes the wildcard branch. *)
Definition not_target_only (ed : edge_deletion) : Prop :=
is_wildcard (ed_target ed) = true →
is_wildcard (ed_source ed) || is_wildcard (ed_relationship ed) = true.

(** One entry of [edges_to_delete]: the count grows by at most the
    number of edges that leave the graph, and by that number when no
    wildcard is left to [memory.delete_edge]. *)
Lemma process_edge_deletion_count (n : Z) (ed : edge_deletion) (m : GRAGMemory) :
  List.NoDup (edges (knowledge_graph m)) →
  ∃ n' m',
    process_edge_deletion n ed m = (Py.Ok n', m')
    ∧ only_removes_edges (knowledge_graph m) (knowledge_graph m')
    ∧ List.NoDup (edges (knowledge_graph m'))
    ∧ 0 <= n' - n
         <= Z.of_nat (length (edges (knowledge_graph m)))
            - Z.of_nat (length (edges (knowledge_graph m')))
    ∧ (plainly_named (edges (knowledge_graph m)) → not_target_only ed →
       n' - n
       = Z.of_nat (length (edges (knowledge_graph m)))
         - Z.of_nat (length (edges (knowledge_graph m')))).
Proof.
  intros Hnd.
  destruct (is_wildcard (ed_source ed) || is_wildcard (ed_relationship ed)) eqn:Hw.
  - destruct (wildcard_entry_run n ed m Hw Hnd)
      as (n' & Hrun & Hbound & Hexact).
    exists n', (with_graph (without_selected ed) m). split; [exact Hrun|].
    destruct m as [[ns es] h st path]. unfold with_graph, without_selected.
    cbn [knowledge_graph nodes edges] in *.
    pose proof (filter_length (selected_by ed) es) as Hlen.
    split; [|split; [|split]].
    + split; [reflexivity|]. cbn. intros e He. apply filter_In in He. tauto.
    + apply List.NoDup_filter. exact Hnd.
    + lia.
    + intros Hplain _. specialize (Hexact Hplain). lia.
  - unfold process_edge_deletion, Py.try_except. rewrite Hw.
    unfold delete_edge_get, Py.bind.
    destruct (ed_source ed) as [s|] eqn:Hsrc, (ed_target ed) as [t|] eqn:Htgt,
      (ed_relationship ed) as [r|] eqn:Hrel;
      try (cbn; exists n, m; split; [reflexivity|];
           split; [apply only_removes_edges_refl|]; split; [exact Hnd|];
           split; intros; lia).
    rewrite memory_delete_edge_exact. cbn [Py.ret].
    eexists _, _. split; [reflexivity|].
    destruct m as [[ns es] h st path]. unfold with_graph, without_matching.
    cbn [knowledge_graph nodes edges existsb matched_by] in *.
    rewrite (filter_ext _ (fun e => negb (edge_matches s t r e)))
      by (intros e; rewrite orb_false_r; reflexivity).
    split; [|split; [|split]].
    + split; [reflexivity|]. cbn. intros e He. apply filter_In in He. tauto.
    + apply List.NoDup_filter. exact Hnd.
    + destruct (existsb (edge_matches s t r) es) eqn:Hex.
      * pose proof (filter_some _ es Hex). lia.
      * rewrite (filter_none _ es Hex). lia.
    + intros Hplain Hnot.
      destruct (existsb (edge_matches s t r) es) eqn:Hex;
        [|rewrite (filter_none _ es Hex); lia].
      apply orb_false_iff in Hw. destruct Hw as [Hs Hr].
      cbn [is_wildcard] in Hs, Hr. apply String.eqb_neq in Hs, Hr.
      assert (Ht : t ≠ "*").
      { intros ->. unfold not_target_only in Hnot.
        rewrite Hsrc, Htgt, Hrel in Hnot. cbn [is_wildcard] in Hnot.
        specialize (Hnot eq_refl). apply orb_true_iff in Hnot.
        destruct Hnot as [Hnot|Hnot]; apply String.eqb_eq in Hnot; contradiction. }
      apply existsb_exists in Hex. destruct Hex as (e & He & Hm).
      apply (plain_match s t r e Hs Ht Hr) in Hm. subst e.
      pose proof (length_without_one (edge_matches s t r) (s, t, r) es
                    (fun e => plain_match s t r e Hs Ht Hr) Hnd He).
      lia.
Qed.

Lemma edge_deletions_count (l : list edge_deletion) (n : Z) (m : GRAGMemory) :
  List.NoDup (edges (knowledge_graph m)) →
  ∃ n' m',
    Py.for_fold l process_edge_deletion n m = (Py.Ok n', m')
    ∧ only_removes_edges (knowledge_graph m) (knowledge_graph m')
    ∧ List.NoDup (edges (knowledge_graph m'))
    ∧ 0 <= n' - n
         <= Z.of_nat (length (edges (knowledge_graph m)))
            - Z.of_nat (length (edges (knowledge_graph m')))
    ∧ (plainly_named (edges (knowledge_graph m)) →
       (∀ ed, In ed l → not_target_only ed) →
       n' - n
       = Z.of_nat (length (edges (knowledge_graph m)))
         - Z.of_nat (length (edges (knowledge_graph m')))).
Proof.
  revert n m. induction l as [|ed l IH]; intros n m Hnd.
  - exists n, m. split; [reflexivity|].
    split; [apply only_removes_edges_refl|]. split; [exact Hnd|].
    split; intros; lia.
  - cbn [Py.for_fold]. unfold Py.bind.
    destruct (process_edge_deletion_count n ed m Hnd)
      as (n1 & m1 & -> & Hrm1 & Hnd1 & Hb1 & Hc1).
    destruct (IH n1 m1 Hnd1) as (n2 & m2 & -> & Hrm2 & Hnd2 & Hb2 & Hc2).
    exists n2, m2. split; [reflexivity|].
    split; [eapply only_removes_edges_trans; eassumption|].
    split; [exact Hnd2|]. split; [lia|].
    intros Hplain Hentries.
    specialize (Hc1 Hplain (Hentries ed (or_introl eq_refl))).
    assert (Hplain1 : plainly_named (edges (knowledge_graph m1)))
      by (eapply plainly_named_sub; [apply Hrm1|exact Hplain]).
    specialize (Hc2 Hplain1 (fun ed' Hin => Hentries ed' (or_intror Hin))).
    lia.
Qed.

(** X8.  The deletions of a delta only remove.  On a graph with edge
    integrity and without repeated edges, [_process_deletion_events]
    returns; afterwards the graph still has edge integrity, every node
    and every edge it has was there before, [nodes_deleted] is at most
    the number of entries of [nodes_to_delete], and [edges_deleted] is
    at most the number of edges that the entries of [edges_to_delete]
    have removed (the edges that went with a node deleted hard are not
    counted).  A call of [memory.delete_edge] that removes several edges
    through a wildcard is counted once; [edges_deleted] is exactly the
    number of the removed edges when no edge of the graph has a
    component that is the text ["*"] and no entry has a wildcard in its
    target alone. *)
Theorem deletions_only_remove_and_count (delta : Delta.t) (m : GRAGMemory) :
  edge_integrity (knowledge_graph m) →
  List.NoDup (edges (knowledge_graph m)) →
  ∃ nodes_deleted edges_deleted m',
    _process_deletion_events delta m
    = (Py.Ok (nodes_deleted, edges_deleted), m')
    ∧ edge_integrity (knowledge_graph m')
    ∧ (∀ node_id, is_Some (nodes (knowledge_graph m') !! node_id) →
                  is_Some (nodes (knowledge_graph m) !! node_id))
    ∧ (∀ e, In e (edges (knowledge_graph m')) → In e (edges (knowledge_graph m)))
    ∧ 0 <= nodes_deleted <= Z.of_nat (length (nodes_to_delete delta))
    ∧ 0 <= edges_deleted
         <= Z.of_nat (length (edges (after_node_deletions delta (knowledge_graph m))))
            - Z.of_nat (length (edges (knowledge_graph m')))
    ∧ (plainly_named (edges (knowledge_graph m)) →
       (∀ ed, In ed (edges_to_delete delta) → not_target_only ed) →
       edges_deleted
       = Z.of_nat (length (edges (after_node_deletions delta (knowledge_graph m))))
         - Z.of_nat (length (edges (knowledge_graph m')))).
Proof.
  intros Hwf Hnd. unfold _process_deletion_events, Py.bind.
  destruct (node_deletions_count (nodes_to_delete delta) 0 m) as (n1 & -> & Hn1).
  destruct (node_loop_keeps (nodes_to_delete delta) (knowledge_graph m) Hwf Hnd)
    as (Hwf1 & Hnd1 & Hnodes1 & Hedges1).
  fold (after_node_deletions delta (knowledge_graph m)) in Hwf1, Hnd1, Hnodes1, Hedges1.
  assert (Hg : knowledge_graph
                 (with_graph
                    (fun g => fold_left (fun g nd => node_deletion_effect nd g)
                                        (nodes_to_delete delta) g) m)
               = after_node_deletions delta (knowledge_graph m))
    by (destruct m; reflexivity).
  match goal with
  | |- context [Py.for_fold (edges_to_delete delta) _ 0 ?m1] =>
      destruct (edge_deletions_count (edges_to_delete delta) 0 m1)
        as (n2 & m2 & -> & [Hsame Hsub] & Hnd2 & Hbound & Hcount)
  end.
  { rewrite Hg. exact Hnd1. }
  rewrite Hg in Hsame, Hsub, Hbound, Hcount.
  exists n1, n2, m2. split; [reflexivity|].
  split; [|split; [|split; [|split; [|split]]]].
  - intros s t r He. rewrite Hsame. apply (Hwf1 s t r), Hsub, He.
  - intros node_id Hin. rewrite Hsame in Hin. apply Hnodes1, Hin.
  - intros e He. apply Hedges1, Hsub, He.
  - lia.
  - lia.
  - intros Hplain Hentries.
    assert (Hplain1 : plainly_named
                        (edges (after_node_deletions delta (knowledge_graph m))))
      by (eapply plainly_named_sub; [exact Hedges1|exact Hplain]).
    specialize (Hcount Hplain1 Hentries). lia.
Qed.

End DeletionCounts.

Lemma deletions_only_remove_and_count_witness :
  ∃ m',
    GameEngine._process_deletion_events
      {| Delta.nodes_to_update := []; Delta.edges_to_add := [];
         Delta.nodes_to_delete :=
           [{| Delta.nd_node_id := Some "item_sword";
               Delta.nd_deletion_type := Some "lost";
               Delta.nd_reason := None |}];
         Delta.edges_to_delete :=
           [{| Delta.ed_source := Some "character_hero";
               Delta.ed_target := Some "item_amulet";
               Delta.ed_relationship := Some "owns";
               Delta.ed_reason := None |}] |}
      Examples.hoard_memory
    = (Py.Ok (1, 1), m')
    ∧ edge_integrity (Memory.knowledge_graph m').
Proof.
  destruct (deletions_only_remove_and_count
              {| Delta.nodes_to_update := []; Delta.edges_to_add := [];
                 Delta.nodes_to_delete :=
                   [{| Delta.nd_node_id := Some "item_sword";
                       Delta.nd_deletion_type := Some "lost";
                       Delta.nd_reason := None |}];
                 Delta.edges_to_delete :=
                   [{| Delta.ed_source := Some "character_hero";
                       Delta.ed_target := Some "item_amulet";
                       Delta.ed_relationship := Some "owns";
                       Delta.ed_reason := None |}] |}
              Examples.hoard_memory)
    as (nd & ed & m' & Hrun & Hwf & _).
  - intros s t r Hin. cbn in Hin.
    destruct Hin as [[= <- <- <-]|[[= <- <- <-]|[[= <- <- <-]|[]]]];
      split; eexists; vm_compute; reflexivity.
  - repeat constructor; cbn; intros Hin;
      repeat (destruct Hin as [Hin|Hin]; [discriminate Hin|]); exact Hin.
  - exists m'. split; [|exact Hwf].
    rewrite Hrun. f_equal. f_equal.
    assert (Hfst : fst (GameEngine._process_deletion_events
              {| Delta.nodes_to_update := []; Delta.edges_to_add := [];
                 Delta.nodes_to_delete :=
                   [{| Delta.nd_node_id := Some "item_sword";
                       Delta.nd_deletion_type := Some "lost";
                       Delta.nd_reason := None |}];
                 Delta.edges_to_delete :=
                   [{| Delta.ed_source := Some "character_hero";
                       Delta.ed_target := Some "item_amulet";
                       Delta.ed_relationship := Some "owns";
                       Delta.ed_reason := None |}] |}
              Examples.hoard_memory) = Py.Ok (1, 1)) by (vm_compute; reflexivity).
    rewrite Hrun in Hfst. cbn in Hfst. congruence.
Defined.

(* ===================================================================== *)
(** ** Applying the updates of a delta *)
(* ===================================================================== *)

Section ApplyProperties.
Import KnowledgeGraph Memory Delta GameEngine.
Context `{Collaborators}.

(** The entry has the key ["attributes"]. *)
Definition carries_attributes (nu : node_update) : bool :=
bool_decide (is_Some (nu_attributes nu)).

(** An entry that has its ["node_id"] never stops the loop: it is
    written, or, when it has no ["attributes"], counted out and left
    out. *)
Lemma apply_node_update_run (n : Z) (nu : node_update) (m : GRAGMemory) :
  is_Some (nu_node_id nu) →
  ∃ m',
    apply_node_update n nu m
    = (Py.Ok (if carries_attributes nu then n else n - 1), m')
    ∧ (carries_attributes nu = false → m' = m).
Proof.
  intros [node_id Hid].
  assert (Hc : carries_attributes nu
               = match nu_attributes nu with Some _ => true | None => false end).
  { unfold carries_attributes. destruct (nu_attributes nu).
    - apply bool_decide_eq_true_2. eexists. reflexivity.
    - apply bool_decide_eq_false_2. intros [? [=]]. }
  rewrite Hc.
  unfold apply_node_update, Py.try_except, Py.bind, Py.subscript, Py.get.
  rewrite Hid. cbn [Py.ret].
  destruct (nu_attributes nu) as [attrs|].
  - destruct (negb (has_node (knowledge_graph m) node_id)); cbn;
      eexists; (split; [reflexivity|discriminate]).
  - destruct (negb (has_node (knowledge_graph m) node_id)); cbn;
      exists m; (split; [reflexivity|reflexivity]).
Qed.

Lemma node_updates_run (l : list node_update) (n : Z) (m : GRAGMemory) :
  (∀ nu, In nu l → is_Some (nu_node_id nu)) →
  ∃ m',
    Py.for_fold l apply_node_update n m
    = (Py.Ok (n - Z.of_nat (length l)
              + Z.of_nat (length (List.filter carries_attributes l))), m').
Proof.
  revert n m. induction l as [|nu l IH]; intros n m Hids.
  - exists m. cbn. unfold Py.ret. do 2 f_equal. lia.
  - cbn [Py.for_fold]. unfold Py.bind.
    destruct (apply_node_update_run n nu m) as (m1 & -> & _).
    { apply Hids. left. reflexivity. }
    destruct (IH (if carries_attributes nu then n else n - 1) m1) as (m2 & ->).
    { intros nu' Hin. apply Hids. right. exact Hin. }
    exists m2. do 2 f_equal. cbn [List.filter length].
    destruct (carries_attributes nu); cbn [length]; lia.
Qed.

(** An entry without ["node_id"] stops everything: the handler of its
    [try] formats [node_update['node_id']] for the warning. *)
Lemma node_update_without_id (n : Z) (nu : node_update) (m : GRAGMemory) :
  nu_node_id nu = None →
  apply_node_update n nu m = (Py.Raise (Py.KeyError "node_id"), m).
Proof.
  intros Hid. unfold apply_node_update, Py.try_except, Py.bind, Py.subscript.
  rewrite Hid. reflexivity.
Qed.

Lemma node_updates_stop (good rest : list node_update) (nu : node_update)
      (n : Z) (m : GRAGMemory) :
  (∀ g, In g good → is_Some (nu_node_id g)) →
  nu_node_id nu = None →
  Py.for_fold (good ++ nu :: rest) apply_node_update n m
  = (Py.Raise (Py.KeyError "node_id"),
     snd (Py.for_fold good apply_node_update n m)).
Proof.
  revert n m. induction good as [|g good IH]; intros n m Hids Hid.
  - cbn [app Py.for_fold]. unfold Py.bind.
    rewrite (node_update_without_id n nu m Hid). reflexivity.
  - cbn [app Py.for_fold]. unfold Py.bind.
    destruct (apply_node_update_run n g m) as (m1 & -> & _).
    { apply Hids. left. reflexivity. }
    apply IH; [|exact Hid]. intros g' Hin. apply Hids. right. exact Hin.
Qed.

(** An entry of [edges_to_add] that has its ["source"] and ["target"]
    never stops the loop: the edge is added, or the entry is counted
    out. *)
Lemma apply_edge_add_run (n : Z) (ea : edge_add) (m : GRAGMemory) :
  is_Some (ea_source ea) → is_Some (ea_target ea) →
  ∃ n' m', apply_edge_add n ea m = (Py.Ok n', m') ∧ n - 1 <= n' <= n.
Proof.
  intros [s Hs] [t Ht].
  unfold apply_edge_add, Py.try_except, Py.bind, Py.subscript.
  rewrite Hs, Ht. cbn [Py.ret].
  destruct (ea_relationship ea) as [r|]; cbn;
    [|eexists _, _; split; [reflexivity|lia]].
  unfold Memory.add_edge.
  destruct (KnowledgeGraph.add_edge s t r (knowledge_graph m)); cbn;
    eexists _, _; (split; [reflexivity|lia]).
Qed.

Lemma edge_adds_run (l : list edge_add) (n : Z) (m : GRAGMemory) :
  (∀ ea, In ea l → is_Some (ea_source ea) ∧ is_Some (ea_target ea)) →
  ∃ n' m',
    Py.for_fold l apply_edge_add n m = (Py.Ok n', m')
    ∧ n - Z.of_nat (length l) <= n' <= n.
Proof.
  revert n m. induction l as [|ea l IH]; intros n m Hkeys.
  - exists n, m. split; [reflexivity|cbn; lia].
  - cbn [Py.for_fold]. unfold Py.bind.
    destruct (apply_edge_add_run n ea m) as (n1 & m1 & -> & Hn1);
      try (apply Hkeys; left; reflexivity).
    destruct (IH n1 m1) as (n2 & m2 & -> & Hn2).
    { intros ea' Hin. apply Hkeys. right. exact Hin. }
    exists n2, m2. split; [reflexivity|cbn [length]; lia].
Qed.

Lemma deletion_events_return (delta : Delta.t) (m : GRAGMemory) :
  ∃ counts m', _process_deletion_events delta m = (Py.Ok counts, m').
Proof.
  unfold _process_deletion_events, Py.bind.
  destruct (node_deletions_run (nodes_to_delete delta) 0 m) as [n1 ->].
  match goal with
  | |- context [Py.for_fold (edges_to_delete delta) _ 0 ?m1] =>
      destruct (edge_deletions_run (edges_to_delete delta) 0 m1)
        as (n2 & m2 & -> & _)
  end.
  eexists _, _. reflexivity.
Qed.

(** With a disk that works, persisting returns and changes nothing. *)
Lemma persist_returns (m : GRAGMemory) :
  (∀ g path, save_graph g path = Py.Ok tt) →
  (∀ m0, sync_entities_to_json m0 = Py.Ok tt) →
  persist m = (Py.Ok tt, m).
Proof.
  intros Hsave Hsync. unfold persist, Py.bind, Py.get, Py.lift, Py.ret.
  destruct (graph_save_path m) as [path|];
    [destruct (String.eqb path ""); [|rewrite Hsave]|];
    rewrite Hsync; reflexivity.
Qed.

(** X9.  When every entry of [nodes_to_update] has its ["node_id"],
    every entry of [edges_to_add] its ["source"] and ["target"], and the
    disk works, [_apply_validated_updates] returns: [nodes_updated] is the
    number of the entries that have ["attributes"], [edges_added] is
    between zero and the number of the entries of [edges_to_add], and
    the two deletion counts are the ones of
    [_process_deletion_events]. *)
Theorem applied_updates_are_counted (delta : Delta.t) (source : string)
    (m : GRAGMemory) :
  (∀ nu, In nu (nodes_to_update delta) → is_Some (nu_node_id nu)) →
  (∀ ea, In ea (edges_to_add delta) →
         is_Some (ea_source ea) ∧ is_Some (ea_target ea)) →
  (∀ g path, save_graph g path = Py.Ok tt) →
  (∀ m0, sync_entities_to_json m0 = Py.Ok tt) →
  ∃ c m',
    _apply_validated_updates (Some delta) source m = (Py.Ok c, m')
    ∧ nodes_updated c
      = Z.of_nat (length (List.filter carries_attributes (nodes_to_update delta)))
    ∧ 0 <= edges_added c <= Z.of_nat (length (edges_to_add delta))
    ∧ Py.Ok (nodes_deleted c, edges_deleted c)
      = fst (_process_deletion_events delta m).
Proof.
  intros Hids Hkeys Hsave Hsync.
  unfold _apply_validated_updates. unfold Py.bind at 1.
  destruct (deletion_events_return delta m) as ([nd ed] & m1 & ->).
  unfold Py.bind at 1.
  destruct (node_updates_run (nodes_to_update delta)
              (Z.of_nat (length (nodes_to_update delta))) m1 Hids) as (m2 & ->).
  unfold Py.bind at 1.
  destruct (edge_adds_run (edges_to_add delta)
              (Z.of_nat (length (edges_to_add delta))) m2 Hkeys)
    as (n3 & m3 & -> & Hn3).
  unfold Py.bind at 1. rewrite (persist_returns m3 Hsave Hsync).
  eexists _, _. split; [reflexivity|]. cbn. repeat split; lia.
Qed.

(** X10.  A delta is not applied as a whole.  When an entry of
    [nodes_to_update] has no ["node_id"], [_apply_validated_updates]
    raises [KeyError], after the deletions of the delta and the entries
    before that one have been applied; the rule-based extractor then
    reports zero updates and zero deletions, and leaves the memory as the
    failed application left it. *)
Theorem malformed_update_is_not_rolled_back (llm_response : string)
    (updates delta : Delta.t) (good rest : list node_update) (nu : node_update)
    (m : GRAGMemory) :
  extract_rpg_entities_and_relations llm_response = Py.Ok updates →
  validate updates (knowledge_graph m) = Py.Ok (Some delta) →
  nodes_to_update delta = (good ++ nu :: rest)%list →
  (∀ g, In g good → is_Some (nu_node_id g)) →
  nu_node_id nu = None →
  let after_deletions := snd (_process_deletion_events delta m) in
  let left_behind :=
    snd (Py.for_fold good apply_node_update
           (Z.of_nat (length (nodes_to_update delta))) after_deletions) in
  _apply_validated_updates (Some delta) "local_processor" m
  = (Py.Raise (Py.KeyError "node_id"), left_behind)
  ∧ _extract_with_local_processor llm_response m
    = (Py.Ok zero_counters, left_behind).
Proof.
  intros Hextract Hvalidate Hlist Hids Hid after_deletions left_behind.
  assert (Happly : _apply_validated_updates (Some delta) "local_processor" m
                   = (Py.Raise (Py.KeyError "node_id"), left_behind)).
  { unfold _apply_validated_updates. unfold Py.bind at 1.
    subst left_behind after_deletions.
    destruct (deletion_events_return delta m) as ([nd ed] & m1 & ->).
    unfold Py.bind at 1. cbn [snd]. rewrite Hlist.
    rewrite (node_updates_stop good rest nu _ m1 Hids Hid). reflexivity. }
  split; [exact Happly|].
  unfold _extract_with_local_processor, Py.try_except, Py.bind, Py.lift, Py.get.
  rewrite Hextract, Hvalidate, Happly. reflexivity.
Qed.

End ApplyProperties.

Lemma applied_updates_are_counted_witness :
  ∃ c m',
    GameEngine._apply_validated_updates (H := Examples.timing_out_agent)
      (Some Examples.found_by_rules) "local_processor" Examples.amulet_memory
    = (Py.Ok c, m')
    ∧ Delta.nodes_updated c = 1.
Proof.
  destruct (@applied_updates_are_counted Examples.timing_out_agent
              Examples.found_by_rules "local_processor" Examples.amulet_memory)
    as (c & m' & Hrun & Hcount & _).
  - intros nu [<-|[]]. eexists. reflexivity.
  - intros ea [].
  - reflexivity.
  - reflexivity.
  - exists c, m'. split; [exact Hrun|exact Hcount].
Defined.

Lemma malformed_update_is_not_rolled_back_witness :
  ∃ left_behind,
    GameEngine._extract_with_local_processor (H := EndpointExamples.careless_rules)
      "The friend died at the Old Mill." Examples.amulet_memory
    = (Py.Ok Delta.zero_counters, left_behind)
    ∧ KnowledgeGraph.has_node (Memory.knowledge_graph left_behind) "location_old_mill"
      = true.
Proof.
  pose proof
    (@malformed_update_is_not_rolled_back EndpointExamples.careless_rules
             "The friend died at the Old Mill." EndpointExamples.careless_delta
             EndpointExamples.careless_delta
             [{| Delta.nu_node_id := Some "location_old_mill";
                 Delta.nu_type := Some "location";
                 Delta.nu_attributes :=
                   Some {[ "name" := KnowledgeGraph.AStr "Old Mill" ]} |}]
             []
             {| Delta.nu_node_id := None;
                Delta.nu_type := Some "item";
                Delta.nu_attributes := None |}
             Examples.amulet_memory eq_refl eq_refl eq_refl) as Hrun.
  cbv zeta in Hrun.
  eexists. split.
  - apply Hrun; [|reflexivity].
    intros g [<-|[]]. eexists. reflexivity.
  - vm_compute. reflexivity.
Defined.

(* ===================================================================== *)
(** ** The bootstrap without a usable analysis *)
(* ===================================================================== *)

Section FallbackBootstrapProperties.
Import KnowledgeGraph Memory GameEngine Bootstrap.
Context `{Collaborators} `{LLMClient.Provider} `{Analysis}.

Lemma persist_keeps_memory (m : GRAGMemory) : snd (persist m) = m.
Proof.
  unfold persist, Py.bind, Py.get, Py.lift, Py.ret.
  destruct (graph_save_path m) as [path|].
  - destruct (String.eqb path "").
    + destruct (sync_entities_to_json m); reflexivity.
    + destruct (save_graph (knowledge_graph m) path) as [[]|e];
        [destruct (sync_entities_to_json m)|]; reflexivity.
  - destruct (sync_entities_to_json m); reflexivity.
Qed.

(** X11.  [_fallback_simple_initialization] never raises and always
    writes the node of the character, under the id made from its name
    and with its name as an attribute.  Its answer says
    ["simple_fallback"] with one node when the graph could be saved, and
    ["failed"] with no node when saving raised: also then the node is in
    the graph. *)
Theorem simple_fallback_always_writes_the_character
    (char_name char_description : string) (m : GRAGMemory) :
  ∃ r m' attrs,
    _fallback_simple_initialization char_name char_description m = (Py.Ok r, m')
    ∧ nodes (knowledge_graph m') !! _generate_entity_id char_name "character"
      = Some attrs
    ∧ attrs !! "name" = Some (AStr char_name)
    ∧ attrs !! "type" = Some (AStr "character")
    ∧ edges (knowledge_graph m') = edges (knowledge_graph m)
    ∧ r = (if Py.is_ok (fst (persist m'))
           then (1, 0, "simple_fallback") else (0, 0, "failed")).
Proof.
  unfold _fallback_simple_initialization, Py.try_except.
  unfold Py.bind at 1. unfold Memory.add_or_update_node at 1, Py.modify at 1.
  match goal with
  | |- context [with_graph (KnowledgeGraph.add_or_update_node ?i ?t ?a) m] =>
      set (written := with_graph (KnowledgeGraph.add_or_update_node i t a) m);
      set (attributes := a)
  end.
  unfold Py.bind.
  pose proof (persist_keeps_memory written) as Hkeep.
  assert (Hnode : nodes (knowledge_graph written)
                    !! _generate_entity_id char_name "character"
                  = Some (attributes
                            ∪ <["type" := AStr "character"]>
                                (default ∅ (nodes (knowledge_graph m)
                                              !! _generate_entity_id char_name
                                                   "character")))).
  { subst written. destruct m as [g h st path]. cbn. apply lookup_insert_eq. }
  assert (Hedges : edges (knowledge_graph written) = edges (knowledge_graph m)).
  { subst written. destruct m as [g h st path]. reflexivity. }
  assert (Hname : (attributes
                     ∪ <["type" := AStr "character"]>
                         (default ∅ (nodes (knowledge_graph m)
                                       !! _generate_entity_id char_name
                                            "character"))) !! "name"
                  = Some (AStr char_name)).
  { apply lookup_union_Some_l. subst attributes. apply lookup_insert_eq. }
  assert (Htype : (attributes
                     ∪ <["type" := AStr "character"]>
                         (default ∅ (nodes (knowledge_graph m)
                                       !! _generate_entity_id char_name
                                            "character"))) !! "type"
                  = Some (AStr "character")).
  { rewrite lookup_union_r by (subst attributes; vm_compute; reflexivity).
    apply lookup_insert_eq. }
  destruct (persist written) as [[[]|e] m1] eqn:Hpersist;
    cbn [snd] in Hkeep; subst m1;
    (eexists _, written, _; split; [reflexivity|];
     split; [exact Hnode|]; split; [exact Hname|]; split; [exact Htype|];
     split; [exact Hedges|]; rewrite Hpersist; reflexivity).
Qed.

(** The analysis call made by the bootstrap, when the provider fails:
    [chat] has caught the failure and answers with its apology. *)
Lemma failed_call_gives_the_apology (prompt : string) (max_tokens : option Z)
      (temperature : option Q) (system_message : option string) :
  (∀ request, ∃ e, LLMClient.create request = Py.Raise e) →
  Py.eval_in
    (LLMClient.generate_response LLMClient.__init__ prompt max_tokens temperature
       system_message) []
  = Py.Ok apology.
Proof.
  intros Hfail.
  unfold Py.eval_in, LLMClient.generate_response, LLMClient.chat,
    Py.try_except, Py.bind, Py.modify, Py.lift.
  match goal with
  | |- context [LLMClient.create ?r] => destruct (Hfail r) as [e ->]
  end.
  reflexivity.
Qed.

(** The text that comes back from the analysis call of the bootstrap
    for a card: what [generate_response] returns for the prompt built
    from the fields of the card. *)
Definition analysis_reply (card : character_card) (world_info : string)
  : Py.outcome string :=
Py.eval_in
  (LLMClient.generate_response LLMClient.__init__
     (_build_character_analysis_prompt
        (default "Unknown Character" (card !! "name"))
        (default "" (card !! "description"))
        (default "" (card !! "personality"))
        (default "" (card !! "scenario"))
        (default "" (card !! "first_mes"))
        (default "" (card !! "mes_example"))
        world_info)
     (Some 16000) (Some (1 # 10)) (Some analysis_system_message))
  [].

(** X12.  The bootstrap from a character card builds the graph with the
    simple fallback, from the name and the description of the card, in
    each of these cases: the engine has no update agent; no API key is
    configured; the call to the provider fails, so that the text that
    comes back is the apology of the client, which is not JSON; the text
    that comes back for the card is not parsed by [json.loads]. *)
Theorem bootstrap_falls_back_to_the_card (grag_agent : bool)
    (card : character_card) (world_info : string) (m : GRAGMemory) :
  grag_agent = false
  ∨ LLMClient.api_key LLMClient.config = ""
  ∨ ((∀ request, ∃ e, LLMClient.create request = Py.Raise e)
     ∧ ∃ e, json_loads apology = Py.Raise e)
  ∨ (∃ text e, analysis_reply card world_info = Py.Ok text
               ∧ json_loads text = Py.Raise e) →
  initialize_from_tavern_data grag_agent card world_info m
  = fallback_result (default "Unknown Character" (card !! "name"))
                    (default "" (card !! "description")) m.
Proof.
  intros Hcase. unfold initialize_from_tavern_data.
  set (name := default "Unknown Character" (card !! "name")).
  set (description := default "" (card !! "description")).
  destruct (fallback_result_returns name description m) as (r & m' & Hfb).
  unfold Py.try_except at 1.
  destruct (negb (_is_llm_available grag_agent)) eqn:Havail.
  { rewrite Hfb. reflexivity. }
  assert (Hnone : _perform_llm_analysis name description
                    (default "" (card !! "personality"))
                    (default "" (card !! "scenario"))
                    (default "" (card !! "first_mes"))
                    (default "" (card !! "mes_example")) world_info m
                  = (Py.Ok None, m)).
  { apply negb_false_iff in Havail. unfold _is_llm_available in Havail.
    apply andb_true_iff in Havail. destruct Havail as [Hagent Hkey].
    apply negb_true_iff, String.eqb_neq in Hkey.
    destruct Hcase as [->|[Hnokey|[[Hfail [e Hjson]]|(text & e & Hreply & Hjson)]]];
      [discriminate Hagent|contradiction| |].
    - unfold _perform_llm_analysis, Py.try_except. unfold Py.bind at 1.
      rewrite (failed_call_gives_the_apology _ _ _ _ Hfail).
      unfold Py.lift at 1. unfold Py.bind at 1, Py.lift at 1.
      rewrite Hjson. reflexivity.
    - unfold _perform_llm_analysis, Py.try_except. unfold Py.bind at 1.
      unfold analysis_reply in Hreply. fold name description in Hreply.
      rewrite Hreply. unfold Py.lift at 1.
      unfold Py.bind at 1, Py.lift at 1. rewrite Hjson. reflexivity. }
  unfold Py.try_except, Py.bind. rewrite Hnone, Hfb. reflexivity.
Qed.

End FallbackBootstrapProperties.

Lemma bootstrap_falls_back_to_the_card_witness :
  Bootstrap.initialize_from_tavern_data
    (H := Examples.timing_out_agent) (H0 := EndpointExamples.chatty_provider)
    (H1 := EndpointExamples.strict_analysis)
    true Examples.seraphina_card "" Examples.empty_memory
  = Bootstrap.fallback_result (H := Examples.timing_out_agent)
      "Seraphina" "" Examples.empty_memory.
Proof.
  apply (@bootstrap_falls_back_to_the_card
           Examples.timing_out_agent EndpointExamples.chatty_provider
           EndpointExamples.strict_analysis true Examples.seraphina_card ""
           Examples.empty_memory).
  right. right. right.
  exists "Sure, here is the analysis.", (Py.JSONDecodeError "Expecting value").
  split; reflexivity.
Defined.

(* ===================================================================== *)
(** ** What the analysed document adds *)
(* ===================================================================== *)

Section AnalysisCounts.
Import KnowledgeGraph Memory GameEngine Bootstrap.

(** The entity has a name that is not empty. *)
Definition is_named (e : entity) : bool :=
bool_decide (is_Some (truthy_str (e_name e))).

Lemma written_node_count (node_id : string) (ty : attr_val) (attrs : attr_dict)
      (m : GRAGMemory) :
  (number_of_nodes
     (knowledge_graph (snd (Memory.add_or_update_node node_id ty attrs m)))
   <= S (number_of_nodes (knowledge_graph m)))%nat.
Proof.
  destruct m as [[ns es] h st path]. cbn. unfold number_of_nodes. cbn.
  rewrite map_size_insert. destruct (ns !! node_id); unfold id; lia.
Qed.

Lemma add_entity_run (n : Z) (e : entity) (m : GRAGMemory) :
  ∃ m',
    add_entity n e m = (Py.Ok (if is_named e then n + 1 else n), m')
    ∧ (Z.of_nat (number_of_nodes (knowledge_graph m'))
       <= Z.of_nat (number_of_nodes (knowledge_graph m))
          + (if is_named e then 1 else 0)).
Proof.
  unfold add_entity, is_named.
  destruct (truthy_str (e_name e)) as [name|].
  - rewrite bool_decide_eq_true_2 by (eexists; reflexivity).
    unfold Py.bind. unfold Memory.add_or_update_node at 1, Py.modify at 1.
    eexists. split; [reflexivity|].
    match goal with
    | |- context [with_graph (KnowledgeGraph.add_or_update_node ?i ?t ?a) m] =>
        pose proof (written_node_count i t a m) as Hle
    end.
    cbn [snd Memory.add_or_update_node Py.modify] in Hle. lia.
  - rewrite bool_decide_eq_false_2 by (intros [? [=]]).
    exists m. split; [reflexivity|lia].
Qed.

Lemma add_entities_run (l : list entity) (n : Z) (m : GRAGMemory) :
  ∃ m',
    Py.for_fold l add_entity n m
    = (Py.Ok (n + Z.of_nat (length (List.filter is_named l))), m')
    ∧ (Z.of_nat (number_of_nodes (knowledge_graph m'))
       <= Z.of_nat (number_of_nodes (knowledge_graph m))
          + Z.of_nat (length (List.filter is_named l))).
Proof.
  revert n m. induction l as [|e l IH]; intros n m.
  - exists m. split; [cbn; unfold Py.ret; do 2 f_equal; lia|cbn; lia].
  - cbn [Py.for_fold]. unfold Py.bind.
    destruct (add_entity_run n e m) as (m1 & -> & H1).
    destruct (IH (if is_named e then n + 1 else n) m1) as (m2 & -> & H2).
    exists m2. cbn [List.filter].
    destruct (is_named e); cbn [length]; (split; [do 2 f_equal; lia|lia]).
Qed.

Lemma add_relationship_run (name_to_id : gmap string string) (n : Z)
      (rel : relationship) (m : GRAGMemory) :
  ∃ n' m',
    add_relationship name_to_id n rel m = (Py.Ok n', m')
    ∧ n <= n' <= n + 1
    ∧ nodes (knowledge_graph m') = nodes (knowledge_graph m).
Proof.
  unfold add_relationship.
  destruct (truthy_str (r_source rel));
    [|eexists _, _; split; [reflexivity|split; [lia|reflexivity]]].
  destruct (truthy_str (r_target rel));
    [|eexists _, _; split; [reflexivity|split; [lia|reflexivity]]].
  destruct (name_to_id !! _) as [source_id|];
    [|eexists _, _; split; [reflexivity|split; [lia|reflexivity]]].
  destruct (name_to_id !! _) as [target_id|];
    [|eexists _, _; split; [reflexivity|split; [lia|reflexivity]]].
  destruct (_ || _);
    [eexists _, _; split; [reflexivity|split; [lia|reflexivity]]|].
  unfold Py.bind, Py.get.
  destruct (node_truthy (knowledge_graph m) source_id) eqn:Hs;
    [|eexists _, _; split; [reflexivity|split; [lia|reflexivity]]].
  destruct (node_truthy (knowledge_graph m) target_id) eqn:Ht;
    [|eexists _, _; split; [reflexivity|split; [lia|reflexivity]]].
  cbn [andb]. unfold Memory.add_edge, KnowledgeGraph.add_edge.
  assert (Hhas : ∀ x, node_truthy (knowledge_graph m) x = true →
                      has_node (knowledge_graph m) x = true).
  { intros x Hx. unfold node_truthy, get_node, has_node in *.
    apply bool_decide_eq_true.
    destruct (nodes (knowledge_graph m) !! x); [eauto|discriminate]. }
  rewrite (Hhas _ Hs), (Hhas _ Ht). cbn [negb].
  destruct (existsb _ _); eexists _, _;
    (split; [reflexivity|split; [lia|destruct m; reflexivity]]).
Qed.

Lemma add_relationships_run (name_to_id : gmap string string)
      (l : list relationship) (n : Z) (m : GRAGMemory) :
  ∃ n' m',
    Py.for_fold l (add_relationship name_to_id) n m = (Py.Ok n', m')
    ∧ n <= n' <= n + Z.of_nat (length l)
    ∧ nodes (knowledge_graph m') = nodes (knowledge_graph m).
Proof.
  revert n m. induction l as [|rel l IH]; intros n m.
  - exists n, m. split; [reflexivity|]. split; [cbn; lia|reflexivity].
  - cbn [Py.for_fold]. unfold Py.bind.
    destruct (add_relationship_run name_to_id n rel m) as (n1 & m1 & -> & Hn1 & Hm1).
    destruct (IH n1 m1) as (n2 & m2 & -> & Hn2 & Hm2).
    exists n2, m2. split; [reflexivity|].
    split; [cbn [length]; lia|congruence].
Qed.

(** One when the document has a main character. *)
Definition main_character_count (parsed : parsed_data) : Z :=
match pd_main_character parsed with
| Some _ => 1
| None => 0
end.

(** X13.  [_apply_llm_analysis_results] returns; [nodes_added] is one
    for the main character, when the document has one, plus the number of
    the entities that have a name, and [edges_added] is at most the
    number of the relationships.  [nodes_added] counts what was written:
    the graph has at most that many nodes more than before, and fewer when
    two names give the same id or a node was there already. *)
Theorem analysis_counts_what_it_writes (parsed : parsed_data) (char_name : string)
    (m : GRAGMemory) :
  ∃ nodes_added edges_added m',
    _apply_llm_analysis_results parsed char_name m
    = (Py.Ok (nodes_added, edges_added), m')
    ∧ nodes_added
      = main_character_count parsed
        + Z.of_nat (length (List.filter is_named (pd_entities parsed)))
    ∧ 0 <= edges_added <= Z.of_nat (length (pd_relationships parsed))
    ∧ Z.of_nat (number_of_nodes (knowledge_graph m'))
      <= Z.of_nat (number_of_nodes (knowledge_graph m)) + nodes_added.
Proof.
  unfold _apply_llm_analysis_results. unfold Py.bind at 1.
  assert (Hmain : ∃ m1,
             add_main_character (pd_main_character parsed) char_name 0 m
             = (Py.Ok (main_character_count parsed), m1)
             ∧ Z.of_nat (number_of_nodes (knowledge_graph m1))
               <= Z.of_nat (number_of_nodes (knowledge_graph m))
                  + main_character_count parsed).
  { unfold add_main_character, main_character_count.
    destruct (pd_main_character parsed) as [mc|].
    - unfold Py.bind. unfold Memory.add_or_update_node at 1, Py.modify at 1.
      eexists. split; [reflexivity|].
      match goal with
      | |- context [with_graph (KnowledgeGraph.add_or_update_node ?i ?t ?a) m] =>
          pose proof (written_node_count i t a m) as Hle
      end.
      cbn [snd Memory.add_or_update_node Py.modify] in Hle. lia.
    - exists m. split; [reflexivity|lia]. }
  destruct Hmain as (m1 & -> & H1).
  unfold Py.bind at 1.
  destruct (add_entities_run (pd_entities parsed)
              (main_character_count parsed) m1) as (m2 & -> & H2).
  unfold Py.bind at 1.
  destruct (add_relationships_run (entity_name_to_id parsed char_name)
              (pd_relationships parsed) 0 m2) as (n3 & m3 & -> & Hn3 & Hm3).
  eexists _, _, m3. split; [reflexivity|]. split; [reflexivity|].
  split; [lia|]. unfold number_of_nodes in *. rewrite Hm3. lia.
Qed.

End AnalysisCounts.

(* ===================================================================== *)
(** ** One request per generated response *)
(* ===================================================================== *)

Section GenerateResponseProperties.
Context `{LLMClient.Provider}.

(** X14.  [generate_response] never raises and makes exactly one call
    to the provider.  The call carries the prompt as its last message,
    from the user, preceded by the system message when one is given and
    is not empty; an argument [max_tokens] or [temperature] that is
    absent or zero is replaced by the setting of the client, so a
    temperature of zero cannot be asked for; the model is the one of the
    client. *)
Theorem generate_response_sends_one_request (self : LLMClient.t) (prompt : string)
    (max_tokens : option Z) (temperature : option Q)
    (system_message : option string) (calls : list LLMClient.request) :
  ∃ text request,
    LLMClient.generate_response self prompt max_tokens temperature system_message
      calls
    = (Py.Ok text, (calls ++ [request])%list)
    ∧ LLMClient.req_messages request
      = (match Bootstrap.truthy_str system_message with
         | Some sm => [{| LLMClient.role := "system"; LLMClient.content := sm |}]
         | None => []
         end ++ [{| LLMClient.role := "user"; LLMClient.content := prompt |}])%list
    ∧ LLMClient.req_max_tokens request
      = (match max_tokens with
         | Some 0 | None => LLMClient.max_tokens self
         | Some n => n
         end)
    ∧ (default 0%Q temperature == 0 →
       LLMClient.req_temperature request = LLMClient.temperature self)
    ∧ (∀ q, temperature = Some q → ¬ q == 0 →
            LLMClient.req_temperature request = q)
    ∧ LLMClient.req_model request = LLMClient.model self
    ∧ LLMClient.req_response_format request = "json_object".
Proof.
  unfold LLMClient.generate_response, LLMClient.chat, Py.try_except, Py.bind,
    Py.modify, Py.lift.
  match goal with
  | |- context [LLMClient.create ?r] => set (request := r)
  end.
  exists (match LLMClient.create request with
          | Py.Ok (Some c :: _) => c
          | Py.Ok (None :: _) => ""
          | _ => apology
          end), request.
  split.
  { destruct (LLMClient.create request) as [[|[c|] rest]|e]; reflexivity. }
  cbn. split.
  { destruct system_message as [sm|]; [|reflexivity]. cbn.
    destruct (String.eqb sm ""); reflexivity. }
  split.
  { destruct max_tokens as [n|]; [|reflexivity].
    destruct (Z.eqb_spec n 0) as [->|Hn]; [reflexivity|].
    destruct n; try reflexivity. contradiction. }
  split.
  { destruct temperature as [q|]; [|reflexivity]. cbn. intros Hq.
    apply Qeq_bool_iff in Hq. rewrite Hq. reflexivity. }
  split; [|split; reflexivity].
  intros q -> Hq.
  destruct (Qeq_bool q 0) eqn:Hb; [|reflexivity].
  apply Qeq_bool_iff in Hb. contradiction.
Qed.

End GenerateResponseProperties.

(* ===================================================================== *)
(** ** The length of an enhanced context *)
(* ===================================================================== *)

Section EnhancePromptProperties.
Import ApiServer Endpoints.
Context `{Retrieval}.

Lemma length_append (s1 s2 : string) :
  String.length (s1 +:+ s2) = (String.length s1 + String.length s2)%nat.
Proof.
  induction s1 as [|c s1 IH]; [reflexivity|].
  simpl. f_equal. exact IH.
Qed.

Lemma length_prefix (n : nat) (s : string) :
  String.length (String.substring 0 n s) = Nat.min n (String.length s).
Proof.
  revert s. induction n as [|n IH]; intros [|c s]; cbn; try reflexivity.
  rewrite IH. reflexivity.
Qed.

(** The number of characters [s[:stop]] keeps. *)
Lemma length_slice_to (stop : Z) (s : string) :
  Z.of_nat (String.length (slice_to stop s))
  = if (0 <=? stop)%Z then Z.min stop (Z.of_nat (String.length s))
    else Z.max 0 (Z.of_nat (String.length s) + stop).
Proof.
  unfold slice_to. destruct (Z.leb_spec 0 stop); rewrite length_prefix; lia.
Qed.

(** The context after the truncation step of [enhance_prompt]. *)
Definition truncated (limit : Z) (context : string) : string :=
if (limit <? Z.of_nat (String.length context))%Z
then slice_to (limit - 100) context +:+ truncation_marker
else context.

(** The value of [recent_turns] for a limit. *)
Definition recent_turns_for (limit : Z) : Z :=
if Z.eqb limit 0 then 3 else Z.min (limit / 200) 5.

Lemma enhance_prompt_run (req : EnhancePromptRequest) (engine : Engine)
      (mem : Memory.GRAGMemory) (entities : list string) (intent context : string)
      (limit : Z) (st : state) :
  sessions st !! ep_session_id req = Some engine →
  memories st !! memory engine = Some mem →
  max_context_length req = Some limit →
  analyze (ep_user_input req) (Memory.knowledge_graph mem)
  = Py.Ok (entities, intent) →
  retrieve_context_for_prompt mem entities (recent_turns_for limit)
  = Py.Ok context →
  ∃ resp,
    enhance_prompt req st = (Py.Ok resp, st)
    ∧ enhanced_context resp = truncated limit context
    ∧ entities_found resp = entities
    ∧ context_length resp = String.length (truncated limit context).
Proof.
  intros Hengine Hmem Hlimit Hanalyze Hretrieve.
  unfold enhance_prompt, Py.try_except, Py.bind at 1, Py.get at 1.
  rewrite Hengine.
  unfold graph_stats_of, read_memory, Py.bind, Py.get, Py.lift, Py.ret.
  rewrite Hmem, Hanalyze, Hlimit. unfold recent_turns_for in Hretrieve.
  rewrite Hretrieve. cbv beta. rewrite Hmem.
  eexists. split; [reflexivity|]. repeat split.
Qed.

(** X16.  With a limit of at least 100 characters the context that
    [enhance_prompt] returns is never longer than the limit: a context
    within the limit comes back as it is, a longer one is cut to the
    first [limit - 100] characters followed by the marker, which makes
    [limit - 74] characters. *)
Theorem enhanced_context_respects_the_limit (req : EnhancePromptRequest)
    (engine : Engine) (mem : Memory.GRAGMemory) (entities : list string)
    (intent context : string) (limit : Z) (st : state) :
  sessions st !! ep_session_id req = Some engine →
  memories st !! memory engine = Some mem →
  max_context_length req = Some limit →
  analyze (ep_user_input req) (Memory.knowledge_graph mem)
  = Py.Ok (entities, intent) →
  retrieve_context_for_prompt mem entities (recent_turns_for limit)
  = Py.Ok context →
  100 <= limit →
  ∃ resp,
    enhance_prompt req st = (Py.Ok resp, st)
    ∧ Z.of_nat (String.length (enhanced_context resp)) <= limit
    ∧ (Z.of_nat (String.length context) <= limit →
       enhanced_context resp = context)
    ∧ (limit < Z.of_nat (String.length context) →
       enhanced_context resp
       = String.substring 0 (Z.to_nat (limit - 100)) context +:+ truncation_marker
       ∧ Z.of_nat (String.length (enhanced_context resp)) = limit - 74).
Proof.
  intros Hengine Hmem Hlimit Hanalyze Hretrieve Hbig.
  destruct (enhance_prompt_run req engine mem entities intent context limit st
              Hengine Hmem Hlimit Hanalyze Hretrieve) as (resp & Hrun & Henh & _).
  exists resp. split; [exact Hrun|]. rewrite Henh.
  unfold truncated.
  pose proof (length_slice_to (limit - 100) context) as Hslice.
  destruct (Z.leb_spec 0 (limit - 100)) as [_|Hneg]; [|lia].
  destruct (Z.ltb_spec limit (Z.of_nat (String.length context))) as [Hlong|Hshort].
  - rewrite length_append. change (String.length truncation_marker) with 26%nat.
    split; [lia|]. split; [lia|]. intros _. split; [|lia].
    unfold slice_to. destruct (Z.leb_spec 0 (limit - 100)); [reflexivity|lia].
  - split; [lia|]. split; [reflexivity|lia].
Qed.

(** X17.  The limit is not kept below 100 characters, and a request
    without limit is not served.  With a limit under 100 the cut counts
    from the end of the context, so a context of more than 74 characters
    that is over the limit comes back longer than the limit; with
    [max_context_length] null the comparison of the length with [None]
    raises, and the answer is the error 500. *)
Theorem small_or_missing_limit_is_mishandled (req : EnhancePromptRequest)
    (engine : Engine) (mem : Memory.GRAGMemory) (entities : list string)
    (intent context : string) (st : state) :
  sessions st !! ep_session_id req = Some engine →
  memories st !! memory engine = Some mem →
  analyze (ep_user_input req) (Memory.knowledge_graph mem)
  = Py.Ok (entities, intent) →
  (∀ turns, retrieve_context_for_prompt mem entities turns = Py.Ok context) →
  (∀ limit,
     max_context_length req = Some limit →
     limit < 100 →
     limit < Z.of_nat (String.length context) →
     74 < Z.of_nat (String.length context) →
     ∃ resp,
       enhance_prompt req st = (Py.Ok resp, st)
       ∧ limit < Z.of_nat (String.length (enhanced_context resp)))
  ∧ (max_context_length req = None →
     enhance_prompt req st
     = (Py.Raise
          (Py.HTTPException 500
             "Failed to enhance prompt: '>' not supported between instances of 'int' and 'NoneType'"),
        st)).
Proof.
  intros Hengine Hmem Hanalyze Hretrieve. split.
  - intros limit Hlimit Hsmall Hover Hlong.
    destruct (enhance_prompt_run req engine mem entities intent context limit st
                Hengine Hmem Hlimit Hanalyze (Hretrieve _)) as (resp & Hrun & Henh & _).
    exists resp. split; [exact Hrun|]. rewrite Henh.
    unfold truncated.
    destruct (Z.ltb_spec limit (Z.of_nat (String.length context))); [|lia].
    rewrite length_append. change (String.length truncation_marker) with 26%nat.
    pose proof (length_slice_to (limit - 100) context) as Hslice.
    destruct (Z.leb_spec 0 (limit - 100)); lia.
  - intros Hnone.
    unfold enhance_prompt, Py.try_except, Py.bind at 1, Py.get at 1.
    rewrite Hengine.
    unfold read_memory, Py.bind, Py.get, Py.lift, Py.ret.
    rewrite Hmem, Hanalyze, Hnone, Hretrieve. reflexivity.
Qed.

End EnhancePromptProperties.

Lemma enhanced_context_respects_the_limit_witness :
  ∃ resp,
    Endpoints.enhance_prompt (H2 := EndpointExamples.quiet_retrieval)
      (EndpointExamples.bob_prompt (Some 100)) Examples.busy_server
    = (Py.Ok resp, Examples.busy_server)
    ∧ Z.of_nat (String.length (Endpoints.enhanced_context resp)) = 26.
Proof.
  destruct (@enhanced_context_respects_the_limit EndpointExamples.quiet_retrieval
              (EndpointExamples.bob_prompt (Some 100))
              {| ApiServer.memory := 0%nat; ApiServer.grag_agent := false |}
              Examples.amulet_memory ["hero"] "explore"
              EndpointExamples.long_context 100 Examples.busy_server)
    as (resp & Hrun & _ & _ & Hcut).
  - vm_compute. reflexivity.
  - vm_compute. reflexivity.
  - reflexivity.
  - reflexivity.
  - reflexivity.
  - lia.
  - exists resp. split; [exact Hrun|].
    apply Hcut. vm_compute. reflexivity.
Defined.

Lemma small_or_missing_limit_is_mishandled_witness :
  ∃ resp,
    Endpoints.enhance_prompt (H2 := EndpointExamples.quiet_retrieval)
      (EndpointExamples.bob_prompt (Some 80)) Examples.busy_server
    = (Py.Ok resp, Examples.busy_server)
    ∧ 80 < Z.of_nat (String.length (Endpoints.enhanced_context resp)).
Proof.
  apply (proj1 (@small_or_missing_limit_is_mishandled
                  EndpointExamples.quiet_retrieval
                  (EndpointExamples.bob_prompt (Some 80))
                  {| ApiServer.memory := 0%nat; ApiServer.grag_agent := false |}
                  Examples.amulet_memory ["hero"] "explore"
                  EndpointExamples.long_context Examples.busy_server
                  ltac:(vm_compute; reflexivity) ltac:(vm_compute; reflexivity)
                  ltac:(reflexivity) ltac:(reflexivity)) 80).
  - reflexivity.
  - lia.
  - vm_compute. reflexivity.
  - vm_compute. reflexivity.
Defined.

(* ===================================================================== *)
(** ** The name of the character in a session id *)
(* ===================================================================== *)

Section SessionIdProperties.
Import ApiServer Endpoints Reinitialize.
Context `{Codec}.

(** The character occurs in the string. *)
Fixpoint has_char (c : ascii) (s : string) : bool :=
match s with
| EmptyString => false
| String c' s' => Ascii.eqb c' c || has_char c s'
end.

Lemma split_not_nil (sep : ascii) (s : string) : split sep s ≠ [].
Proof.
  destruct s as [|c s]; cbn; [discriminate|].
  destruct (Ascii.eqb c sep); [discriminate|].
  destruct (split sep s); discriminate.
Qed.

(** Splitting at a separator that stands between two texts. *)
Lemma split_app (sep : ascii) (a b : string) :
  split sep (a +:+ String sep b) = (split sep a ++ split sep b)%list.
Proof.
  induction a as [|c a IH]; simpl.
  - rewrite Ascii.eqb_refl. reflexivity.
  - rewrite IH. destruct (Ascii.eqb c sep); [reflexivity|].
    pose proof (split_not_nil sep a) as Hne.
    destruct (split sep a) as [|piece pieces]; [contradiction|reflexivity].
Qed.

Lemma split_without_separator (sep : ascii) (s : string) :
  has_char sep s = false → split sep s = [s].
Proof.
  induction s as [|c s IH]; simpl; [reflexivity|].
  intros Hno. apply orb_false_iff in Hno. destruct Hno as [Hc Hs].
  rewrite Hc, (IH Hs). reflexivity.
Qed.

(** Joining the pieces with the separator gives the text back. *)
Lemma join_split (sep : ascii) (s : string) :
  join (String sep EmptyString) (split sep s) = s.
Proof.
  unfold join. induction s as [|c s IH]; simpl; [reflexivity|].
  pose proof (split_not_nil sep s) as Hne.
  destruct (Ascii.eqb_spec c sep) as [->|Hc].
  - destruct (split sep s) as [|piece pieces]; [contradiction|].
    simpl in *. rewrite IH. reflexivity.
  - destruct (split sep s) as [|piece pieces]; [contradiction|].
    destruct pieces as [|piece' pieces]; simpl in *; rewrite <- IH; reflexivity.
Qed.

(** X22.  The session id made for a character gives the name of the
    character back: [reinitialize_session] reads from the id
    [generate_consistent_session_id name] the name itself, decoded by
    [unquote], also when the name has underscores of its own (the eight
    digits of the hash have none); so a session whose memory stores no
    name is reinitialized under that name. *)
Theorem session_id_gives_the_name_back (name : string) (mem : Memory.GRAGMemory) :
  has_char "_" (md5_hex8 name) = false →
  character_name_from_session_id (generate_consistent_session_id name)
  = Some (unquote name)
  ∧ (Memory.get_state "tavern_character_name" mem = None →
     resolve_character_name mem (generate_consistent_session_id name)
     = unquote name).
Proof.
  intros Hhash.
  assert (Hparts : split "_" (generate_consistent_session_id name)
                   = ("tavern" :: split "_" name ++ [md5_hex8 name])%list).
  { unfold generate_consistent_session_id.
    change ("tavern_" +:+ name +:+ "_" +:+ md5_hex8 name)
      with ("tavern" +:+ String "_" (name +:+ String "_" (md5_hex8 name))).
    rewrite !split_app, (split_without_separator "_" (md5_hex8 name) Hhash).
    reflexivity. }
  assert (Hname : character_name_from_session_id (generate_consistent_session_id name)
                  = Some (unquote name)).
  { unfold character_name_from_session_id. rewrite Hparts.
    change (Py.startswith "tavern_" (generate_consistent_session_id name)) with true.
    cbn [tl]. rewrite removelast_last, join_split.
    pose proof (split_not_nil "_" name) as Hne.
    destruct (split "_" name) as [|piece pieces]; [contradiction|].
    cbn [length app]. rewrite length_app. cbn [length].
    destruct (Nat.leb_spec 3 (S (S (length pieces + 1)))); [reflexivity|lia]. }
  split; [exact Hname|].
  intros Hstate. unfold resolve_character_name. rewrite Hstate, Hname.
  reflexivity.
Qed.

End SessionIdProperties.

Lemma session_id_gives_the_name_back_witness :
  Reinitialize.character_name_from_session_id (H1 := EndpointExamples.plain_codec)
    (Reinitialize.generate_consistent_session_id
       (H1 := EndpointExamples.plain_codec) "Old_Bob")
  = Some "Old_Bob".
Proof.
  apply (proj1 (@session_id_gives_the_name_back EndpointExamples.plain_codec
                  "Old_Bob" Examples.empty_memory eq_refl)).
Defined.

(* ===================================================================== *)
(** ** Asking the plugin for the character *)
(* ===================================================================== *)

Section CoordinatedProperties.
Import ApiServer Endpoints Reinitialize.
Context `{Channel.SocketBehaviour}.

Lemma manager_set_pending (f : gset string -> gset string) (st : state) :
  manager (set_pending_coordinated_reinits f st) = manager st.
Proof. destruct st. reflexivity. Qed.

Lemma pending_set_manager (f : Channel.ConnectionManager -> Channel.ConnectionManager)
      (st : state) :
  pending_coordinated_reinits (set_manager f st) = pending_coordinated_reinits st.
Proof. destruct st. reflexivity. Qed.

Lemma pending_set_pending (f : gset string -> gset string) (st : state) :
  pending_coordinated_reinits (set_pending_coordinated_reinits f st)
  = f (pending_coordinated_reinits st).
Proof. destruct st. reflexivity. Qed.

(** X23.  [request_coordinated_reinitialize] answers 400 and changes
    nothing for a session that has an engine and no plugin socket.  For a
    session that has both it marks the session as pending, pushes the
    request and answers with success.  It answers with success also when
    the push fails: [send_message] has caught the failure and removed the
    binding, so the session stays pending although its socket is gone. *)
Theorem coordinated_request_survives_a_failed_push (session_id : string)
    (engine : Engine) (st : state) :
  sessions st !! session_id = Some engine →
  (Channel.active_connections (manager st) !! session_id = None →
   ∃ detail,
     request_coordinated_reinitialize session_id st
     = (Py.Raise (Py.HTTPException 400 detail), st))
  ∧ (∀ ws,
       Channel.active_connections (manager st) !! session_id = Some ws →
       ∃ st',
         request_coordinated_reinitialize session_id st
         = (Py.Ok (true, session_id), st')
         ∧ session_id ∈ pending_coordinated_reinits st'
         ∧ (∀ e, Channel.send_result ws "request_character_submission" = Py.Raise e →
                 Channel.active_connections (manager st') !! session_id = None)
         ∧ (Channel.send_result ws "request_character_submission" = Py.Ok tt →
            Channel.active_connections (manager st')
            = Channel.active_connections (manager st))).
Proof.
  intros Hengine. split.
  - intros Hnone. unfold request_coordinated_reinitialize, Py.bind, Py.get.
    rewrite Hengine, Hnone.
    rewrite bool_decide_eq_true_2 by (eexists; reflexivity).
    rewrite bool_decide_eq_false_2 by (intros [? [=]]).
    eexists. reflexivity.
  - intros ws Hws. unfold request_coordinated_reinitialize.
    unfold Py.bind at 1, Py.get at 1. rewrite Hengine, Hws.
    rewrite !bool_decide_eq_true_2 by (eexists; reflexivity). cbn [negb].
    unfold Py.try_except, Py.bind, Py.modify. rewrite on_manager_run.
    rewrite manager_set_pending.
    destruct (send_message_run session_id "request_character_submission" (manager st))
      as (m' & Hsend & Hconns).
    rewrite Hsend. cbn [fst snd]. eexists. split; [reflexivity|].
    rewrite pending_set_manager, pending_set_pending, manager_set_manager.
    split; [set_solver|].
    rewrite Hws in Hconns. split.
    + intros e He. rewrite He in Hconns. destruct Hconns as [-> _].
      apply lookup_delete_eq.
    + intros Hok. rewrite Hok in Hconns. destruct Hconns as [-> _]. reflexivity.
Qed.

End CoordinatedProperties.

Lemma coordinated_request_survives_a_failed_push_witness :
  ∃ st',
    Reinitialize.request_coordinated_reinitialize
      (H0 := EndpointExamples.deaf_sockets) "tavern_Bob_1" Examples.busy_server
    = (Py.Ok (true, "tavern_Bob_1"), st')
    ∧ "tavern_Bob_1" ∈ ApiServer.pending_coordinated_reinits st'
    ∧ Channel.active_connections (ApiServer.manager st') !! "tavern_Bob_1" = None.
Proof.
  destruct (proj2 (@coordinated_request_survives_a_failed_push
                     EndpointExamples.deaf_sockets "tavern_Bob_1"
                     {| ApiServer.memory := 0%nat; ApiServer.grag_agent := false |}
                     Examples.busy_server ltac:(vm_compute; reflexivity))
              7%nat ltac:(vm_compute; reflexivity))
    as (st' & Hrun & Hpending & Hfailed & _).
  exists st'. split; [exact Hrun|]. split; [exact Hpending|].
  apply (Hfailed Py.WebSocketDisconnect). reflexivity.
Defined.

(* ===================================================================== *)
(** ** Reinitializing a session *)
(* ===================================================================== *)

Section ReinitializeProperties.
Import KnowledgeGraph Memory ApiServer Endpoints Reinitialize.
Context `{Codec}.

(** Every description in the graph is a text or a list, or is absent:
    the listings of [reinitialize_session] can slice it. *)
Definition descriptions_can_be_sliced (g : KnowledgeGraph.t) : Prop :=
map_Forall (fun (_ : string) attrs => description_preview attrs = Py.Ok tt) (nodes g).

Lemma list_nodes_run (limit : option nat) (g : KnowledgeGraph.t) (st : state) :
  descriptions_can_be_sliced g → list_nodes limit g st = (Py.Ok tt, st).
Proof.
  intros Hok. unfold list_nodes.
  assert (Hall : Forall (fun entry : string * attr_dict =>
                           description_preview (snd entry) = Py.Ok tt)
                        (map_to_list (nodes g))).
  { apply map_Forall_to_list in Hok. eapply Forall_impl; [exact Hok|].
    intros [node_id attrs] Hentry. exact Hentry. }
  assert (Hloop : ∀ l, Forall (fun entry : string * attr_dict =>
                                 description_preview (snd entry) = Py.Ok tt) l →
                       Py.for_each l
                         (fun entry : string * attr_dict =>
                            Py.lift (description_preview (snd entry))) st
                       = (Py.Ok tt, st)).
  { induction l as [|entry l IH]; intros Hl; [reflexivity|].
    apply Forall_cons in Hl. destruct Hl as [Hentry Hl].
    cbn [Py.for_each]. unfold Py.bind, Py.lift. rewrite Hentry. apply IH, Hl. }
  destruct limit as [n|]; apply Hloop; [apply Forall_take|]; exact Hall.
Qed.

(** The graph that [reinitialize_session] builds for a name. *)
Definition rebuilt_graph (name : string) : KnowledgeGraph.t :=
{| nodes :=
     nodes (KnowledgeGraph.add_or_update_node "对话世界" (AStr "location")
              (<["description" := AStr (name +:+ "所在的对话环境")]>
               (<["type" := AStr "虚拟空间"]> ∅))
              (KnowledgeGraph.add_or_update_node name (AStr "character")
                 (<["description" := AStr ("SillyTavern中的角色 " +:+ name)]>
                  (<["role" := AStr "主角"]>
                  (<["source" := AStr "SillyTavern"]> ∅)))
                 KnowledgeGraph.empty));
   edges := [(name, "对话世界", "位于")] |}.

(** The memory after [reinitialize_session]. *)
Definition rebuilt_memory (name : string) (mem : GRAGMemory) : GRAGMemory :=
{| knowledge_graph := rebuilt_graph name;
   conversation_history := conversation_history mem;
   Memory.state := <["tavern_character_name" := name]> (Memory.state mem);
   graph_save_path := graph_save_path mem |}.

Lemma rebuilt_lookup (name node_id : string) (attrs : attr_dict) :
  nodes (rebuilt_graph name) !! node_id = Some attrs →
  (node_id = name ∨ node_id = "对话世界")
  ∧ attrs !! "name" = None
  ∧ description_preview attrs = Py.Ok tt.
Proof.
  unfold rebuilt_graph, KnowledgeGraph.add_or_update_node, KnowledgeGraph.empty.
  cbn [nodes edges].
  destruct (decide (node_id = "对话世界")) as [->|Hworld].
  - rewrite lookup_insert_eq. intros [= <-]. split; [auto|].
    destruct (decide (name = "对话世界")) as [->|Hname].
    + rewrite lookup_insert_eq. cbn [default]. split.
      * vm_compute. reflexivity.
      * unfold description_preview.
        rewrite (lookup_union_Some_l _ _ _ (AStr ("对话世界" +:+ "所在的对话环境")))
          by apply lookup_insert_eq.
        reflexivity.
    + rewrite lookup_insert_ne by congruence. rewrite lookup_empty. cbn [default].
      split.
      * vm_compute. reflexivity.
      * unfold description_preview.
        rewrite (lookup_union_Some_l _ _ _ (AStr (name +:+ "所在的对话环境")))
          by apply lookup_insert_eq.
        reflexivity.
  - rewrite lookup_insert_ne by congruence.
    destruct (decide (node_id = name)) as [->|Hname].
    + rewrite lookup_insert_eq. intros [= <-]. split; [auto|].
      rewrite lookup_empty. cbn [default]. split.
      * vm_compute. reflexivity.
      * unfold description_preview.
        rewrite (lookup_union_Some_l _ _ _ (AStr ("SillyTavern中的角色 " +:+ name)))
          by apply lookup_insert_eq.
        reflexivity.
    + rewrite lookup_insert_ne by congruence. rewrite lookup_empty. discriminate.
Qed.

Lemma rebuilt_has (name : string) :
  is_Some (nodes (rebuilt_graph name) !! name)
  ∧ is_Some (nodes (rebuilt_graph name) !! "对话世界").
Proof.
  unfold rebuilt_graph, KnowledgeGraph.add_or_update_node. cbn [nodes edges].
  split.
  - destruct (decide (name = "对话世界")) as [->|Hname].
    + rewrite lookup_insert_eq. eauto.
    + rewrite lookup_insert_ne by congruence. rewrite lookup_insert_eq. eauto.
  - rewrite lookup_insert_eq. eauto.
Qed.

(** The four calls on the memory that rebuild the graph. *)
Lemma rebuild_run (name : string) (mem : GRAGMemory) :
  let cleared := snd (clear_all mem) in
  let with_character :=
    snd (Memory.add_or_update_node name (AStr "character")
           (<["description" := AStr ("SillyTavern中的角色 " +:+ name)]>
            (<["role" := AStr "主角"]>
            (<["source" := AStr "SillyTavern"]> ∅))) cleared) in
  let with_world :=
    snd (Memory.add_or_update_node "对话世界" (AStr "location")
           (<["description" := AStr (name +:+ "所在的对话环境")]>
            (<["type" := AStr "虚拟空间"]> ∅)) with_character) in
  ∃ with_edge,
    Memory.add_edge name "对话世界" "位于" with_world = (Py.Ok tt, with_edge)
    ∧ snd (update_state "tavern_character_name" name with_edge)
      = rebuilt_memory name mem.
Proof.
  destruct mem as [g h st path]. cbn zeta.
  unfold clear_all, Memory.add_or_update_node, Py.modify, with_graph.
  cbn [snd knowledge_graph conversation_history Memory.state graph_save_path].
  unfold Memory.add_edge.
  cbn [knowledge_graph conversation_history Memory.state graph_save_path].
  unfold KnowledgeGraph.add_edge.
  destruct (rebuilt_has name) as [Hname Hworld].
  unfold rebuilt_graph in Hname, Hworld. cbn [nodes] in Hname, Hworld.
  unfold KnowledgeGraph.clear.
  rewrite (proj2 (has_node_true _ name)) by exact Hname.
  rewrite (proj2 (has_node_true _ "对话世界")) by exact Hworld.
  cbn [negb]. cbn [edges KnowledgeGraph.add_or_update_node KnowledgeGraph.empty existsb].
  eexists. split; [reflexivity|]. reflexivity.
Qed.

Lemma not_canonical (name : string) : ¬ canonical_ids (rebuilt_graph name).
Proof.
  intros Hcanon. destruct (rebuilt_has name) as [[attrs Hattrs] _].
  destruct (Hcanon name attrs Hattrs) as (ty & n & _ & Hn & _).
  destruct (rebuilt_lookup name name attrs Hattrs) as (_ & Hnone & _).
  congruence.
Qed.

(** X21.  [reinitialize_session] rebuilds the graph around the name of
    the character: the graph is emptied, and when the name it has decided
    on is neither empty nor ["Unknown Character"] the graph gets the
    node of the character, under the name itself as its id, the node
    ["对话世界"] and the edge between them, the name is stored in the state
    of the memory, and the answer counts two nodes and one edge.  The id
    of the character is not made by [_generate_entity_id] and the node
    has no ["name"]: the ids of the graph are not canonical afterwards.
    The conversation log is kept. *)
Theorem reinitialize_writes_the_name_as_id (session_id name : string)
    (engine : Engine) (mem : GRAGMemory) (st : state) :
  sessions st !! session_id = Some engine →
  memories st !! memory engine = Some mem →
  descriptions_can_be_sliced (knowledge_graph mem) →
  resolve_character_name mem session_id = name →
  name ≠ "" → name ≠ "Unknown Character" →
  ∃ resp st',
    reinitialize_session session_id st = (Py.Ok resp, st')
    ∧ memories st' !! memory engine = Some (rebuilt_memory name mem)
    ∧ ri_character_name resp = name
    ∧ nodes_created resp = 2 ∧ edges_created resp = 1
    ∧ dom (nodes (rebuilt_graph name)) = {[ name; "对话世界" ]}
    ∧ (∀ attrs, nodes (rebuilt_graph name) !! name = Some attrs →
                attrs !! "name" = None)
    ∧ ¬ canonical_ids (rebuilt_graph name).
Proof.
  intros Hengine Hmem Hsliced Hname Hnonempty Hknown.
  assert (Hrun : ∃ resp st',
             reinitialize_session session_id st = (Py.Ok resp, st')
             ∧ memories st' !! memory engine = Some (rebuilt_memory name mem)
             ∧ ri_character_name resp = name
             ∧ nodes_created resp = 2 ∧ edges_created resp = 1).
  { unfold reinitialize_session, Py.try_except.
    unfold Py.bind at 1, Py.get at 1. rewrite Hengine.
    unfold Py.bind at 1, read_memory at 1, Py.bind at 1, Py.get at 1.
    rewrite Hmem. cbn [Py.ret]. rewrite Hname.
    unfold Py.bind at 1.
    assert (Hfirst : (if (0 <? number_of_nodes (knowledge_graph mem))%nat
                      then list_nodes (Some 10%nat) (knowledge_graph mem)
                      else Py.ret tt) st = (Py.Ok tt, st)).
    { destruct (0 <? _)%nat; [apply list_nodes_run, Hsliced|reflexivity]. }
    rewrite Hfirst.
    apply String.eqb_neq in Hnonempty, Hknown. rewrite Hnonempty, Hknown.
    cbn [negb andb].
    destruct (rebuild_run name mem) as (with_edge & Hedge & Hfinal).
    cbv zeta in Hedge.
    unfold Py.bind at 1. rewrite (on_memory_run _ _ mem st Hmem).
    cbn [fst clear_all Py.modify].
    unfold Py.bind at 1. unfold Py.bind at 1.
    rewrite (on_memory_run _ _ (snd (clear_all mem)))
      by (rewrite memories_set_memories; apply lookup_insert_eq).
    cbn [fst Memory.add_or_update_node Py.modify].
    unfold Py.bind at 1.
    match goal with
    | |- context [on_memory (memory engine)
                    (Memory.add_or_update_node "对话世界" ?t ?a) ?s] =>
        rewrite (on_memory_run _ (Memory.add_or_update_node "对话世界" t a)
                   (snd (Memory.add_or_update_node name (AStr "character")
                           (<["description" := AStr ("SillyTavern中的角色 " +:+ name)]>
                            (<["role" := AStr "主角"]>
                            (<["source" := AStr "SillyTavern"]> ∅)))
                           (snd (clear_all mem)))) s)
          by (rewrite memories_set_memories; apply lookup_insert_eq)
    end.
    cbn [fst Memory.add_or_update_node Py.modify].
    unfold Py.bind at 1.
    match goal with
    | |- context [on_memory (memory engine) (Memory.add_edge ?a ?b ?c) ?s] =>
        rewrite (on_memory_run _ (Memory.add_edge a b c)
                   (snd (Memory.add_or_update_node "对话世界" (AStr "location")
                           (<["description" := AStr (name +:+ "所在的对话环境")]>
                            (<["type" := AStr "虚拟空间"]> ∅))
                           (snd (Memory.add_or_update_node name (AStr "character")
                                   (<["description" :=
                                        AStr ("SillyTavern中的角色 " +:+ name)]>
                                    (<["role" := AStr "主角"]>
                                    (<["source" := AStr "SillyTavern"]> ∅)))
                                   (snd (clear_all mem)))))) s)
          by (rewrite memories_set_memories; apply lookup_insert_eq)
    end.
    rewrite Hedge. cbn [fst snd].
    unfold Py.bind at 1.
    match goal with
    | |- context [on_memory (memory engine) (update_state ?k ?v) ?s] =>
        rewrite (on_memory_run _ (update_state k v) with_edge s)
          by (rewrite memories_set_memories; apply lookup_insert_eq)
    end.
    rewrite Hfinal. cbn [fst update_state Py.modify Py.ret].
    unfold Py.bind at 1, read_memory at 1, Py.bind at 1, Py.get at 1.
    rewrite memories_set_memories, lookup_insert_eq. cbn [Py.ret].
    unfold Py.bind at 1.
    match goal with
    | |- context [(if ?c then list_nodes None ?g else Py.ret tt) ?s] =>
        assert (Hlast : (if c then list_nodes None g else Py.ret tt) s
                        = (Py.Ok tt, s))
    end.
    { clear Hfirst.
      destruct (0 <? number_of_nodes (knowledge_graph (rebuilt_memory name mem)))%nat;
        [|reflexivity].
      apply list_nodes_run.
      intros node_id attrs Hattrs. cbn [knowledge_graph rebuilt_memory] in Hattrs.
      apply (rebuilt_lookup name node_id attrs Hattrs). }
    rewrite Hlast. eexists _, _. split; [reflexivity|].
    split; [|repeat split].
    rewrite memories_set_memories. apply lookup_insert_eq. }
  destruct Hrun as (resp & st' & Hrun & Hstored & Hresp & Hnodes & Hedges).
  exists resp, st'. split; [exact Hrun|]. split; [exact Hstored|].
  split; [exact Hresp|]. split; [exact Hnodes|]. split; [exact Hedges|].
  split; [|split].
  - unfold rebuilt_graph, KnowledgeGraph.add_or_update_node, KnowledgeGraph.empty.
    cbn [nodes]. rewrite !dom_insert_L, dom_empty_L.
    rewrite (right_id_L ∅ (∪)). apply (comm_L (∪)).
  - intros attrs Hattrs. apply (rebuilt_lookup name name attrs Hattrs).
  - apply not_canonical.
Qed.

End ReinitializeProperties.

Lemma reinitialize_writes_the_name_as_id_witness :
  ∃ resp st',
    Reinitialize.reinitialize_session (H1 := EndpointExamples.plain_codec)
      "tavern_Bob_1" Examples.busy_server
    = (Py.Ok resp, st')
    ∧ Reinitialize.ri_character_name resp = "Bob"
    ∧ Reinitialize.nodes_created resp = 2
    ∧ Reinitialize.edges_created resp = 1.
Proof.
  destruct (@reinitialize_writes_the_name_as_id EndpointExamples.plain_codec
              "tavern_Bob_1" "Bob"
              {| ApiServer.memory := 0%nat; ApiServer.grag_agent := false |}
              Examples.amulet_memory Examples.busy_server)
    as (resp & st' & Hrun & _ & Hname & Hnodes & Hedges & _).
  - vm_compute. reflexivity.
  - vm_compute. reflexivity.
  - unfold descriptions_can_be_sliced. cbn [Memory.knowledge_graph
      Examples.amulet_memory Examples.amulet_graph KnowledgeGraph.nodes].
    repeat apply map_Forall_insert_2; try apply map_Forall_empty; reflexivity.
  - vm_compute. reflexivity.
  - discriminate.
  - discriminate.
  - exists resp, st'. repeat split; assumption.
Defined.

(* ===================================================================== *)
(** ** Switching the tavern mode *)
(* ===================================================================== *)

Section TavernModeProperties.
Import ApiServer Endpoints.

Lemma mode_set_mode (f : bool -> bool) (st : state) :
  TAVERN_MODE_ACTIVE (set_TAVERN_MODE_ACTIVE f st) = f (TAVERN_MODE_ACTIVE st).
Proof. destruct st. reflexivity. Qed.

(** X15.  [POST /system/tavern_mode] never answers with an error: the
    value of ["active"] is coerced, a missing key and [null] being false
    and a text being true when, stripped and in lower case, it is one of
    ["1"], ["true"], ["yes"], ["on"].  The mode that is set is the one
    [GET /system/tavern_mode] reads afterwards, and it is the one the gate
    of the handlers tests: after the call a gated handler runs its body
    if the coerced value is true and rejects with 403 if it is false. *)
Theorem tavern_mode_is_set_to_the_coerced_value (payload : gmap string json)
    (st : state) :
  let active := to_bool (default JNull (payload !! "active")) in
  let st' := set_TAVERN_MODE_ACTIVE (fun _ => active) st in
  set_tavern_mode_state payload st = (Py.Ok (true, active), st')
  ∧ get_tavern_mode_state st' = (Py.Ok active, st')
  ∧ (payload !! "active" = None → active = false)
  ∧ (∀ s, payload !! "active" = Some (JStr s) →
          (active = true
           ↔ In (Py.lower (Py.strip s)) ["1"; "true"; "yes"; "on"]))
  ∧ (∀ A (r : route) (body : Py.M state A),
       checks_tavern_mode r = true →
       handler r body st'
       = if active then body st'
         else (Py.Raise (Py.HTTPException 403 "Tavern mode disabled"), st')).
Proof.
  cbv zeta. split; [|split; [|split; [|split]]].
  - unfold set_tavern_mode_state, Py.try_except, Py.bind, Py.modify, Py.get, Py.ret.
    rewrite mode_set_mode. reflexivity.
  - unfold get_tavern_mode_state, Py.bind, Py.get, Py.ret.
    rewrite mode_set_mode. reflexivity.
  - intros ->. reflexivity.
  - intros s ->. cbn [default]. unfold id. cbn [to_bool]. cbv zeta.
    rewrite !orb_true_iff, !String.eqb_eq. cbn [In]. intuition congruence.
  - intros A r body Hgate.
    unfold handler, require_tavern_mode, Py.bind, Py.get. rewrite Hgate.
    rewrite mode_set_mode.
    destruct (to_bool (default JNull (payload !! "active"))); reflexivity.
Qed.

End TavernModeProperties.

(* ===================================================================== *)
(** ** The session endpoints *)
(* ===================================================================== *)

Section SessionEndpointProperties.
Import ApiServer Endpoints Reinitialize.
Context `{Environment} `{GameEngine.Collaborators} `{Channel.SocketBehaviour}
        `{Retrieval} `{Codec}.

(** X18.  For a session id that has no engine, every endpoint that
    works on a session answers with the error 404 and leaves the whole
    state of the server as it is. *)
Theorem unknown_session_is_answered_with_404 (session_id : string) (st : state) :
  sessions st !! session_id = None →
  let not_found {A} (r : Py.outcome A * state) :=
    ∃ detail, r = (Py.Raise (Py.HTTPException 404 detail), st) in
  (∀ user_input limit,
     not_found (enhance_prompt
                  {| ep_session_id := session_id; ep_user_input := user_input;
                     max_context_length := limit |} st))
  ∧ (∀ llm_response user_input,
       not_found (update_memory
                    {| um_session_id := session_id;
                       um_llm_response := llm_response;
                       um_user_input := user_input |} st))
  ∧ (∀ user_input llm_response,
       not_found (process_conversation
                    {| pr_session_id := session_id; pr_user_input := user_input;
                       pr_llm_response := llm_response |} st))
  ∧ (∀ history,
       not_found (sync_conversation
                    {| sy_session_id := session_id; tavern_history := history |} st))
  ∧ not_found (clear_session_graph session_id st)
  ∧ (∀ keep, not_found (reset_session session_id keep st))
  ∧ not_found (reinitialize_session session_id st)
  ∧ not_found (request_coordinated_reinitialize session_id st).
Proof.
  intros Hnone not_found. subst not_found. cbv beta.
  repeat split; intros.
  - unfold enhance_prompt, Py.try_except, Py.bind, Py.get.
    cbn [ep_session_id]. rewrite Hnone. eexists. reflexivity.
  - unfold update_memory, Py.try_except, Py.bind, Py.get.
    cbn [um_session_id]. rewrite Hnone. eexists. reflexivity.
  - unfold process_conversation, Py.try_except, Py.bind at 1, Py.get at 1.
    cbn [pr_session_id]. rewrite Hnone.
    rewrite bool_decide_eq_false_2 by (intros [? [=]]).
    eexists. reflexivity.
  - unfold sync_conversation, Py.try_except, Py.bind at 1, Py.get at 1.
    cbn [sy_session_id]. rewrite Hnone.
    rewrite bool_decide_eq_false_2 by (intros [? [=]]).
    eexists. reflexivity.
  - unfold clear_session_graph, Py.bind, Py.get. rewrite Hnone.
    eexists. reflexivity.
  - unfold reset_session, Py.try_except, Py.bind, Py.get. rewrite Hnone.
    eexists. reflexivity.
  - unfold reinitialize_session, Py.try_except, Py.bind, Py.get. rewrite Hnone.
    eexists. reflexivity.
  - unfold request_coordinated_reinitialize, Py.bind, Py.get. rewrite Hnone.
    rewrite bool_decide_eq_false_2 by (intros [? [=]]).
    eexists. reflexivity.
Qed.

(** X19.  [POST /sync_conversation] for a session that has an engine
    and no window manager (no turn has been processed and the session was
    initialized without a window) makes no resolver: it answers that the
    resolution is not available, with no conflict and
    [window_synced = false], and changes nothing. *)
Theorem sync_without_window_changes_nothing (req : SyncConversationRequest)
    (engine : Engine) (st : state) :
  sessions st !! sy_session_id req = Some engine →
  sliding_window_managers st !! sy_session_id req = None →
  conflict_resolvers st !! sy_session_id req = None →
  sync_conversation req st
  = (Py.Ok {| sy_message :=
                "Conflict resolution not available - sliding window system not initialized";
              conflicts_detected := 0;
              sy_conflicts_resolved := 0;
              window_synced := false |},
     st).
Proof.
  intros Hengine Hmanager Hresolver.
  unfold sync_conversation, Py.try_except, Py.bind at 1, Py.get at 1.
  rewrite Hengine. rewrite bool_decide_eq_true_2 by (eexists; reflexivity).
  cbn [negb].
  unfold get_or_create_conflict_resolver, Py.bind, Py.get.
  rewrite Hresolver, Hmanager. reflexivity.
Qed.

(** X20.  [POST /sessions/{id}/reset].  With [keep_character_data] the
    conversation log of the session is emptied and its graph, its state
    and its engine are kept.  Without it only the entry of the session in
    the table of the engines is deleted: the window manager and the
    conflict resolver of the session stay in their tables, so that a
    manager made before the reset is the one
    [get_or_create_sliding_window_manager] returns after it, still bound
    to the memory of the engine that is gone. *)
Theorem reset_keeps_the_window_manager (session_id : string) (engine : Engine)
    (mem : Memory.GRAGMemory) (st : state) :
  sessions st !! session_id = Some engine →
  memories st !! memory engine = Some mem →
  (∃ st',
     reset_session session_id true st
     = (Py.Ok ("Session reset successfully", session_id), st')
     ∧ sessions st' = sessions st
     ∧ ∃ mem',
         memories st' !! memory engine = Some mem'
         ∧ Memory.conversation_history mem' = []
         ∧ Memory.knowledge_graph mem' = Memory.knowledge_graph mem
         ∧ Memory.state mem' = Memory.state mem)
  ∧ (∃ st',
       reset_session session_id false st
       = (Py.Ok ("Session reset successfully", session_id), st')
       ∧ sessions st' = delete session_id (sessions st)
       ∧ sliding_window_managers st' = sliding_window_managers st
       ∧ conflict_resolvers st' = conflict_resolvers st
       ∧ memories st' = memories st
       ∧ ∀ mgr cfg,
           sliding_window_managers st !! session_id = Some mgr →
           get_or_create_sliding_window_manager session_id cfg st'
           = (Py.Ok mgr, st')).
Proof.
  intros Hengine Hmem. split.
  - unfold reset_session, Py.try_except, Py.bind at 1, Py.get at 1.
    rewrite Hengine. unfold Py.bind. rewrite (on_memory_run _ _ mem st Hmem).
    cbn [fst snd clear_conversation_history Py.modify Py.ret].
    eexists. split; [reflexivity|]. split; [destruct st; reflexivity|].
    eexists. split; [rewrite memories_set_memories; apply lookup_insert_eq|].
    repeat split.
  - unfold reset_session, Py.try_except, Py.bind at 1, Py.get at 1.
    rewrite Hengine. unfold Py.bind, Py.modify, Py.ret.
    eexists. split; [reflexivity|].
    split; [apply sessions_set_sessions|].
    split; [destruct st; reflexivity|].
    split; [destruct st; reflexivity|].
    split; [destruct st; reflexivity|].
    intros mgr cfg Hmgr.
    unfold get_or_create_sliding_window_manager, Py.bind, Py.get.
    assert (Hsame : sliding_window_managers (set_sessions (delete session_id) st)
                    = sliding_window_managers st) by (destruct st; reflexivity).
    rewrite Hsame, Hmgr. reflexivity.
Qed.

End SessionEndpointProperties.

Lemma unknown_session_is_answered_with_404_witness :
  ∃ detail,
    Endpoints.clear_session_graph "nobody" Examples.started_server
    = (Py.Raise (Py.HTTPException 404 detail), Examples.started_server).
Proof.
  pose proof (@unknown_session_is_answered_with_404 Examples.plain_machine
                Examples.timing_out_agent Examples.quiet_sockets
                EndpointExamples.quiet_retrieval EndpointExamples.plain_codec
                "nobody" Examples.started_server ltac:(vm_compute; reflexivity))
    as Hall.
  cbv zeta beta in Hall.
  exact (proj1 (proj2 (proj2 (proj2 (proj2 Hall))))).
Defined.

Lemma sync_without_window_changes_nothing_witness :
  fst (Endpoints.sync_conversation (H2 := EndpointExamples.quiet_retrieval)
         EndpointExamples.bob_history Examples.busy_server)
  = Py.Ok {| Endpoints.sy_message :=
               "Conflict resolution not available - sliding window system not initialized";
             Endpoints.conflicts_detected := 0;
             Endpoints.sy_conflicts_resolved := 0;
             Endpoints.window_synced := false |}.
Proof.
  rewrite (@sync_without_window_changes_nothing EndpointExamples.quiet_retrieval
             EndpointExamples.bob_history
             {| ApiServer.memory := 0%nat; ApiServer.grag_agent := false |}
             Examples.busy_server);
    [reflexivity|vm_compute; reflexivity..].
Defined.

Lemma reset_keeps_the_window_manager_witness :
  ∃ st',
    Endpoints.reset_session "tavern_Bob_1" false Examples.busy_server
    = (Py.Ok ("Session reset successfully", "tavern_Bob_1"), st')
    ∧ ApiServer.sessions st' = delete "tavern_Bob_1" (ApiServer.sessions Examples.busy_server)
    ∧ ApiServer.memories st' = ApiServer.memories Examples.busy_server.
Proof.
  destruct (proj2 (@reset_keeps_the_window_manager Examples.plain_machine
                     "tavern_Bob_1"
                     {| ApiServer.memory := 0%nat; ApiServer.grag_agent := false |}
                     Examples.amulet_memory Examples.busy_server
                     ltac:(vm_compute; reflexivity) ltac:(vm_compute; reflexivity)))
    as (st' & Hrun & Hsessions & _ & _ & Hmemories & _).
  exists st'. repeat split; assumption.
Defined.

(* ===================================================================== *)
(** ** POST /update_memory *)
(* ===================================================================== *)

Section UpdateMemoryProperties.
Import ApiServer Endpoints.
Context `{Environment} `{GameEngine.Collaborators}.

(** X24.  [POST /update_memory] for a session that has an engine, the
    disk working: the updates of the turn are extracted and applied at
    once, the turn is appended to the conversation log, and the answer
    carries the two counts of the extraction.  The sliding window of the
    session is not involved: the table of the window managers is left as
    it is, also when the session has a manager. *)
Theorem update_memory_bypasses_the_window (req : UpdateMemoryRequest)
    (engine : Engine) (mem : Memory.GRAGMemory) (st : state) :
  sessions st !! um_session_id req = Some engine →
  memories st !! memory engine = Some mem →
  (∀ m, save_all_memory m = Py.Ok tt) →
  ∃ resp st' counters mem1,
    update_memory req st = (Py.Ok resp, st')
    ∧ GameEngine.extract_updates_from_response
        (grag_agent engine) (um_llm_response req) (um_user_input req) mem
      = (Py.Ok counters, mem1)
    ∧ memories st' !! memory engine
      = Some (snd (Memory.add_conversation
                     (um_user_input req) (um_llm_response req) mem1))
    ∧ um_message resp = "Memory updated successfully."
    ∧ um_nodes_updated resp = Delta.nodes_updated counters
    ∧ um_edges_added resp = Delta.edges_added counters
    ∧ total_graph_nodes resp
      = KnowledgeGraph.number_of_nodes (Memory.knowledge_graph mem1)
    ∧ sliding_window_managers st' = sliding_window_managers st.
Proof.
  intros Hengine Hmem Hsave.
  destruct (extract_updates_returns (grag_agent engine) (um_llm_response req)
              (um_user_input req) mem) as (counters & mem1 & Hextract).
  eexists _, _, counters, mem1.
  split; [|split; [exact Hextract|]].
  - unfold update_memory, Py.try_except at 1.
    unfold Py.bind at 1, Py.get at 1. rewrite Hengine.
    unfold Py.bind at 1. rewrite (on_memory_run _ _ _ _ Hmem), Hextract.
    cbn [fst snd].
    unfold Py.bind at 1.
    rewrite (on_memory_run _ _ mem1) by (rewrite memories_set_memories;
                                          apply lookup_insert_eq).
    cbn [fst Memory.add_conversation Py.modify].
    unfold Py.bind at 1, read_memory at 1, Py.bind at 1, Py.get at 1.
    rewrite memories_set_memories, lookup_insert_eq. cbn [Py.ret].
    unfold Py.bind at 1, Py.lift at 1. rewrite Hsave.
    unfold graph_stats_of, read_memory, Py.bind, Py.get, Py.ret.
    rewrite memories_set_memories, lookup_insert_eq.
    reflexivity.
  - cbn [snd]. split; [rewrite memories_set_memories; apply lookup_insert_eq|].
    cbn [um_message um_nodes_updated um_edges_added total_graph_nodes fst].
    repeat split.
Qed.

End UpdateMemoryProperties.

Lemma update_memory_bypasses_the_window_witness :
  ∃ resp st',
    Endpoints.update_memory (H := Examples.plain_machine)
      (H0 := Examples.timing_out_agent) EndpointExamples.bob_update
      Examples.busy_server
    = (Py.Ok resp, st')
    ∧ Endpoints.um_nodes_updated resp = 1
    ∧ ApiServer.sliding_window_managers st' = ∅.
Proof.
  destruct (@update_memory_bypasses_the_window Examples.plain_machine
              Examples.timing_out_agent EndpointExamples.bob_update
              {| ApiServer.memory := 0%nat; ApiServer.grag_agent := false |}
              Examples.amulet_memory Examples.busy_server)
    as (resp & st' & counters & mem1 & Hrun & Hextract & _ & _ & Hnodes & _ & _
        & Hwindow).
  - vm_compute. reflexivity.
  - vm_compute. reflexivity.
  - intros m. reflexivity.
  - exists resp, st'. split; [exact Hrun|]. split; [|exact Hwindow].
    rewrite Hnodes. vm_compute in Hextract.
    injection Hextract as <- _. reflexivity.
Defined.

(* ===================================================================== *)
(** ** After a reset *)
(* ===================================================================== *)

Section AfterResetProperties.
Import ApiServer Endpoints.
Context `{Environment} `{GameEngine.Collaborators} `{Channel.SocketBehaviour}.

Lemma quick_reset_state_again (st : state) :
  Channel.active_connections (manager st) = ∅ →
  sessions st = ∅ → sliding_window_managers st = ∅ →
  conflict_resolvers st = ∅ → plugin_character_data st = ∅ →
  quick_reset_state st = st.
Proof.
  intros Hconns Hs Hw Hc Hp.
  destruct st as [mode [conns tr] sess locks swm cr tasks pcd pend stor mems uc].
  cbn [Channel.active_connections manager sessions sliding_window_managers
       conflict_resolvers plugin_character_data] in *. subst.
  unfold quick_reset_state, all_closed, set_manager, set_plugin_character_data,
    set_conflict_resolvers, set_sliding_window_managers, set_sessions.
  cbn [Channel.active_connections Channel.trace manager sessions
       sliding_window_managers conflict_resolvers plugin_character_data
       TAVERN_MODE_ACTIVE].
  rewrite map_to_list_empty. cbn [map]. rewrite app_nil_r. reflexivity.
Qed.

(** X25.  After [quick_reset] the server holds nothing of the sessions:
    a second [quick_reset] changes nothing and reports that it cleared
    zero objects, and a turn sent for any session is answered with the
    error 404. *)
Theorem nothing_is_left_after_a_reset (st : state) :
  ∃ first again st',
    quick_reset st = (Py.Ok first, st')
    ∧ quick_reset st' = (Py.Ok again, st')
    ∧ cleared_counts again
      = [("sessions", 0%nat); ("sliding_windows", 0%nat);
         ("conflict_resolvers", 0%nat); ("websocket_connections", 0%nat);
         ("plugin_characters", 0%nat); ("total", 0%nat)]
    ∧ ∀ req, ∃ detail,
        process_conversation req st'
        = (Py.Raise (Py.HTTPException 404 detail), st').
Proof.
  destruct (quick_reset_run st) as (first & Hfirst & _).
  assert (Hempty : Channel.active_connections (manager (quick_reset_state st)) = ∅
                   ∧ sessions (quick_reset_state st) = ∅
                   ∧ sliding_window_managers (quick_reset_state st) = ∅
                   ∧ conflict_resolvers (quick_reset_state st) = ∅
                   ∧ plugin_character_data (quick_reset_state st) = ∅)
    by (destruct st; repeat split).
  destruct Hempty as (Hconns & Hs & Hw & Hc & Hp).
  assert (Hagain : ∃ again,
             quick_reset (quick_reset_state st)
             = (Py.Ok again, quick_reset_state st)
             ∧ cleared_counts again
               = [("sessions", 0%nat); ("sliding_windows", 0%nat);
                  ("conflict_resolvers", 0%nat); ("websocket_connections", 0%nat);
                  ("plugin_characters", 0%nat); ("total", 0%nat)]).
  { unfold quick_reset, Py.try_except, Py.bind, Py.get, Py.modify.
    rewrite close_all_connections_run.
    fold (quick_reset_state (quick_reset_state st)).
    rewrite (quick_reset_state_again (quick_reset_state st) Hconns Hs Hw Hc Hp).
    rewrite Hconns, Hs, Hw, Hc, Hp. eexists. split; reflexivity. }
  destruct Hagain as (again & Hagain & Hcounts).
  exists first, again, (quick_reset_state st).
  split; [exact Hfirst|]. split; [exact Hagain|]. split; [exact Hcounts|].
  intros req. unfold process_conversation, Py.try_except, Py.bind at 1, Py.get at 1.
  rewrite Hs, lookup_empty.
  rewrite bool_decide_eq_false_2 by (intros [? [=]]).
  eexists. reflexivity.
Qed.

End AfterResetProperties.

(* ===================================================================== *)
(** ** Clearing the test data *)
(* ===================================================================== *)

Section ClearTestDataProperties.
Import ApiServer Endpoints WsRequests.
Context `{Environment} `{Maintenance}.

Lemma startswith_lower (p s : string) :
  Py.startswith p s = true → Py.startswith (Py.lower p) (Py.lower s) = true.
Proof.
  revert s. induction p as [|a p IH]; intros [|b s]; cbn; try congruence.
  intros Hab. apply andb_true_iff in Hab. destruct Hab as [Hab Hps].
  apply Ascii.eqb_eq in Hab. subst b. rewrite Ascii.eqb_refl. apply IH, Hps.
Qed.

Lemma startswith_shorter (p q s : string) :
  Py.startswith (p +:+ q) s = true → Py.startswith p s = true.
Proof.
  revert s. induction p as [|a p IH]; intros s; [reflexivity|].
  destruct s as [|b s]; simpl; [congruence|].
  intros Hab. apply andb_true_iff in Hab. destruct Hab as [Hab Hps].
  rewrite Hab. apply IH, Hps.
Qed.

(** The first test of the filter is covered by the second. *)
Lemma is_test_session_contains (sid : string) :
  is_test_session sid = contains "test" (Py.lower sid).
Proof.
  unfold is_test_session.
  destruct (Py.startswith "test_" sid) eqn:Hstart; [|reflexivity].
  apply startswith_lower in Hstart.
  apply (startswith_shorter "test" "_") in Hstart.
  destruct (Py.lower sid); cbn [contains]; rewrite Hstart; reflexivity.
Qed.

Lemma delete_loop_run (l : list string) (st : state) :
  Py.for_each l (fun test_sid => Py.modify (set_sessions (delete test_sid))) st
  = (Py.Ok tt,
     set_sessions (fun m => fold_left (fun m sid => delete sid m) l m) st).
Proof.
  revert st. induction l as [|sid l IH]; intros st.
  - destruct st. reflexivity.
  - cbn [Py.for_each]. unfold Py.bind, Py.modify. rewrite IH.
    destruct st. reflexivity.
Qed.

Lemma lookup_delete_all (l : list string) (m : gmap string Engine) (sid : string) :
  fold_left (fun m sid => delete sid m) l m !! sid
  = if bool_decide (sid ∈ l) then None else m !! sid.
Proof.
  revert m. induction l as [|x l IH]; intros m; cbn [fold_left].
  - rewrite bool_decide_eq_false_2 by apply not_elem_of_nil. reflexivity.
  - rewrite IH. destruct (decide (sid ∈ l)) as [Hin|Hnotin].
    + rewrite !bool_decide_eq_true_2; [reflexivity|right; exact Hin|exact Hin].
    + rewrite (bool_decide_eq_false_2 _ Hnotin).
      destruct (decide (sid = x)) as [->|Hne].
      * rewrite bool_decide_eq_true_2 by left. apply lookup_delete_eq.
      * rewrite bool_decide_eq_false_2
          by (intros Hcons; apply elem_of_cons in Hcons; tauto).
        apply lookup_delete_ne. congruence.
Qed.

(** X26.  [POST /ui_test/clear_data], the storage manager having
    cleared its test data: afterwards the table of the engines has lost
    exactly the sessions whose id contains ["test"] in any case (the
    test on the prefix ["test_"] adds nothing), so also the session of a
    character of the tavern whose name contains it, and has kept every
    other session with its engine. *)
Theorem clear_test_data_drops_what_is_named_test (st : state) :
  fst (storage_clear_test_data (storage_manager st)) = Py.Ok tt →
  ∃ st',
    clear_test_data st = (Py.Ok "Test data cleared successfully", st')
    ∧ ∀ sid,
        sessions st' !! sid
        = if contains "test" (Py.lower sid) then None else sessions st !! sid.
Proof.
  intros Hstorage.
  unfold clear_test_data, Py.try_except. unfold Py.bind at 1.
  unfold on_storage, zoom.
  destruct (storage_clear_test_data (storage_manager st)) as [r stor'].
  cbn [fst] in Hstorage. subst r.
  unfold Py.bind at 1, Py.get at 1. unfold Py.bind at 1.
  rewrite delete_loop_run. cbn [Py.ret].
  eexists. split; [reflexivity|].
  intros sid. rewrite sessions_set_sessions, lookup_delete_all.
  assert (Hsessions : sessions (set_storage_manager (fun _ => stor') st)
                      = sessions st) by (destruct st; reflexivity).
  rewrite Hsessions, <- is_test_session_contains.
  destruct (is_test_session sid) eqn:Htest.
  - destruct (sessions st !! sid) as [engine|] eqn:Hengine.
    + rewrite bool_decide_eq_true_2; [reflexivity|].
      apply list_elem_of_In, filter_In. split; [|exact Htest].
      apply in_map_iff. exists (sid, engine). split; [reflexivity|].
      apply list_elem_of_In, elem_of_map_to_list. exact Hengine.
    + destruct (bool_decide _); reflexivity.
  - rewrite bool_decide_eq_false_2; [reflexivity|].
    intros Hin. apply list_elem_of_In, filter_In in Hin.
    destruct Hin as [_ Hin]. congruence.
Qed.

End ClearTestDataProperties.

Lemma clear_test_data_drops_what_is_named_test_witness :
  ∃ st',
    WsRequests.clear_test_data (H5 := EndpointExamples.clearing_storage)
      EndpointExamples.contest_server
    = (Py.Ok "Test data cleared successfully", st')
    ∧ ApiServer.sessions st' !! "tavern_Contest_2" = None
    ∧ is_Some (ApiServer.sessions st' !! "tavern_Bob_1").
Proof.
  destruct (@clear_test_data_drops_what_is_named_test
              EndpointExamples.clearing_storage EndpointExamples.contest_server
              eq_refl)
    as (st' & Hrun & Hsessions).
  exists st'. split; [exact Hrun|]. rewrite !Hsessions. split.
  - reflexivity.
  - vm_compute. eexists. reflexivity.
Defined.

(* ===================================================================== *)
(** ** Requests over the socket *)
(* ===================================================================== *)

Section WsRequestProperties.
Import ApiServer Endpoints WsRequests.
Context `{Environment} `{GameEngine.Collaborators} `{LLMClient.Provider}
        `{Bootstrap.Analysis} `{Channel.SocketBehaviour} `{Retrieval}.
Context {payload submit_request submit_response session_stats health_data : Type}.
Context (parse_initialize : payload -> Py.outcome InitializeRequest)
        (parse_enhance_prompt : payload -> Py.outcome EnhancePromptRequest)
        (parse_process_conversation :
           payload -> Py.outcome ProcessConversationRequest)
        (parse_sync_conversation : payload -> Py.outcome SyncConversationRequest)
        (parse_submit_character : payload -> Py.outcome submit_request)
        (payload_session_id : payload -> option string)
        (submit_character_data : submit_request -> Py.M state submit_response)
        (get_session_stats : string -> Py.M state session_stats)
        (health_check : Py.M state health_data).

Local Abbreviation handle_ws_request :=
  (_handle_ws_request parse_initialize parse_enhance_prompt
     parse_process_conversation parse_sync_conversation parse_submit_character
     payload_session_id submit_character_data get_session_stats health_check).

(** The names of the actions [_handle_ws_request] knows. *)
Definition known_actions : list string :=
["initialize"; "enhance_prompt"; "process_conversation"; "sync_conversation";
 "tavern.submit_character"; "tavern.request_character_data";
 "tavern.current_session"; "sessions.stats"; "health"; "system.full_reset"].

(** X27.  [_handle_ws_request] never raises: whatever the action, the
    payload and the handlers do, it returns a frame.  An action it does
    not know (or none) is answered with the error frame
    ["unknown_action"] and changes nothing; a turn for a session without
    engine is answered with the error frame whose code is 404, the
    status of the [HTTPException] of the handler, and whose message is
    its detail; and a turn whose payload does not validate is answered
    with ["internal_error"] and the text of the exception. *)
Theorem ws_request_is_always_answered (session_id : string)
    (action : option string) (request_payload : payload) (st : state) :
  (∃ answer st',
     handle_ws_request session_id action request_payload st = (Py.Ok answer, st'))
  ∧ ((∀ name, In name known_actions → action ≠ Some name) →
     handle_ws_request session_id action request_payload st
     = (Py.Ok (error_frame unknown_action
                 ("Unknown action: " +:+ default "None" action)), st))
  ∧ (∀ req,
       parse_process_conversation request_payload = Py.Ok req →
       sessions st !! pr_session_id req = None →
       handle_ws_request session_id (Some "process_conversation")
         request_payload st
       = (Py.Ok (error_frame (status_code 404)
                   ("Session " +:+ pr_session_id req +:+ " not found.")), st))
  ∧ (∀ msg,
       parse_process_conversation request_payload = Py.Raise (Py.ValueError msg) →
       handle_ws_request session_id (Some "process_conversation")
         request_payload st
       = (Py.Ok (error_frame internal_error_code msg), st)).
Proof.
  split; [|split; [|split]].
  - apply try_except_returns. intros e s. destruct e; eexists _, _; reflexivity.
  - intros Hunknown. unfold _handle_ws_request.
    destruct action as [a|]; [|reflexivity].
    assert (Hne : ∀ name, In name known_actions → String.eqb a name = false).
    { intros name Hin. apply String.eqb_neq. intros ->.
      exact (Hunknown name Hin eq_refl). }
    unfold Py.try_except.
    rewrite !Hne by (cbn; tauto). reflexivity.
  - intros req Hparse Hnone. unfold _handle_ws_request.
    cbn [String.eqb Ascii.eqb Bool.eqb andb].
    unfold Py.try_except at 1, Py.bind at 1, Py.lift at 1. rewrite Hparse.
    unfold Py.bind at 1.
    unfold process_conversation, Py.try_except at 1, Py.bind at 1, Py.get at 1.
    rewrite Hnone. rewrite bool_decide_eq_false_2 by (intros [? [=]]).
    reflexivity.
  - intros msg Hparse. unfold _handle_ws_request.
    cbn [String.eqb Ascii.eqb Bool.eqb andb].
    unfold Py.try_except at 1, Py.bind at 1, Py.lift at 1. rewrite Hparse.
    reflexivity.
Qed.

End WsRequestProperties.
